(** * fluent-bit-go-s3: a shallow embedding of the S3 output plugin

    The development follows the two source files of the plugin:
    [s3.go] (credential resolution and configuration building) and
    [out_s3.go] (record encoding, object keys, gzip and the flush entry
    point).  Go strings are byte strings and are modelled by [string];
    [[]byte] is [list byte]; Go maps are association lists in iteration
    order.  The Go and AWS library functions the plugin calls are modelled
    in the modules of the first part, each next to a note on what it
    covers. *)

From Stdlib Require Import ZArith List String Ascii Bool Lia.
From Stdlib.Strings Require Import Byte.
Import ListNotations.

Local Open Scope string_scope.
Local Open Scope Z_scope.

(** ** Go library: [strings], [strconv] *)

Module strings.

(** [strings.Join(elems, sep)]. *)
Fixpoint Join (elems : list string) (sep : string) : string :=
  match elems with
  | [] => ""
  | [e] => e
  | e :: rest => e ++ sep ++ Join rest sep
  end.

(** [strings.HasSuffix(s, suffix)]:
    [len(s) >= len(suffix) && s[len(s)-len(suffix):] == suffix]. *)
Definition HasSuffix (s suffix : string) : bool :=
  let n := String.length s in
  let m := String.length suffix in
  (m <=? n)%nat && String.eqb (substring (n - m) m s) suffix.

(** The ASCII part of [strings.ToLower]: bytes ['A'..'Z'] are mapped to
    ['a'..'z'], every other byte is kept. *)
Definition lowerByte (c : ascii) : ascii :=
  let n := N_of_ascii c in
  if ((65 <=? n) && (n <=? 90))%N then ascii_of_N (n + 32) else c.

Fixpoint ToLowerASCII (s : string) : string :=
  match s with
  | EmptyString => EmptyString
  | String c r => String (lowerByte c) (ToLowerASCII r)
  end.

End strings.

Module strconv.

(** [strconv.ParseBool]: [None] stands for the syntax error. *)
Definition ParseBool (str : string) : option bool :=
  if existsb (String.eqb str) ["1"; "t"; "T"; "TRUE"; "true"; "True"]
  then Some true
  else if existsb (String.eqb str) ["0"; "f"; "F"; "FALSE"; "false"; "False"]
  then Some false
  else None.

Definition digit (u : Z) : ascii := ascii_of_N (48 + Z.to_N u).

(** The decimal digits of [u >= 0], most significant first, written in
    front of [acc]; [fuel] bounds their number (20 digits hold every
    64-bit value). *)
Fixpoint digits (fuel : nat) (u : Z) (acc : string) : string :=
  match fuel with
  | O => acc
  | S f =>
      if 10 <=? u
      then digits f (u / 10) (String (digit (u mod 10)) acc)
      else String (digit u) acc
  end.

(** [strconv.FormatInt(i, 10)] for a 64-bit [i]. *)
Definition FormatInt (i : Z) : string :=
  (if i <? 0 then "-" else "") ++ digits 20 (Z.abs i) "".

End strconv.

(** ** Go library: [time] *)

Module time.

(** A zone transition: from instant [when] (Unix seconds) on, local time
    is UTC plus [offset] seconds. *)
Record zoneTrans := { when : Z; offset : Z }.

(** [*time.Location]: a name, the offset in force before the first
    transition, and the transitions in increasing order of [when]. *)
Record Location := {
  name : string;
  zone0 : Z;
  tx : list zoneTrans
}.

Definition UTC : Location := {| name := "UTC"; zone0 := 0; tx := [] |}.

(** [time.FixedZone(name, offset)]. *)
Definition FixedZone (n : string) (off : Z) : Location :=
  {| name := n; zone0 := off; tx := [] |}.

(** [l.lookup(sec)]: the offset in force at instant [sec]. *)
Fixpoint lookupTx (cur : Z) (l : list zoneTrans) (sec : Z) : Z :=
  match l with
  | [] => cur
  | z :: rest => if when z <=? sec then lookupTx (offset z) rest sec else cur
  end.

Definition lookup (l : Location) (sec : Z) : Z := lookupTx (zone0 l) (tx l) sec.

(** [time.Time]: an instant (seconds and nanoseconds since the Unix
    epoch) and the location it is presented in. *)
Record Time := {
  unixSec : Z;
  nsec : Z;
  loc : Location
}.

(** [time.Unix(sec, nsec)] for [0 <= nsec < 1e9], presented in UTC. *)
Definition Unix (sec ns : Z) : Time := {| unixSec := sec; nsec := ns; loc := UTC |}.

(** [t.In(loc)]: the same instant, presented in [loc]. *)
Definition In (t : Time) (l : Location) : Time :=
  {| unixSec := unixSec t; nsec := nsec t; loc := l |}.

(** [t.After(u)]. *)
Definition After (t u : Time) : bool :=
  (unixSec u <? unixSec t) || ((unixSec u =? unixSec t) && (nsec u <? nsec t)).

Definition secondsPerDay : Z := 86400.
Definition daysPer400Years : Z := 365 * 400 + 97.
Definition daysPer100Years : Z := 365 * 100 + 24.
Definition daysPer4Years : Z := 365 * 4 + 1.
Definition absoluteZeroYear : Z := -292277022399.
(** [unixToInternal + internalToAbsolute]. *)
Definition unixToAbsolute : Z := 9223372028715321600.

(** [t.abs()]: seconds since the absolute zero year, in local time, as
    a [uint64]. *)
Definition abs (t : Time) : Z :=
  (unixSec t + lookup (loc t) (unixSec t) + unixToAbsolute) mod 2 ^ 64.

Definition isLeap (year : Z) : bool :=
  (Z.rem year 4 =? 0) && (negb (Z.rem year 100 =? 0) || (Z.rem year 400 =? 0)).

Definition daysBefore : list Z :=
  [0; 31; 59; 90; 120; 151; 181; 212; 243; 273; 304; 334; 365].

(** [absDate(abs, true)]: year, month (1..12) and day of the month. *)
Definition absDate (a : Z) : Z * Z * Z :=
  let d := a / secondsPerDay in
  let n := d / daysPer400Years in
  let y := 400 * n in
  let d := d - daysPer400Years * n in
  let n := d / daysPer100Years in
  let n := n - Z.shiftr n 2 in
  let y := y + 100 * n in
  let d := d - daysPer100Years * n in
  let n := d / daysPer4Years in
  let y := y + 4 * n in
  let d := d - daysPer4Years * n in
  let n := d / 365 in
  let n := n - Z.shiftr n 2 in
  let y := y + n in
  let d := d - 365 * n in
  let year := y + absoluteZeroYear in
  let yday := d in
  let leap := isLeap year in
  if leap && (yday =? 31 + 29 - 1) then (year, 2, 29)
  else
    let day := if leap && (31 + 29 - 1 <? yday) then yday - 1 else yday in
    let month := day / 31 in
    let endd := nth (Z.to_nat (month + 1)) daysBefore 0 in
    if endd <=? day
    then (year, month + 1 + 1, day - endd + 1)
    else (year, month + 1, day - nth (Z.to_nat month) daysBefore 0 + 1).

(** [absClock(abs)]: hour, minute and second of the day. *)
Definition absClock (a : Z) : Z * Z * Z :=
  let sec := a mod secondsPerDay in
  let hour := sec / 3600 in
  let sec := sec - hour * 3600 in
  let min := sec / 60 in
  let sec := sec - min * 60 in
  (hour, min, sec).

(** [t.Date()] and [t.Clock()]. *)
Definition Date (t : Time) : Z * Z * Z := absDate (abs t).
Definition Clock (t : Time) : Z * Z * Z := absClock (abs t).

Fixpoint zeros (n : nat) : string :=
  match n with
  | O => ""
  | S k => String "0" (zeros k)
  end.

(** [appendInt(b, x, width)], as the string appended to [b]. *)
Definition appendInt (x : Z) (width : nat) : string :=
  let sign := if x <? 0 then "-" else "" in
  let ds := strconv.digits 20 (Z.abs x) "" in
  sign ++ zeros (width - String.length ds) ++ ds.

(** [t.Format(layout)] for layouts made of the numeric reference
    chunks [2006 01 02 03 04 05 06 15 1 2 3 4 5] and of bytes that start
    no chunk.  (The alphabetic and zone chunks of [nextStdChunk] are not
    modelled: the plugin's layouts consist of digits only.) *)
Fixpoint Format (t : Time) (layout : string) : string :=
  let '(year, month, day) := Date t in
  let '(hour, min, sec) := Clock t in
  let hr12 := if Z.rem hour 12 =? 0 then 12 else Z.rem hour 12 in
  match layout with
  | EmptyString => ""
  | String "0" (String "1" r) => appendInt month 2 ++ Format t r
  | String "0" (String "2" r) => appendInt day 2 ++ Format t r
  | String "0" (String "3" r) => appendInt hr12 2 ++ Format t r
  | String "0" (String "4" r) => appendInt min 2 ++ Format t r
  | String "0" (String "5" r) => appendInt sec 2 ++ Format t r
  | String "0" (String "6" r) => appendInt (Z.rem year 100) 2 ++ Format t r
  | String "1" (String "5" r) => appendInt hour 2 ++ Format t r
  | String "1" r => appendInt month 0 ++ Format t r
  | String "2" (String "0" (String "0" (String "6" r))) =>
      appendInt year 4 ++ Format t r
  | String "2" r => appendInt day 0 ++ Format t r
  | String "3" r => appendInt hr12 0 ++ Format t r
  | String "4" r => appendInt min 0 ++ Format t r
  | String "5" r => appendInt sec 0 ++ Format t r
  | String c r => String c (Format t r)
  end.

End time.

(** ** Go library: [path/filepath] (Unix) *)

Module filepath.

(** The elements of [path] between separators (['/']); [cur] collects
    the bytes of the element being read, last byte first. *)
Fixpoint splitAcc (path : string) (cur : list ascii) : list string :=
  match path with
  | EmptyString => [string_of_list_ascii (rev cur)]
  | String c r =>
      if Ascii.eqb c "/"
      then string_of_list_ascii (rev cur) :: splitAcc r []
      else splitAcc r (c :: cur)
  end.

Definition split (path : string) : list string := splitAcc path [].

(** The element loop of [Clean]: [ups] counts the leading [..] elements
    already written (the part of the buffer below [dotdot]), [out] holds
    the elements written after them, last one first. *)
Fixpoint cleanElems (rooted : bool) (elems : list string)
         (ups : nat) (out : list string) : nat * list string :=
  match elems with
  | [] => (ups, out)
  | e :: rest =>
      if String.eqb e "" then cleanElems rooted rest ups out
      else if String.eqb e "." then cleanElems rooted rest ups out
      else if String.eqb e ".." then
        match out with
        | _ :: out' => cleanElems rooted rest ups out'
        | [] => if rooted then cleanElems rooted rest ups out
                else cleanElems rooted rest (S ups) out
        end
      else cleanElems rooted rest ups (e :: out)
  end.

(** [filepath.Clean(path)]. *)
Definition Clean (path : string) : string :=
  match path with
  | EmptyString => "."
  | String c _ =>
      let rooted := Ascii.eqb c "/" in
      let '(ups, out) := cleanElems rooted (split path) O [] in
      let body := strings.Join (repeat ".." ups ++ rev out)%list "/" in
      if rooted then String "/" body
      else if String.eqb body "" then "." else body
  end.

(** [filepath.Join(elem...)]: the elements from the first non-empty one
    on are joined with the separator and the result is cleaned. *)
Fixpoint Join (elem : list string) : string :=
  match elem with
  | [] => ""
  | e :: rest =>
      if String.eqb e "" then Join rest
      else Clean (strings.Join elem "/")
  end.

End filepath.

(** ** Bytes, [encoding/binary], [hash/crc32], [encoding/base64] *)

(** Go's [error] values are modelled by their message. *)
Definition error := string.

Definition byteZ (b : byte) : Z := Z.of_N (Byte.to_N b).

(** The conversion [byte(z)]: the low eight bits of [z]. *)
Definition Zbyte (z : Z) : byte :=
  match Byte.of_N (Z.to_N (z mod 256)) with
  | Some b => b
  | None => x00
  end.

Module binary.

(** [binary.LittleEndian.PutUint32] and [binary.LittleEndian.Uint32]. *)
Definition PutUint32 (v : Z) : list byte :=
  [Zbyte v; Zbyte (Z.shiftr v 8); Zbyte (Z.shiftr v 16); Zbyte (Z.shiftr v 24)].

Definition Uint32 (b0 b1 b2 b3 : byte) : Z :=
  Z.lor (byteZ b0)
    (Z.lor (Z.shiftl (byteZ b1) 8)
       (Z.lor (Z.shiftl (byteZ b2) 16) (Z.shiftl (byteZ b3) 24))).

Definition Uint16 (b0 b1 : byte) : Z :=
  Z.lor (byteZ b0) (Z.shiftl (byteZ b1) 8).

Definition PutUint16 (v : Z) : list byte := [Zbyte v; Zbyte (Z.shiftr v 8)].

End binary.

Module crc32.

Definition IEEE : Z := 0xedb88320.

(** One entry of the table [simpleMakeTable(IEEE)] builds: eight
    shift-and-xor rounds starting from the index. *)
Fixpoint tableRounds (n : nat) (crc : Z) : Z :=
  match n with
  | O => crc
  | S k =>
      tableRounds k
        (if Z.testbit crc 0 then Z.lxor (Z.shiftr crc 1) IEEE else Z.shiftr crc 1)
  end.

Definition IEEETable (i : Z) : Z := tableRounds 8 i.

(** [crc32.Update(crc, crc32.IEEETable, p)]. *)
Definition Update (crc : Z) (p : list byte) : Z :=
  let step crc v :=
    Z.lxor (IEEETable (Z.lxor (Z.land crc 255) (byteZ v))) (Z.shiftr crc 8) in
  Z.lxor (fold_left step p (Z.lxor crc 0xffffffff)) 0xffffffff.

Definition ChecksumIEEE (p : list byte) : Z := Update 0 p.

End crc32.

Module base64.

Definition encodeStd : string :=
  "ABCDEFGHIJKLMNOPQRSTUVWXYZabcdefghijklmnopqrstuvwxyz0123456789+/".

Definition sextet (v : Z) : ascii :=
  match String.get (Z.to_nat (Z.land v 63)) encodeStd with
  | Some c => c
  | None => "="%char
  end.

(** [base64.StdEncoding.EncodeToString]. *)
Fixpoint EncodeToString (src : list byte) : string :=
  match src with
  | [] => ""
  | [a] =>
      let v := Z.shiftl (byteZ a) 16 in
      String (sextet (Z.shiftr v 18)) (String (sextet (Z.shiftr v 12)) "==")
  | [a; b] =>
      let v := Z.lor (Z.shiftl (byteZ a) 16) (Z.shiftl (byteZ b) 8) in
      String (sextet (Z.shiftr v 18))
        (String (sextet (Z.shiftr v 12)) (String (sextet (Z.shiftr v 6)) "="))
  | a :: b :: c :: rest =>
      let v := Z.lor (Z.shiftl (byteZ a) 16)
                 (Z.lor (Z.shiftl (byteZ b) 8) (byteZ c)) in
      String (sextet (Z.shiftr v 18))
        (String (sextet (Z.shiftr v 12))
           (String (sextet (Z.shiftr v 6))
              (String (sextet v) (EncodeToString rest))))
  end.

End base64.

(** ** Go library: [compress/gzip] *)

Module gzip.

Definition gzipID1 : Z := 0x1f.
Definition gzipID2 : Z := 0x8b.
Definition gzipDeflate : Z := 8.
Definition flagHdrCrc : Z := 2.
Definition flagExtra : Z := 4.
Definition flagName : Z := 8.
Definition flagComment : Z := 16.

(** The header-string conversion of [Writer.writeString]: the runes of
    [s] (UTF-8) must be non-zero and at most [0xff]; runes above [0x7f]
    are written as one Latin-1 byte.  [None] is the error
    "non-Latin-1 header string". *)
Fixpoint latin1 (s : list byte) : option (list byte) :=
  match s with
  | [] => Some []
  | b :: rest =>
      let v := byteZ b in
      if v =? 0 then None
      else if v <? 0x80 then option_map (cons b) (latin1 rest)
      else
        match rest with
        | b2 :: rest' =>
            let v2 := byteZ b2 in
            if ((v =? 0xc2) || (v =? 0xc3)) && (0x80 <=? v2) && (v2 <=? 0xbf)
            then option_map
                   (cons (Zbyte (Z.lor (Z.shiftl (Z.land v 0x1f) 6) (Z.land v2 0x3f))))
                   (latin1 rest')
            else None
        | [] => None
        end
  end.

(** [gzip.Writer] over a [bytes.Buffer]: [w] is the buffer content,
    [pending] the bytes handed to the DEFLATE compressor so far (the
    compressor's output reaches the buffer by the time it is closed). *)
Record Writer := {
  Name : string;
  ModTime : time.Time;
  w : list byte;
  wroteHeader : bool;
  closed : bool;
  err : option error;
  size : Z;
  digest : Z;
  pending : list byte
}.

(** [gzip.NewWriter(&b)] on an empty buffer. *)
Definition NewWriter : Writer :=
  {| Name := ""; ModTime := time.Unix 0 0; w := []; wroteHeader := false;
     closed := false; err := None; size := 0; digest := 0; pending := [] |}.

Definition withHeader (z : Writer) (n : string) (mt : time.Time) : Writer :=
  {| Name := n; ModTime := mt; w := w z; wroteHeader := wroteHeader z;
     closed := closed z; err := err z; size := size z; digest := digest z;
     pending := pending z |}.

Definition withErr (z : Writer) (e : error) : Writer :=
  {| Name := Name z; ModTime := ModTime z; w := w z; wroteHeader := wroteHeader z;
     closed := closed z; err := Some e; size := size z; digest := digest z;
     pending := pending z |}.

(** The ten fixed header bytes [Write] assembles in [z.buf]. *)
Definition headerBytes (z : Writer) : list byte :=
  let flg := if String.eqb (Name z) "" then 0 else flagName in
  let mtime :=
    if time.After (ModTime z) (time.Unix 0 0)
    then binary.PutUint32 (time.unixSec (ModTime z) mod 2 ^ 32)
    else binary.PutUint32 0 in
  ([Zbyte gzipID1; Zbyte gzipID2; Zbyte gzipDeflate; Zbyte flg]
     ++ mtime ++ [Zbyte 0; Zbyte 255])%list.

(** The lazy header write at the start of [Write]. *)
Definition writeHeader (z : Writer) : Writer :=
  let z1 :=
    {| Name := Name z; ModTime := ModTime z; w := (w z ++ headerBytes z)%list;
       wroteHeader := true; closed := closed z; err := err z; size := size z;
       digest := digest z; pending := pending z |} in
  if String.eqb (Name z) "" then z1
  else
    match latin1 (list_byte_of_string (Name z)) with
    | None => withErr z1 "gzip.Write: non-Latin-1 header string"
    | Some nm =>
        {| Name := Name z1; ModTime := ModTime z1;
           w := (w z1 ++ nm ++ [x00])%list;
           wroteHeader := true; closed := closed z1; err := err z1;
           size := size z1; digest := digest z1; pending := pending z1 |}
    end.

(** [z.Write(p)]: the writer afterwards and the error returned. *)
Definition Write (z : Writer) (p : list byte) : Writer * option error :=
  match err z with
  | Some e => (z, Some e)
  | None =>
      let z1 := if wroteHeader z then z else writeHeader z in
      match err z1 with
      | Some e => (z1, Some e)
      | None =>
          ({| Name := Name z1; ModTime := ModTime z1; w := w z1;
              wroteHeader := wroteHeader z1; closed := closed z1; err := None;
              size := (size z1 + Z.of_nat (List.length p)) mod 2 ^ 32;
              digest := crc32.Update (digest z1) p;
              pending := (pending z1 ++ p)%list |}, None)
      end
  end.

Section Close.

(** The DEFLATE stream [compress/flate] produces, at the default
    level, for the bytes written to it before it is closed. *)
Variable deflate : list byte -> list byte.

(** [z.Close()]: the writer afterwards and the error returned. *)
Definition Close (z : Writer) : Writer * option error :=
  match err z with
  | Some e => (z, Some e)
  | None =>
      if closed z then (z, None)
      else
        let z1 := if wroteHeader z then z else fst (Write z []) in
        match err z1 with
        | Some e =>
            ({| Name := Name z1; ModTime := ModTime z1; w := w z1;
                wroteHeader := wroteHeader z1; closed := true; err := Some e;
                size := size z1; digest := digest z1; pending := pending z1 |},
             Some e)
        | None =>
            ({| Name := Name z1; ModTime := ModTime z1;
                w := (w z1 ++ deflate (pending z1)
                        ++ binary.PutUint32 (digest z1)
                        ++ binary.PutUint32 (size z1))%list;
                wroteHeader := wroteHeader z1; closed := true; err := None;
                size := size z1; digest := digest z1; pending := pending z1 |},
             None)
        end
  end.

End Close.

(** *** Reading a gzip stream back ([gzip.Reader] with [io.ReadAll]) *)

Section Reader.

(** The DEFLATE decoder: the decoded bytes and the input left after
    the final block; [None] when the input is not a DEFLATE stream. *)
Variable inflate : list byte -> option (list byte * list byte).

(** [z.readString()]: skip a NUL-terminated string of at most 512
    bytes (terminator included). *)
Fixpoint readString (fuel : nat) (input : list byte) : option (list byte) :=
  match fuel, input with
  | S f, b :: rest => if byteZ b =? 0 then Some rest else readString f rest
  | _, _ => None
  end.

(** [z.readHeader()]: the input left after the member header. *)
Definition readHeader (input : list byte) : option (list byte) :=
  match input with
  | i1 :: i2 :: cm :: flg :: m0 :: m1 :: m2 :: m3 :: xfl :: os :: r0 =>
      if (byteZ i1 =? gzipID1) && (byteZ i2 =? gzipID2) && (byteZ cm =? gzipDeflate)
      then
        let f := byteZ flg in
        let r1 :=
          if Z.land f flagExtra =? 0 then Some r0
          else match r0 with
               | l0 :: l1 :: r =>
                   let n := Z.to_nat (binary.Uint16 l0 l1) in
                   if (n <=? List.length r)%nat then Some (skipn n r) else None
               | _ => None
               end in
        let r2 :=
          match r1 with
          | Some r => if Z.land f flagName =? 0 then Some r else readString 512 r
          | None => None
          end in
        let r3 :=
          match r2 with
          | Some r => if Z.land f flagComment =? 0 then Some r else readString 512 r
          | None => None
          end in
        match r3 with
        | Some r =>
            if Z.land f flagHdrCrc =? 0 then Some r
            else
              match r with
              | c0 :: c1 :: r' =>
                  let hdr := firstn (List.length input - List.length r) input in
                  if binary.Uint16 c0 c1 =? Z.land (crc32.ChecksumIEEE hdr) 0xffff
                  then Some r' else None
              | _ => None
              end
        | None => None
        end
      else None
  | _ => None
  end.

(** One member: header, DEFLATE data, and the trailer with the CRC-32
    and the length modulo [2^32] of the data, both checked. *)
Definition readMember (input : list byte) : option (list byte * list byte) :=
  match readHeader input with
  | None => None
  | Some r =>
      match inflate r with
      | Some (data, c0 :: c1 :: c2 :: c3 :: s0 :: s1 :: s2 :: s3 :: rest) =>
          if (binary.Uint32 c0 c1 c2 c3 =? crc32.ChecksumIEEE data)
             && (binary.Uint32 s0 s1 s2 s3 =? Z.of_nat (List.length data) mod 2 ^ 32)
          then Some (data, rest)
          else None
      | _ => None
      end
  end.

(** All members of a (multistream) gzip file, concatenated; [fuel]
    bounds the number of members. *)
Fixpoint readAll (fuel : nat) (input : list byte) : option (list byte) :=
  match fuel with
  | O => None
  | S f =>
      match readMember input with
      | None => None
      | Some (data, []) => Some data
      | Some (data, rest) => option_map (app data) (readAll f rest)
      end
  end.

(** Decompression of a whole gzip file. *)
Definition gunzip (input : list byte) : option (list byte) :=
  readAll (S (List.length input)) input.

End Reader.

End gzip.

(** ** [logrus] and the AWS SDK's [credentials] *)

Module log.

Inductive Level :=
| PanicLevel | FatalLevel | ErrorLevel | WarnLevel | InfoLevel | DebugLevel | TraceLevel.

Definition severity (l : Level) : Z :=
  match l with
  | PanicLevel => 0 | FatalLevel => 1 | ErrorLevel => 2 | WarnLevel => 3
  | InfoLevel => 4 | DebugLevel => 5 | TraceLevel => 6
  end.

(** [logger.IsLevelEnabled(level)]. *)
Definition IsLevelEnabled (loggerLevel level : Level) : bool :=
  severity level <=? severity loggerLevel.

Section ParseLevel.

(** [strings.ToLower] (Unicode aware in Go). *)
Variable ToLower : string -> string.

(** [log.ParseLevel(lvl)]; [None] is the error "not a valid logrus
    Level". *)
Definition ParseLevel (lvl : string) : option Level :=
  let l := ToLower lvl in
  if String.eqb l "panic" then Some PanicLevel
  else if String.eqb l "fatal" then Some FatalLevel
  else if String.eqb l "error" then Some ErrorLevel
  else if String.eqb l "warn" || String.eqb l "warning" then Some WarnLevel
  else if String.eqb l "info" then Some InfoLevel
  else if String.eqb l "debug" then Some DebugLevel
  else if String.eqb l "trace" then Some TraceLevel
  else None.

End ParseLevel.

End log.

Module credentials.

Record Value := {
  AccessKeyID : string;
  SecretAccessKey : string;
  SessionToken : string;
  ProviderName : string
}.

(** A [*credentials.Credentials], identified by the provider it wraps. *)
Inductive Credentials :=
| NewSharedCredentials (filename profile : string)
| NewStaticCredentials (id secret token : string)
| NewEnvCredentials.

Section Get.

(** What the shared-credentials provider retrieves from profile
    [profile] of file [filename] (the file system is outside the
    program). *)
Variable sharedProfile : string -> string -> Value + error.
(** [os.Getenv]. *)
Variable Getenv : string -> string.

(** [creds.Get()]. *)
Definition Get (c : Credentials) : Value + error :=
  match c with
  | NewSharedCredentials filename profile => sharedProfile filename profile
  | NewStaticCredentials id secret token =>
      if String.eqb id "" || String.eqb secret ""
      then inr "EmptyStaticCreds: static credentials are empty"
      else inl {| AccessKeyID := id; SecretAccessKey := secret;
                  SessionToken := token; ProviderName := "StaticProvider" |}
  | NewEnvCredentials =>
      let id := Getenv "AWS_ACCESS_KEY_ID" in
      let id := if String.eqb id "" then Getenv "AWS_ACCESS_KEY" else id in
      let secret := Getenv "AWS_SECRET_ACCESS_KEY" in
      let secret := if String.eqb secret "" then Getenv "AWS_SECRET_KEY" else secret in
      if String.eqb id ""
      then inr "EnvAccessKeyNotFound: AWS_ACCESS_KEY_ID or AWS_ACCESS_KEY not found in environment"
      else if String.eqb secret ""
      then inr "EnvSecretNotFound: AWS_SECRET_ACCESS_KEY or AWS_SECRET_KEY not found in environment"
      else inl {| AccessKeyID := id; SecretAccessKey := secret;
                  SessionToken := Getenv "AWS_SESSION_TOKEN";
                  ProviderName := "EnvProvider" |}
  end.

End Get.

End credentials.

(** * The plugin's data ([s3.go], [out_s3.go]) *)

(** [type format int] with its two constants. *)
Inductive format := plainTextFormat | gzipFormat.

(** [s3manager.UploadInput], with the body read out of its reader. *)
Record UploadInput := { Bucket : string; Key : string; Body : list byte }.

(** An [*s3manager.Uploader], as the error its [Upload] returns for an
    input ([None] is [nil]). *)
Definition Uploader := UploadInput -> option error.

Module s3Config.
Record t := {
  credentials : credentials.Credentials;
  bucket : string;
  s3prefix : string;
  region : string;
  compress : format;
  endpoint : string;
  logLevel : log.Level;
  location : time.Location;
  autoCreateBucket : bool
}.
End s3Config.

Module s3operator.
Record t := {
  bucket : string;
  prefix : string;
  uploader : Uploader;
  compressFormat : format;
  logger : log.Level;
  location : time.Location
}.
End s3operator.

(** Map keys of dynamic type ([interface{}] holding a comparable value). *)
Inductive key :=
| KNil
| KBool (b : bool)
| KInt (z : Z)
| KFloat (bits : Z)
| KString (s : string).

#[local] Set Warnings "-register-all".

(** The dynamic values of a decoded record ([interface{}]): [VMap] is
    [map[interface{}]interface{}], [VSMap] is [map[string]interface{}],
    [VFloat] carries the IEEE-754 binary64 bit pattern. *)
Inductive value :=
| VNil
| VBool (b : bool)
| VInt (z : Z)
| VFloat (bits : Z)
| VString (s : string)
| VBytes (b : list byte)
| VArray (l : list value)
| VMap (m : list (key * value))
| VSMap (m : list (string * value)).

Definition record := list (key * value).

(** What the plugin does to the outside, in order. *)
Inductive event :=
| Println (msg : string)
| Warnf (msg : string)
| CredentialsGet (c : credentials.Credentials)
| Upload (input : UploadInput).

(** The process-wide state the plugin reads and writes: the variable
    [time.Local], the number of clock readings taken, and the events so
    far. *)
Record State := {
  Local : time.Location;
  s3operators : list s3operator.t;
  ticks : nat;
  events : list event
}.

(** Return codes of [fluent-bit-go/output]. *)
Definition FLB_ERROR : Z := 0.
Definition FLB_OK : Z := 1.
Definition FLB_RETRY : Z := 2.

(** Computations over [State]; [None] is a run-time panic. *)
Definition M (A : Type) : Type := State -> option (A * State).

Definition ret {A} (a : A) : M A := fun st => Some (a, st).

Definition bind {A B} (m : M A) (k : A -> M B) : M B :=
  fun st => match m st with
            | Some (a, st') => k a st'
            | None => None
            end.

Definition panic {A} : M A := fun _ => None.

Notation "x <- m ;; k" := (bind m (fun x => k))
  (at level 61, m at next level, right associativity).
Notation "m ;;; k" := (bind m (fun _ => k))
  (at level 61, right associativity).

Definition emit (e : event) : M unit :=
  fun st => Some (tt, {| Local := Local st; s3operators := s3operators st;
                         ticks := ticks st; events := (events st ++ [e])%list |}).

Definition getLocal : M time.Location := fun st => Some (Local st, st).

Definition setLocal (l : time.Location) : M unit :=
  fun st => Some (tt, {| Local := l; s3operators := s3operators st;
                         ticks := ticks st; events := events st |}).

(** * JSON documents

    What a JSON text denotes once parsed.  Numbers keep the Go value they
    were written from. *)

Inductive json :=
| JNull
| JBool (b : bool)
| JInt (z : Z)
| JFloat (bits : Z)
| JString (s : string)
| JArray (l : list json)
| JObject (fields : list (string * json)).

(** The member name [jsoniter] writes for a key of a
    [map[interface{}]interface{}]: strings as they are, integers and
    booleans as their text.  (Float and nil keys are not modelled and
    count as refused.) *)
Definition jsonKey (k : key) : option string :=
  match k with
  | KString s => Some s
  | KInt z => Some (strconv.FormatInt z)
  | KBool b => Some (if b then "true" else "false")
  | _ => None
  end.

Definition isInf (bits : Z) : bool :=
  (Z.land (Z.shiftr bits 52) 0x7ff =? 0x7ff)
  && (Z.land bits 0xfffffffffffff =? 0).

Definition isNaN (bits : Z) : bool :=
  (Z.land (Z.shiftr bits 52) 0x7ff =? 0x7ff)
  && negb (Z.land bits 0xfffffffffffff =? 0).

Fixpoint sequence {A} (l : list (option A)) : option (list A) :=
  match l with
  | [] => Some []
  | Some a :: rest => option_map (cons a) (sequence rest)
  | None :: _ => None
  end.

(** The document [jsoniter.Marshal] writes for a dynamic value, by the
    encoder it selects for each dynamic type: a [string] becomes a JSON
    string with the same text, a [[]byte] becomes the JSON string of its
    standard base64 encoding, NaN and infinities are refused.  ([None] is
    a marshalling error.) *)
Fixpoint jsonOf (v : value) : option json :=
  match v with
  | VNil => Some JNull
  | VBool b => Some (JBool b)
  | VInt z => Some (JInt z)
  | VFloat bits => if isNaN bits || isInf bits then None else Some (JFloat bits)
  | VString s => Some (JString s)
  | VBytes b => Some (JString (base64.EncodeToString b))
  | VArray l => option_map JArray (sequence (map jsonOf l))
  | VMap m =>
      option_map JObject
        (sequence (map (fun kv => match jsonKey (fst kv), jsonOf (snd kv) with
                                  | Some k, Some j => Some (k, j)
                                  | _, _ => None
                                  end) m))
  | VSMap m =>
      option_map JObject
        (sequence (map (fun kv => match jsonOf (snd kv) with
                                  | Some j => Some (fst kv, j)
                                  | None => None
                                  end) m))
  end.

(** The member of an object with a given name. *)
Fixpoint member (name : string) (fields : list (string * json)) : option json :=
  match fields with
  | [] => None
  | (k, j) :: rest => if String.eqb k name then Some j else member name rest
  end.

(** The value a path of member names leads to in a document. *)
Fixpoint jsonAt (path : list string) (j : json) : option json :=
  match path with
  | [] => Some j
  | name :: rest =>
      match j with
      | JObject fields =>
          match member name fields with
          | Some j' => jsonAt rest j'
          | None => None
          end
      | _ => None
      end
  end.

(** * Records as the specification describes them

    The specification's encoder is a total function on tagged values: a
    byte sequence becomes text, a nested mapping is encoded by the same
    rule, every other kind of value is kept. *)

Definition keyText (k : key) : string :=
  match k with
  | KString s => s
  | _ => ""
  end.

Definition isTextKey (k : key) : bool :=
  match k with
  | KString _ => true
  | _ => false
  end.

Fixpoint convert (v : value) : value :=
  match v with
  | VBytes b => VString (string_of_list_byte b)
  | VMap r => VSMap (map (fun '(k, x) => (keyText k, convert x)) r)
  | _ => v
  end.

Definition convertFields (r : record) : list (string * value) :=
  map (fun '(k, x) => (keyText k, convert x)) r.

Fixpoint distinct (l : list string) : bool :=
  match l with
  | [] => true
  | s :: rest => negb (existsb (String.eqb s) rest) && distinct rest
  end.

(** A value whose mappings, at every depth of nested mappings, have text
    keys that are pairwise different (as the keys of a map are). *)
Fixpoint textKeyed (v : value) : bool :=
  match v with
  | VMap r =>
      forallb (fun '(k, _) => isTextKey k) r
      && distinct (map (fun '(k, _) => keyText k) r)
      && forallb (fun '(_, x) => textKeyed x) r
  | _ => true
  end.

(** The values of the kinds the encoder keeps as they are and that hold
    no further values. *)
Definition isScalar (v : value) : bool :=
  match v with
  | VNil | VBool _ | VInt _ | VFloat _ | VString _ => true
  | _ => false
  end.

(** [r[name]] on a [map[interface{}]interface{}]. *)
Fixpoint field (name : string) (r : record) : option value :=
  match r with
  | [] => None
  | (KString s, x) :: rest => if String.eqb s name then Some x else field name rest
  | _ :: rest => field name rest
  end.

(** [m[name]] on a [map[string]interface{}]. *)
Fixpoint entry (name : string) (m : list (string * value)) : option value :=
  match m with
  | [] => None
  | (s, x) :: rest => if String.eqb s name then Some x else entry name rest
  end.

(** The value a path of field names leads to: in a record, through its
    nested mappings; in an encoded record, through its nested encoded
    mappings. *)
Fixpoint recordAt (path : list string) (v : value) : option value :=
  match path with
  | [] => Some v
  | name :: rest =>
      match v with
      | VMap r => match field name r with
                  | Some x => recordAt rest x
                  | None => None
                  end
      | _ => None
      end
  end.

Fixpoint encodedAt (path : list string) (v : value) : option value :=
  match path with
  | [] => Some v
  | name :: rest =>
      match v with
      | VSMap m => match entry name m with
                   | Some x => encodedAt rest x
                   | None => None
                   end
      | _ => None
      end
  end.

(** * Sample surroundings

    Concrete instances of what the plugin takes from outside, used to run
    the functions on examples. *)

Module flate.

(** A DEFLATE encoder that uses stored blocks only (BTYPE 00, at most
    65535 bytes each, the last one marked final), and the decoder for
    such streams. *)
Definition maxStoreBlockSize : nat := Z.to_nat 65535.

Definition storedBlock (final : bool) (data : list byte) : list byte :=
  let n := Z.of_nat (List.length data) in
  ((if final then x01 else x00)
     :: binary.PutUint16 n ++ binary.PutUint16 (Z.lxor n 0xffff) ++ data)%list.

Fixpoint storedBlocks (fuel : nat) (data : list byte) : list byte :=
  match fuel with
  | O => storedBlock true []
  | S f =>
      if (List.length data <=? maxStoreBlockSize)%nat
      then storedBlock true data
      else (storedBlock false (firstn maxStoreBlockSize data)
              ++ storedBlocks f (skipn maxStoreBlockSize data))%list
  end.

Definition deflateStored (data : list byte) : list byte :=
  storedBlocks (List.length data) data.

Fixpoint inflateBlocks (fuel : nat) (input : list byte)
  : option (list byte * list byte) :=
  match fuel with
  | O => None
  | S f =>
      match input with
      | hdr :: l0 :: l1 :: n0 :: n1 :: r =>
          let len := binary.Uint16 l0 l1 in
          if (Z.land (Z.shiftr (byteZ hdr) 1) 3 =? 0)
             && (binary.Uint16 n0 n1 =? Z.lxor len 0xffff)
             && (Z.to_nat len <=? List.length r)%nat
          then
            let data := firstn (Z.to_nat len) r in
            let rest := skipn (Z.to_nat len) r in
            if Z.testbit (byteZ hdr) 0 then Some (data, rest)
            else
              match inflateBlocks f rest with
              | Some (more, rest') => Some ((data ++ more)%list, rest')
              | None => None
              end
          else None
      | _ => None
      end
  end.

Definition inflateStored (input : list byte) : option (list byte * list byte) :=
  inflateBlocks (List.length input) input.

End flate.

Module sample.

Definition hexDigit (v : Z) : ascii :=
  match String.get (Z.to_nat (Z.land v 15)) "0123456789abcdef" with
  | Some c => c
  | None => "0"%char
  end.

(** The body of a JSON string literal as [jsoniter] writes it with HTML
    escaping, for text without runes above [0x7f]. *)
Fixpoint escape (s : string) : string :=
  match s with
  | EmptyString => ""
  | String c r =>
      let n := Z.of_N (N_of_ascii c) in
      if (n =? 34) || (n =? 92) then String "\" (String c (escape r))
      else if n =? 10 then "\n" ++ escape r
      else if n =? 13 then "\r" ++ escape r
      else if n =? 9 then "\t" ++ escape r
      else if (n <? 32) || (n =? 60) || (n =? 62) || (n =? 38)
      then "\u00" ++ String (hexDigit (Z.shiftr n 4)) (String (hexDigit n) (escape r))
      else String c (escape r)
  end.

Definition quote (s : string) : string :=
  String "034" (escape s ++ String "034" "").

(** The text of a document without floats. *)
Fixpoint render (j : json) : option string :=
  match j with
  | JNull => Some "null"
  | JBool b => Some (if b then "true" else "false")
  | JInt z => Some (strconv.FormatInt z)
  | JFloat _ => None
  | JString s => Some (quote s)
  | JArray l =>
      option_map (fun items => "[" ++ strings.Join items "," ++ "]")
        (sequence (map render l))
  | JObject fields =>
      option_map (fun items => "{" ++ strings.Join items "," ++ "}")
        (sequence (map (fun kv => option_map (fun t => quote (fst kv) ++ ":" ++ t)
                                    (render (snd kv))) fields))
  end.

(** A marshaller that agrees with [jsoniter.Marshal] on maps whose
    values hold no floats and only ASCII text. *)
Definition Marshal (m : list (string * value)) : string + error :=
  match jsonOf (VSMap m) with
  | Some j =>
      match render j with
      | Some text => inl text
      | None => inr "sample marshaller: floats are not rendered"
      end
  | None => inr "unsupported value"
  end.

Definition sharedProfile (filename profile : string) : credentials.Value + error :=
  if String.eqb filename "/fluent-bit/.aws/credentials" && String.eqb profile "default"
  then inl {| credentials.AccessKeyID := "AKIDEXAMPLE";
              credentials.SecretAccessKey := "wJalrXUtnFEMI";
              credentials.SessionToken := "";
              credentials.ProviderName := "SharedCredentialsProvider" |}
  else inr "SharedCredsLoad: failed to load shared credentials file".

Definition noEnv (name : string) : string := "".

Definition awsEnv (name : string) : string :=
  if String.eqb name "AWS_ACCESS_KEY_ID" then "AKIDENV"
  else if String.eqb name "AWS_SECRET_ACCESS_KEY" then "secretenv"
  else "".

Definition JST : time.Location :=
  {| time.name := "Asia/Tokyo"; time.zone0 := 32400; time.tx := [] |}.

(** Berlin with the two transitions of 2024. *)
Definition Berlin : time.Location :=
  {| time.name := "Europe/Berlin"; time.zone0 := 3600;
     time.tx := [ {| time.when := 1711846800; time.offset := 7200 |};
                  {| time.when := 1729990800; time.offset := 3600 |} ] |}.

Definition zoneinfo (name : string) : time.Location + error :=
  if String.eqb name "Asia/Tokyo" then inl JST
  else if String.eqb name "Europe/Berlin" then inl Berlin
  else inr ("unknown time zone " ++ name).

(** A clock that starts at 2024-03-05T08:07:09Z and advances by one
    second per reading. *)
Definition clock (n : nat) : Z * Z := (1709626029 + Z.of_nat n, 0).

Definition alwaysOk : Uploader := fun _ => None.
Definition alwaysFails : Uploader := fun _ => Some "RequestError: send request failed".

Definition operator (up : Uploader) (f : format) : s3operator.t :=
  {| s3operator.bucket := "bucket"; s3operator.prefix := "logs";
     s3operator.uploader := up; s3operator.compressFormat := f;
     s3operator.logger := log.InfoLevel; s3operator.location := time.UTC |}.

Definition state (ops : list s3operator.t) : State :=
  {| Local := time.UTC; s3operators := ops; ticks := O; events := [] |}.

(** Two objects of a batch: a record with a nested mapping and byte
    sequences, and one whose float the sample marshaller refuses. *)
Definition helloFields : record :=
  [(KString "log", VBytes (list_byte_of_string "hello"));
   (KString "k8s", VMap [(KString "pod", VBytes (list_byte_of_string "web-1"))]);
   (KString "n", VInt 7)].

Definition helloRecord : value := VArray [VInt 1709626029; VMap helloFields].

Definition floatRecord : value :=
  VArray [VInt 1709626030; VMap [(KString "ratio", VFloat 0x3ff8000000000000)]].

End sample.

(** * The host side of the plugin

    At start-up the plugin talks to the host ([fluent-bit-go/output]:
    configuration keys, plugin contexts, unregistering), to its loggers
    and to the storage service (bucket creation), and it may end the
    process.  These dealings are kept in a trail of their own, next to
    the process state of the flush path. *)

Module aws.

(** [aws.Config], the fields the plugin sets. *)
Record Config := {
  Credentials : credentials.Credentials;
  Region : string;
  Endpoint : option string;
  S3ForcePathStyle : option bool
}.

Definition WithEndpoint (c : Config) (endpoint : string) : Config :=
  {| Credentials := Credentials c; Region := Region c; Endpoint := Some endpoint;
     S3ForcePathStyle := S3ForcePathStyle c |}.

Definition WithS3ForcePathStyle (c : Config) (force : bool) : Config :=
  {| Credentials := Credentials c; Region := Region c; Endpoint := Endpoint c;
     S3ForcePathStyle := Some force |}.

End aws.

Module awserr.

(** An error the SDK returns: its text, and its code when it is an
    [awserr.Error]. *)
Record t := { Code : option string; Error : error }.

End awserr.

Module s3.

(** [s3.CreateBucketInput]: the bucket, and the location constraint of
    its [CreateBucketConfiguration] when it has one. *)
Record CreateBucketInput := {
  Bucket : string;
  LocationConstraint : option string
}.

Definition ErrCodeBucketAlreadyExists : string := "BucketAlreadyExists".
Definition ErrCodeBucketAlreadyOwnedByYou : string := "BucketAlreadyOwnedByYou".

End s3.

(** What the plugin does to the host, to the log and to the storage
    service at start-up, in order.  [Infof] and [Tracef] are lines a
    logger wrote, its level admitting them. *)
Inductive hostEvent :=
| Infof (msg : string)
| Tracef (msg : string)
| FLBPluginSetContext (ctx : Z) (id : nat)
| FLBPluginUnregister (ctx : Z)
| CreateBucketCall (session : aws.Config) (input : s3.CreateBucketInput).

(** The process with its host: the process state, the configuration of
    the plugin instances (instance and key to value) and the trail. *)
Record Host := {
  process : State;
  configKeys : Z -> string -> string;
  trail : list hostEvent
}.

(** How a computation ends: it returns, the process exits with a
    status ([os.Exit]), or it panics. *)
Inductive outcome (A : Type) :=
| Returned (a : A) (h : Host)
| Exited (code : Z) (h : Host)
| Panicked.

Arguments Returned {A} a h.
Arguments Exited {A} code h.
Arguments Panicked {A}.

Definition H (A : Type) : Type := Host -> outcome A.

Definition retH {A} (a : A) : H A := fun h => Returned a h.

Definition bindH {A B} (m : H A) (k : A -> H B) : H B :=
  fun h => match m h with
           | Returned a h' => k a h'
           | Exited code h' => Exited code h'
           | Panicked => Panicked
           end.

Notation "x <~ m ;; k" := (bindH m (fun x => k))
  (at level 61, m at next level, right associativity).
Notation "m ;;~ k" := (bindH m (fun _ => k))
  (at level 61, right associativity).

(** A computation of the flush path, run on the process state. *)
Definition liftM {A} (m : M A) : H A :=
  fun h => match m (process h) with
           | Some (a, st) =>
               Returned a {| process := st; configKeys := configKeys h;
                             trail := trail h |}
           | None => Panicked
           end.

Definition emitH (e : hostEvent) : H unit :=
  fun h => Returned tt {| process := process h; configKeys := configKeys h;
                          trail := (trail h ++ [e])%list |}.

(** [len(s3operators)] and [s3operators = append(s3operators, operator)]. *)
Definition lenOperators : H nat :=
  fun h => Returned (List.length (s3operators (process h))) h.

Definition appendOperator (operator : s3operator.t) : H unit :=
  fun h =>
    Returned tt
      {| process := {| Local := Local (process h);
                       s3operators := (s3operators (process h) ++ [operator])%list;
                       ticks := ticks (process h);
                       events := events (process h) |};
         configKeys := configKeys h; trail := trail h |}.

(** ** Sample host *)

Module hostSample.

(** Three plugin instances: instance 1 compresses and writes in the
    zone of Tokyo, instance 2 also asks for its bucket to be created,
    instance 3 names no bucket. *)
Definition keys (ctx : Z) (key : string) : string :=
  if String.eqb key "AccessKeyID" then "AKIDEXAMPLE0"
  else if String.eqb key "SecretAccessKey" then "wJalrXUtnFEMI"
  else if String.eqb key "Bucket" then (if ctx =? 3 then "" else "bucket")
  else if String.eqb key "S3Prefix" then "logs"
  else if String.eqb key "Region" then "ap-northeast-1"
  else if String.eqb key "Compress" then "gzip"
  else if String.eqb key "TimeZone" then "Asia/Tokyo"
  else if String.eqb key "AutoCreateBucket" then (if ctx =? 2 then "true" else "")
  else "".

(** The same instances with another pair of keys, which begin and end
    as the first pair does. *)
Definition otherKeys (ctx : Z) (key : string) : string :=
  if String.eqb key "AccessKeyID" then "AKIDANOTHERONE0"
  else if String.eqb key "SecretAccessKey" then "w0123456789I"
  else keys ctx key.

Definition versionInfo (_ : unit) : string :=
  "(version=1.0.0, branch=master, revision=0)".

Definition NewUploader (cfg : aws.Config) : Uploader := sample.alwaysOk.

(** A storage service in which the bucket exists and is ours. *)
Definition CreateBucket (cfg : aws.Config) (input : s3.CreateBucketInput)
  : string * option awserr.t :=
  ("{}", Some {| awserr.Code := Some "BucketAlreadyOwnedByYou";
                 awserr.Error := "BucketAlreadyOwnedByYou: Your previous request to create the named bucket succeeded and you already own it." |}).

Definition host (ops : list s3operator.t) : Host :=
  {| process := sample.state ops; configKeys := keys; trail := [] |}.

End hostSample.

(** * The plugin's functions *)

Section Plugin.

(** The outside of the program: the shared credentials files, the
    process environment, [strings.ToLower], the time zone database, the
    wall clock (reading number [n] gives seconds and nanoseconds since
    the Unix epoch), [jsoniter.Marshal] and the DEFLATE compressor. *)
Variable sharedProfile : string -> string -> credentials.Value + error.
Variable Getenv : string -> string.
Variable ToLower : string -> string.
Variable zoneinfo : string -> time.Location + error.
Variable clock : nat -> Z * Z.
Variable Marshal : list (string * value) -> string + error.
Variable deflate : list byte -> list byte.

(** [time.Now()]. *)
Definition Now : M time.Time :=
  fun st =>
    let '(s, ns) := clock (ticks st) in
    Some ({| time.unixSec := s; time.nsec := ns; time.loc := Local st |},
          {| Local := Local st; s3operators := s3operators st;
             ticks := S (ticks st); events := events st |}).

(** [name] contains the substring [".."] ([containsDotDot]). *)
Fixpoint containsDotDot (s : string) : bool :=
  match s with
  | String "." (String "." _) => true
  | String _ r => containsDotDot r
  | EmptyString => false
  end.

(** [time.LoadLocation(name)]. *)
Definition LoadLocation (name : string) : M (time.Location + error) :=
  if String.eqb name "" || String.eqb name "UTC" then ret (inl time.UTC)
  else if String.eqb name "Local" then (l <- getLocal ;; ret (inl l))
  else if containsDotDot name
          || String.eqb (substring 0 1 name) "/"
          || String.eqb (substring 0 1 name) "\"
  then ret (inr "time: invalid location name")
  else ret (zoneinfo name).

(** [creds.Get()], recorded as an event. *)
Definition credsGet (creds : credentials.Credentials)
  : M (credentials.Value + error) :=
  emit (CredentialsGet creds) ;;;
  ret (credentials.Get sharedProfile Getenv creds).

(** ** [s3.go] *)

Definition GetCredentials (accessKeyID secretKey credential : string)
  : M (credentials.Credentials + error) :=
  if negb (String.eqb credential "") then
    let creds := credentials.NewSharedCredentials credential "default" in
    r <- credsGet creds ;;
    match r with
    | inr err =>
        emit (Println ("[SharedCredentials] ERROR: " ++ err)) ;;;
        ret (inr "Failed to create credentials")
    | inl _ => ret (inl creds)
    end
  else if negb (String.eqb accessKeyID "" && String.eqb secretKey "") then
    let creds := credentials.NewStaticCredentials accessKeyID secretKey "" in
    r <- credsGet creds ;;
    match r with
    | inr err =>
        emit (Println ("[StaticCredentials] ERROR: " ++ err)) ;;;
        ret (inr "Failed to create credentials")
    | inl _ => ret (inl creds)
    end
  else
    let creds := credentials.NewEnvCredentials in
    r <- credsGet creds ;;
    match r with
    | inr err =>
        emit (Println ("[EnvCredentials] ERROR: " ++ err)) ;;;
        ret (inr "Failed to create credentials")
    | inl _ => ret (inl creds)
    end.

Definition getS3Config
  (accessID secretKey credential s3prefix bucket region compress endpoint
     autoCreateBucket logLevel timeZone : string) : M (s3Config.t + error) :=
  r <- GetCredentials accessID secretKey credential ;;
  match r with
  | inr _ => ret (inr "Failed to create credentials")
  | inl creds =>
      if String.eqb bucket "" then
        ret (inr "Cannot specify empty string to bucket name")
      else if String.eqb s3prefix "" then
        ret (inr "Cannot specify empty string to s3prefix")
      else if String.eqb region "" then
        ret (inr "Cannot specify empty string to region")
      else
        let conf_compress :=
          if String.eqb compress "gzip" then gzipFormat else plainTextFormat in
        if negb (String.eqb endpoint "")
           && strings.HasSuffix endpoint "amazonaws.com"
        then ret (inr "Endpoint is not supported for AWS S3. This parameter is intended for S3 compatible services. Use Region instead.")
        else
          let conf_autoCreateBucket :=
            match strconv.ParseBool autoCreateBucket with
            | None => false
            | Some isAutoCreateBucket => isAutoCreateBucket
            end in
          let logLevel := if String.eqb logLevel "" then "info" else logLevel in
          match log.ParseLevel ToLower logLevel with
          | None => ret (inr ("invalid log level: " ++ logLevel))
          | Some level =>
              let conf loc :=
                {| s3Config.credentials := creds;
                   s3Config.bucket := bucket;
                   s3Config.s3prefix := s3prefix;
                   s3Config.region := region;
                   s3Config.compress := conf_compress;
                   s3Config.endpoint := endpoint;
                   s3Config.logLevel := level;
                   s3Config.location := loc;
                   s3Config.autoCreateBucket := conf_autoCreateBucket |} in
              if negb (String.eqb timeZone "") then
                r <- LoadLocation timeZone ;;
                match r with
                | inr err => ret (inr ("invalid timeZone: " ++ err))
                | inl loc => ret (inl (conf loc))
                end
              else
                l <- getLocal ;; ret (inl (conf l))
          end
  end.

(** ** [out_s3.go] *)

(** [output.NewDecoder(data, length)]: the decoder state is the
    sequence of MessagePack objects still to be read from the buffer. *)
Definition FLBDecoder := list value.

Definition NewDecoder (data : list value) : FLBDecoder := data.

(** What [output.GetRecord] makes of one decoded object: the return
    code, the timestamp and the record.  An object that is no slice of
    two elements gives [-2], one whose second element is no
    [map[interface{}]interface{}] gives [-3]. *)
Definition recordOf (obj : value) : Z * value * record :=
  match obj with
  | VArray [t; VMap m] => (0, t, m)
  | VArray [_; _] => (-3, VInt 0, [])
  | VBytes [_; _] => (-3, VInt 0, [])
  | _ => (-2, VInt 0, [])
  end.

(** [output.GetRecord(dec)]: [-1] when no further object can be
    decoded. *)
Definition GetRecord (dec : FLBDecoder) : (Z * value * record) * FLBDecoder :=
  match dec with
  | [] => ((-1, VInt 0, []), [])
  | obj :: rest => (recordOf obj, rest)
  end.

(** [makeGzip(body)]: the buffer content and the error of the write.
    The deferred [Close] runs before the buffer is read; its own error
    is dropped. *)
Definition makeGzip (body : list byte) : M (list byte * option error) :=
  now <- Now ;;
  let gw := gzip.withHeader gzip.NewWriter "fluent-bit-go-s3" now in
  let '(gw, err) := gzip.Write gw body in
  let '(gw, _) := gzip.Close deflate gw in
  ret (gzip.w gw, err).

(** [s3operator.uploader.Upload(input)], recorded as an event. *)
Definition Upload_ (op : s3operator.t) (input : UploadInput) : M (option error) :=
  emit (Upload input) ;;;
  ret (s3operator.uploader op input).

(** [(p *fluentPlugin) Put]. *)
Definition Put (op : s3operator.t) (objectKey : string) (timestamp : time.Time)
           (line : string) : M (option error) :=
  match s3operator.compressFormat op with
  | plainTextFormat =>
      Upload_ op {| Bucket := s3operator.bucket op; Key := objectKey;
                    Body := list_byte_of_string line |}
  | gzipFormat =>
      r <- makeGzip (list_byte_of_string line) ;;
      match r with
      | (_, Some err) => ret (Some err)
      | (compressed, None) =>
          Upload_ op {| Bucket := s3operator.bucket op; Key := objectKey;
                        Body := compressed |}
      end
  end.

(** [s3operators[operatorID]]: an index out of range panics. *)
Definition getS3Operator (ctx : nat) : M s3operator.t :=
  fun st => match nth_error (s3operators st) ctx with
            | Some op => Some (op, st)
            | None => None
            end.

(** [t.Local()]: the instant [t] presented in the current [time.Local]. *)
Definition Local_ (t : time.Time) : M time.Time :=
  l <- getLocal ;; ret (time.In t l).

Definition GenerateObjectKey (op : s3operator.t) (t : time.Time) : M string :=
  let fileext :=
    match s3operator.compressFormat op with
    | plainTextFormat => ".log"
    | gzipFormat => ".log.gz"
    end in
  setLocal (s3operator.location op) ;;;
  t1 <- Local_ t ;;
  let timestamp := time.Format t1 "20060102150405" in
  t2 <- Local_ t ;;
  let date := time.Format t2 "20060102" in
  t3 <- Local_ t ;;
  let hour := time.Format t3 "15" in
  let fileName := strings.Join [timestamp; fileext] "" in
  let objectKey := filepath.Join [s3operator.prefix op; date; hour; fileName] in
  ret objectKey.

(** [k.(string)]: [None] is the panic of the failed type assertion. *)
Definition keyString (k : key) : option string :=
  match k with
  | KString s => Some s
  | _ => None
  end.

(** Whether indexing a map with a key taken from its own [range] finds
    the entry again: always, except for a NaN key, which equals no key. *)
Definition findsItself (k : key) : bool :=
  match k with
  | KFloat bits => negb (isNaN bits)
  | _ => true
  end.

(** [m[k] = v] on a [map[string]interface{}]. *)
Fixpoint mapSet (m : list (string * value)) (k : string) (v : value)
  : list (string * value) :=
  match m with
  | [] => [(k, v)]
  | (k', v') :: rest =>
      if String.eqb k' k then (k, v) :: rest else (k', v') :: mapSet rest k v
  end.

(** The [range] loop of [encodeJSON] over the entries [l] still to be
    visited, [m] being the map built so far and [enc] the recursive
    call.  In the nested-map case [record[k]] is the entry being
    visited, which the lookup finds unless the key is NaN. *)
Definition rangeRecord (enc : value -> option (list (string * value)))
  : record -> list (string * value) -> option (list (string * value)) :=
  fix range (l : record) (m : list (string * value)) :=
    match l with
    | [] => Some m
    | (k, v) :: rest =>
        match v with
        | VBytes t =>
            match keyString k with
            | Some ks => range rest (mapSet m ks (VString (string_of_list_byte t)))
            | None => None
            end
        | VMap _ =>
            if findsItself k then
              match keyString k, enc v with
              | Some ks, Some next => range rest (mapSet m ks (VSMap next))
              | _, _ => None
              end
            else range rest m
        | _ =>
            match keyString k with
            | Some ks => range rest (mapSet m ks v)
            | None => None
            end
        end
    end.

(** [encodeJSON] on the map a value holds ([None] also for a value that
    is no [map[interface{}]interface{}]; the loop calls it on maps only). *)
Fixpoint encodeJSONValue (v : value) : option (list (string * value)) :=
  match v with
  | VMap record => rangeRecord encodeJSONValue record []
  | _ => None
  end.

(** [encodeJSON(record)]; [None] is a panic. *)
Definition encodeJSON (record : record) : option (list (string * value)) :=
  encodeJSONValue (VMap record).

(** [createJSON(record)]: the line and the error. *)
Definition createJSON (record : record) : M (string * option error) :=
  match encodeJSON record with
  | None => panic
  | Some m =>
      match Marshal m with
      | inr err => ret ("{}", Some err)
      | inl js => ret (js, None)
      end
  end.

(** [logger.Warnf] of the operator's logger. *)
Definition warnf (op : s3operator.t) (msg : string) : M unit :=
  if log.IsLevelEnabled (s3operator.logger op) log.WarnLevel
  then emit (Warnf msg) else ret tt.

(** The record loop of [FLBPluginFlushCtx]. *)
Fixpoint readRecords (op : s3operator.t) (dec : FLBDecoder) (lines : string)
  : M string :=
  match dec with
  | [] => ret lines
  | obj :: dec' =>
      let '(r, _, record) := recordOf obj in
      if negb (r =? 0) then ret lines
      else
        c <- createJSON record ;;
        match c with
        | (_, Some err) =>
            warnf op ("error creating message for S3: " ++ err) ;;;
            readRecords op dec' lines
        | (line, None) =>
            readRecords op dec' (lines ++ line ++ String "010" "")
        end
  end.

Definition FLBPluginFlushCtx (ctx : nat) (data : list value) : M Z :=
  s3operator <- getS3Operator ctx ;;
  let dec := NewDecoder data in
  lines <- readRecords s3operator dec "" ;;
  now <- Now ;;
  objectKey <- GenerateObjectKey s3operator now ;;
  now' <- Now ;;
  err <- Put s3operator objectKey now' lines ;;
  match err with
  | Some e =>
      warnf s3operator ("error sending message for S3: " ++ e) ;;;
      ret FLB_RETRY
  | None => ret FLB_OK
  end.

(** [obfuscateSecret(message)]: what the start-up log shows of a key. *)
Definition obfuscateSecret (message : string) : string :=
  let res := "" in
  let msgLen := String.length message in
  if (0 <? msgLen)%nat then
    if (3 <=? msgLen)%nat then
      substring 0 1 message ++ "..."
        ++ substring (msgLen - 1) (msgLen - (msgLen - 1)) message
    else if (msgLen <? 3)%nat then substring 0 1 message ++ "..."
    else res
  else res.

(** ** Start-up ([out_s3.go]) *)

(** More of the outside: [version.Info], the uploader the SDK builds
    for a session, and the answer of the storage service to a request to
    create a bucket (the result as [%s] prints it, and the error). *)
Variable versionInfo : unit -> string.
Variable NewUploader : aws.Config -> Uploader.
Variable CreateBucket : aws.Config -> s3.CreateBucketInput -> string * option awserr.t.

(** [newLogger(logLevel)]: a logger is known by its level. *)
Definition newLogger (logLevel : log.Level) : log.Level :=
  let logger := logLevel in
  logger.

(** The package's [logger], as [init] sets it: [ParseLevel] returns
    the zero level next to an error, which [init] drops. *)
Definition logger : log.Level :=
  let logLevel := match log.ParseLevel ToLower "info" with
                  | Some l => l
                  | None => log.PanicLevel
                  end in
  newLogger logLevel.

(** [l.Infof] and [l.Tracef], the message already formatted. *)
Definition infof (l : log.Level) (msg : string) : H unit :=
  if log.IsLevelEnabled l log.InfoLevel then emitH (Infof msg) else retH tt.

Definition tracef (l : log.Level) (msg : string) : H unit :=
  if log.IsLevelEnabled l log.TraceLevel then emitH (Tracef msg) else retH tt.

(** The verbs [%d] of an [int] and [%s] of an [error]. *)
Definition fmtInt (n : nat) : string := strconv.FormatInt (Z.of_nat n).

Definition fmtError (err : option awserr.t) : string :=
  match err with
  | Some e => awserr.Error e
  | None => "%!s(<nil>)"
  end.

(** The methods of [fluentPlugin] that reach the host. *)
Definition PluginConfigKey (ctx : Z) (key : string) : H string :=
  fun h => Returned (configKeys h ctx key) h.

Definition Unregister (ctx : Z) : H unit := emitH (FLBPluginUnregister ctx).

Definition Exit (code : Z) : H unit := fun h => Exited code h.

(** [svc.CreateBucket(input)], recorded in the trail. *)
Definition CreateBucket_ (session : aws.Config) (input : s3.CreateBucketInput)
  : H (string * option awserr.t) :=
  emitH (CreateBucketCall session input) ;;~
  retH (CreateBucket session input).

Definition ensureBucket (session : aws.Config) (bucket region : string)
  : H (bool * option error) :=
  let input :=
    if String.eqb region "us-east-1"
    then {| s3.Bucket := bucket; s3.LocationConstraint := None |}
    else {| s3.Bucket := bucket; s3.LocationConstraint := Some region |} in
  r <~ CreateBucket_ session input ;;
  let '(result, err) := r in
  tracef logger ("CreateBucket request result is: " ++ result ++ ", err: "
                   ++ fmtError err) ;;~
  match err with
  | Some aerr =>
      match awserr.Code aerr with
      | Some code =>
          if String.eqb code s3.ErrCodeBucketAlreadyExists then
            tracef logger ("Bucket(" ++ bucket ++ ") is already exists.") ;;~
            retH (true, None)
          else if String.eqb code s3.ErrCodeBucketAlreadyOwnedByYou then
            tracef logger ("Bucket(" ++ bucket ++ ") is already owned by you.") ;;~
            retH (true, None)
          else
            tracef logger ("CreateBucket is failed with: " ++ awserr.Error aerr) ;;~
            retH (false, Some (awserr.Error aerr))
      | None => retH (false, Some (awserr.Error aerr))
      end
  | None => retH (true, None)
  end.

Definition newS3Output (ctx : Z) (operatorID : nat) : H (s3operator.t + error) :=
  credential <~ PluginConfigKey ctx "Credential" ;;
  accessKeyID <~ PluginConfigKey ctx "AccessKeyID" ;;
  secretAccessKey <~ PluginConfigKey ctx "SecretAccessKey" ;;
  bucket <~ PluginConfigKey ctx "Bucket" ;;
  s3prefix <~ PluginConfigKey ctx "S3Prefix" ;;
  region <~ PluginConfigKey ctx "Region" ;;
  compress <~ PluginConfigKey ctx "Compress" ;;
  endpoint <~ PluginConfigKey ctx "Endpoint" ;;
  autoCreateBucket <~ PluginConfigKey ctx "AutoCreateBucket" ;;
  logLevel <~ PluginConfigKey ctx "LogLevel" ;;
  timeZone <~ PluginConfigKey ctx "TimeZone" ;;
  r <~ liftM (getS3Config accessKeyID secretAccessKey credential s3prefix bucket
                region compress endpoint autoCreateBucket logLevel timeZone) ;;
  match r with
  | inr err => retH (inr err)
  | inl config =>
      let logger := newLogger (s3Config.logLevel config) in
      let id := "[flb-go " ++ fmtInt operatorID ++ "] " in
      infof logger (id ++ "Starting fluent-bit-go-s3: " ++ versionInfo tt) ;;~
      infof logger (id ++ "plugin credential parameter = '" ++ credential ++ "'") ;;~
      infof logger (id ++ "plugin accessKeyID parameter = '"
                      ++ obfuscateSecret accessKeyID ++ "'") ;;~
      infof logger (id ++ "plugin secretAccessKey parameter = '"
                      ++ obfuscateSecret secretAccessKey ++ "'") ;;~
      infof logger (id ++ "plugin bucket parameter = '" ++ bucket ++ "'") ;;~
      infof logger (id ++ "plugin s3prefix parameter = '" ++ s3prefix ++ "'") ;;~
      infof logger (id ++ "plugin region parameter = '" ++ region ++ "'") ;;~
      infof logger (id ++ "plugin compress parameter = '" ++ compress ++ "'") ;;~
      infof logger (id ++ "plugin endpoint parameter = '" ++ endpoint ++ "'") ;;~
      infof logger (id ++ "plugin autoCreateBucket parameter = '"
                      ++ autoCreateBucket ++ "'") ;;~
      infof logger (id ++ "plugin timeZone parameter = '" ++ timeZone ++ "'") ;;~
      let cfg := {| aws.Credentials := s3Config.credentials config;
                    aws.Region := s3Config.region config;
                    aws.Endpoint := None;
                    aws.S3ForcePathStyle := None |} in
      let cfg := if negb (String.eqb (s3Config.endpoint config) "")
                 then aws.WithS3ForcePathStyle
                        (aws.WithEndpoint cfg (s3Config.endpoint config)) true
                 else cfg in
      let sess := cfg in
      err <~ (if s3Config.autoCreateBucket config
              then r <~ ensureBucket sess (s3Config.bucket config)
                          (s3Config.region config) ;;
                   retH (snd r)
              else retH None) ;;
      match err with
      | Some e => retH (inr e)
      | None =>
          let uploader := NewUploader sess in
          retH (inl {| s3operator.bucket := s3Config.bucket config;
                       s3operator.prefix := s3Config.s3prefix config;
                       s3operator.uploader := uploader;
                       s3operator.compressFormat := s3Config.compress config;
                       s3operator.logger := logger;
                       s3operator.location := s3Config.location config |})
      end
  end.

Definition addS3Output (ctx : Z) : H (option error) :=
  operatorID <~ lenOperators ;;
  infof logger ("[s3operator] id = " ++ fmtInt operatorID) ;;~
  emitH (FLBPluginSetContext ctx operatorID) ;;~
  r <~ newS3Output ctx operatorID ;;
  match r with
  | inr err => retH (Some err)
  | inl operator =>
      appendOperator operator ;;~
      retH None
  end.

Definition FLBPluginInit (ctx : Z) : H Z :=
  err <~ addS3Output ctx ;;
  match err with
  | Some e =>
      infof logger ("Error: " ++ e) ;;~
      Unregister ctx ;;~
      Exit 1 ;;~
      retH FLB_ERROR
  | None => retH FLB_OK
  end.

(** ** Notions used in the statements *)

(** The state after further events. *)
Definition addEvents (st : State) (evs : list event) : State :=
  {| Local := Local st; s3operators := s3operators st; ticks := ticks st;
     events := (events st ++ evs)%list |}.

(** The credential source the resolution policy selects, in its strict
    order: the "default" profile of the credential file when a path is
    given; otherwise a static credential when at least one of the key
    id and the secret is given; otherwise the environment. *)
Definition selectedSource (accessKeyID secretKey credential : string)
  : credentials.Credentials :=
  if negb (String.eqb credential "")
  then credentials.NewSharedCredentials credential "default"
  else if negb (String.eqb accessKeyID "") || negb (String.eqb secretKey "")
  then credentials.NewStaticCredentials accessKeyID secretKey ""
  else credentials.NewEnvCredentials.

(** The tag of the diagnostic line printed when a source fails. *)
Definition sourceTag (c : credentials.Credentials) : string :=
  match c with
  | credentials.NewSharedCredentials _ _ => "[SharedCredentials] ERROR: "
  | credentials.NewStaticCredentials _ _ _ => "[StaticCredentials] ERROR: "
  | credentials.NewEnvCredentials => "[EnvCredentials] ERROR: "
  end.

(** The attempts to retrieve a credential among some events. *)
Definition attempts (evs : list event) : list credentials.Credentials :=
  flat_map (fun e => match e with CredentialsGet c => [c] | _ => [] end) evs.

(** A configuration with another compression mode. *)
Definition withCompress (c : s3Config.t) (f : format) : s3Config.t :=
  {| s3Config.credentials := s3Config.credentials c;
     s3Config.bucket := s3Config.bucket c;
     s3Config.s3prefix := s3Config.s3prefix c;
     s3Config.region := s3Config.region c;
     s3Config.compress := f;
     s3Config.endpoint := s3Config.endpoint c;
     s3Config.logLevel := s3Config.logLevel c;
     s3Config.location := s3Config.location c;
     s3Config.autoCreateBucket := s3Config.autoCreateBucket c |}.

(** The text the configuration error for a rejected endpoint carries. *)
Definition endpointError : error :=
  "Endpoint is not supported for AWS S3. This parameter is intended for S3 compatible services. Use Region instead.".

(** The suffix of object names under a compression mode. *)
Definition suffixOf (f : format) : string :=
  match f with
  | plainTextFormat => ".log"
  | gzipFormat => ".log.gz"
  end.

(** The state after [time.Local] is overwritten. *)
Definition withLocal (st : State) (l : time.Location) : State :=
  {| Local := l; s3operators := s3operators st; ticks := ticks st;
     events := events st |}.

(** The parts of an object key for an instant presented in a zone:
    the date [YYYYMMDD], the hour [HH] and the timestamp
    [YYYYMMDDHHMMSS], each field zero-padded to its width. *)
Definition dateText (t : time.Time) : string :=
  let '(year, month, day) := time.Date t in
  time.appendInt year 4 ++ time.appendInt month 2 ++ time.appendInt day 2.

Definition hourText (t : time.Time) : string :=
  let '(hour, _, _) := time.Clock t in time.appendInt hour 2.

Definition timestampText (t : time.Time) : string :=
  let '(hour, min, sec) := time.Clock t in
  dateText t ++ time.appendInt hour 2 ++ time.appendInt min 2 ++ time.appendInt sec 2.

(** The put-object calls among some events. *)
Definition uploads (evs : list event) : list UploadInput :=
  flat_map (fun e => match e with Upload i => [i] | _ => [] end) evs.

(** The records one flush reads: those of the objects up to the first
    one [GetRecord] does not return with code [0]. *)
Fixpoint delivered (data : list value) : list record :=
  match data with
  | [] => []
  | obj :: rest =>
      let '(r, _, rec) := recordOf obj in
      if r =? 0 then rec :: delivered rest else []
  end.

(** Whether [encodeJSON] returns on a record (it panics on a key that
    is not text). *)
Definition encodable (r : record) : bool :=
  match encodeJSON r with
  | Some _ => true
  | None => false
  end.

(** The line of a record: its JSON text, or the marshalling error. *)
Definition lineOf (r : record) : string + error :=
  match encodeJSON r with
  | Some m => Marshal m
  | None => inr "panic"
  end.

(** The lines of a batch: the JSON texts of the records that could be
    marshalled, in order. *)
Definition encodedLines (recs : list record) : list string :=
  flat_map (fun r => match lineOf r with inl line => [line] | inr _ => [] end) recs.

Fixpoint concatAll (l : list string) : string :=
  match l with
  | [] => ""
  | x :: rest => x ++ concatAll rest
  end.

(** The payload of a batch: every line followed by a newline. *)
Definition payload (recs : list record) : string :=
  concatAll (map (fun line => line ++ String "010" "") (encodedLines recs)).

(** The same lines joined with newline separators instead. *)
Definition joinedLines (recs : list record) : string :=
  strings.Join (encodedLines recs) (String "010" "").

(** The warnings a logger at level [lvl] writes for the records that
    could not be marshalled. *)
Definition encodeWarnings (lvl : log.Level) (recs : list record) : list event :=
  if log.IsLevelEnabled lvl log.WarnLevel
  then flat_map (fun r => match lineOf r with
                          | inr err => [Warnf ("error creating message for S3: " ++ err)]
                          | inl _ => []
                          end) recs
  else [].

(** The clock reading taken in a state, and the state afterwards. *)
Definition timeAt (st : State) : time.Time :=
  {| time.unixSec := fst (clock (ticks st)); time.nsec := snd (clock (ticks st));
     time.loc := Local st |}.

Definition tick (st : State) : State :=
  {| Local := Local st; s3operators := s3operators st; ticks := S (ticks st);
     events := events st |}.

(** The gzip file [makeGzip] builds when the clock shows [now], and
    the error of its write. *)
Definition gzipOf (now : time.Time) (body : list byte) : list byte * option error :=
  let gw := gzip.withHeader gzip.NewWriter "fluent-bit-go-s3" now in
  let '(gw, err) := gzip.Write gw body in
  let '(gw, _) := gzip.Close deflate gw in
  (gzip.w gw, err).

(** The gzip file the same steps build for any member name and
    modification time, and the error of the write; [makeGzip] is the
    case of the name [fluent-bit-go-s3] and the clock's reading. *)
Definition gzipWith (name : string) (mt : time.Time) (body : list byte)
  : list byte * option error :=
  let gw := gzip.withHeader gzip.NewWriter name mt in
  let '(gw, err) := gzip.Write gw body in
  let '(gw, _) := gzip.Close deflate gw in
  (gzip.w gw, err).

(** The object key of an operator for an instant. *)
Definition objectKeyOf (op : s3operator.t) (t : time.Time) : string :=
  let tl := time.In t (s3operator.location op) in
  filepath.Join
    [s3operator.prefix op; dateText tl; hourText tl;
     timestampText tl ++ suffixOf (s3operator.compressFormat op)].

(** The warning for a failed put, when the logger writes warnings. *)
Definition sendWarning (op : s3operator.t) (e : error) : list event :=
  if log.IsLevelEnabled (s3operator.logger op) log.WarnLevel
  then [Warnf ("error sending message for S3: " ++ e)]
  else [].

(** The header [makeGzip] writes when the clock shows [now]: magic
    bytes, method and flags, modification time, the member name. *)
Definition gzipHeader (now : time.Time) : list byte :=
  ([x1f; x8b; x08; x08]
     ++ (if time.After now (time.Unix 0 0)
         then binary.PutUint32 (time.unixSec now mod 2 ^ 32)
         else binary.PutUint32 0)
     ++ [x00; xff]
     ++ list_byte_of_string "fluent-bit-go-s3" ++ [x00])%list.

(** A path element as [Clean] keeps it: not empty, not [.], not [..],
    and without separator. *)
Fixpoint noSlash (s : string) : bool :=
  match s with
  | EmptyString => true
  | String c r => negb (Ascii.eqb c "/") && noSlash r
  end.

Definition ordinary (e : string) : bool :=
  negb (String.eqb e "") && negb (String.eqb e ".") && negb (String.eqb e "..")
  && noSlash e.

(** Text without separator and without dot. *)
Fixpoint plain (s : string) : bool :=
  match s with
  | EmptyString => true
  | String c r => negb (Ascii.eqb c "/") && negb (Ascii.eqb c ".") && plain r
  end.

(** The numeral of [x] with exactly [n] decimal digits, leading zeros
    included. *)
Fixpoint decimal (n : nat) (x : Z) : string :=
  match n with
  | O => ""
  | S k => decimal k (x / 10) ++ String (strconv.digit (x mod 10)) ""
  end.

(** The proleptic Gregorian calendar, as a specification. *)
Definition leapYear (y : Z) : bool :=
  (y mod 4 =? 0) && (negb (y mod 100 =? 0) || (y mod 400 =? 0)).

(** The length of month [m] in a year, leap or not. *)
Definition daysIn (leap : bool) (m : Z) : Z :=
  match m with
  | 1 | 3 | 5 | 7 | 8 | 10 | 12 => 31
  | 4 | 6 | 9 | 11 => 30
  | 2 => if leap then 29 else 28
  | _ => 0
  end.

(** The days of the year before month [m]. *)
Definition daysBeforeMonth (leap : bool) (m : Z) : Z :=
  fold_left Z.add (map (fun k => daysIn leap (Z.of_nat k)) (seq 1 (Z.to_nat (m - 1)))) 0.

(** The days from 1970-01-01 to the day [d] of month [m] of year [y]. *)
Definition civilDays (y m d : Z) : Z :=
  365 * (y - 1) + (y - 1) / 4 - (y - 1) / 100 + (y - 1) / 400
  + daysBeforeMonth (leapYear y) m + (d - 1) - 719162.

Definition validDate (y m d : Z) : Prop :=
  1 <= m <= 12 /\ 1 <= d <= daysIn (leapYear y) m.

(** The seconds from the Unix epoch to a civil date and time of day. *)
Definition civilSeconds (y m d h mi s : Z) : Z :=
  civilDays y m d * 86400 + h * 3600 + mi * 60 + s.

(** The instant [t], presented in its location, shows the civil date
    [y]-[m]-[d] and the time of day [h]:[mi]:[s]. *)
Definition showsCivil (t : time.Time) (y m d h mi s : Z) : Prop :=
  validDate y m d /\ 0 <= h < 24 /\ 0 <= mi < 60 /\ 0 <= s < 60
  /\ time.unixSec t + time.lookup (time.loc t) (time.unixSec t)
     = civilSeconds y m d h mi s.

(** What [time.LoadLocation(name)] returns when [time.Local] is [local]. *)
Definition locationOf (local : time.Location) (name : string) : time.Location + error :=
  if String.eqb name "" || String.eqb name "UTC" then inl time.UTC
  else if String.eqb name "Local" then inl local
  else if containsDotDot name
          || String.eqb (substring 0 1 name) "/"
          || String.eqb (substring 0 1 name) "\"
  then inr "time: invalid location name"
  else zoneinfo name.

(** The spellings [strconv.ParseBool] reads as [true]. *)
Definition trueSpellings : list string := ["1"; "t"; "T"; "TRUE"; "true"; "True"].

(** Whether [encodeJSON] comes to assert [k.(string)] on a key that is
    not text, in the mapping [v] or in a mapping nested in it.  An entry
    that holds a mapping under a key that does not find itself (NaN) is
    passed over before its key is asserted. *)
Fixpoint assertsNonText (v : value) : bool :=
  match v with
  | VMap r =>
      existsb (fun '(k, x) =>
                 match x with
                 | VMap _ => findsItself k && (negb (isTextKey k) || assertsNonText x)
                 | _ => negb (isTextKey k)
                 end) r
  | _ => false
  end.

(** The instant of clock reading number [n], presented in [l]. *)
Definition reading (n : nat) (l : time.Location) : time.Time :=
  {| time.unixSec := fst (clock n); time.nsec := snd (clock n); time.loc := l |}.

(** The warnings among some events. *)
Definition warnings (evs : list event) : list string :=
  flat_map (fun e => match e with Warnf msg => [msg] | _ => [] end) evs.

(** The marshalling errors of a batch, in order. *)
Definition marshalErrors (recs : list record) : list error :=
  flat_map (fun r => match lineOf r with inr err => [err] | inl _ => [] end) recs.

(** An object that [GetRecord] returns as a record. *)
Definition isRecord (obj : value) : bool := fst (fst (recordOf obj)) =? 0.

(** The directory part [filepath.Clean] leaves of a path [q] that is
    followed by a separator and one more ordinary element. *)
Definition cleanDir (q : string) : string :=
  match q with
  | EmptyString => ""
  | String c _ =>
      let rooted := Ascii.eqb c "/" in
      let '(ups, out) := filepath.cleanElems rooted (filepath.split q) O [] in
      let elems := (repeat ".." ups ++ rev out)%list in
      (if rooted then "/" else "")
        ++ match elems with
           | [] => ""
           | _ :: _ => strings.Join elems "/" ++ "/"
           end
  end.

(** ** Notions of the start-up path *)

(** The host with another process state, and with further events in
    its trail. *)
Definition withProcess (h : Host) (st : State) : Host :=
  {| process := st; configKeys := configKeys h; trail := trail h |}.

Definition addTrail (h : Host) (evs : list hostEvent) : Host :=
  {| process := process h; configKeys := configKeys h;
     trail := (trail h ++ evs)%list |}.

(** The process state with one more operator in the registry. *)
Definition registered (st : State) (operator : s3operator.t) : State :=
  {| Local := Local st; s3operators := (s3operators st ++ [operator])%list;
     ticks := ticks st; events := events st |}.

(** The building of the configuration for the plugin instance [ctx],
    from the values the host holds under the plugin's eleven keys. *)
Definition configOf (h : Host) (ctx : Z) : M (s3Config.t + error) :=
  let key := configKeys h ctx in
  getS3Config (key "AccessKeyID") (key "SecretAccessKey") (key "Credential")
    (key "S3Prefix") (key "Bucket") (key "Region") (key "Compress")
    (key "Endpoint") (key "AutoCreateBucket") (key "LogLevel") (key "TimeZone").

(** The session of a configuration: credentials and region, and for a
    custom endpoint the endpoint with path-style addressing. *)
Definition sessionOf (config : s3Config.t) : aws.Config :=
  let cfg := {| aws.Credentials := s3Config.credentials config;
                aws.Region := s3Config.region config;
                aws.Endpoint := None;
                aws.S3ForcePathStyle := None |} in
  if negb (String.eqb (s3Config.endpoint config) "")
  then aws.WithS3ForcePathStyle (aws.WithEndpoint cfg (s3Config.endpoint config)) true
  else cfg.

(** The request to create the bucket of a configuration: outside
    [us-east-1] it names the region as location constraint. *)
Definition bucketInput (bucket region : string) : s3.CreateBucketInput :=
  {| s3.Bucket := bucket;
     s3.LocationConstraint :=
       if String.eqb region "us-east-1" then None else Some region |}.

(** The operator of a configuration. *)
Definition operatorOf (config : s3Config.t) : s3operator.t :=
  {| s3operator.bucket := s3Config.bucket config;
     s3operator.prefix := s3Config.s3prefix config;
     s3operator.uploader := NewUploader (sessionOf config);
     s3operator.compressFormat := s3Config.compress config;
     s3operator.logger := s3Config.logLevel config;
     s3operator.location := s3Config.location config |}.

(** An answer to a create-bucket request after which the bucket is
    there: no error, or the error that it exists already. *)
Definition bucketReady (err : option awserr.t) : bool :=
  match err with
  | None => true
  | Some aerr =>
      match awserr.Code aerr with
      | Some code =>
          String.eqb code "BucketAlreadyExists"
          || String.eqb code "BucketAlreadyOwnedByYou"
      | None => false
      end
  end.

(** The error that keeps a configuration from getting its operator:
    auto-creation is asked for and the bucket is not ready. *)
Definition bucketFailure (config : s3Config.t) : option error :=
  if s3Config.autoCreateBucket config then
    match snd (CreateBucket (sessionOf config)
                 (bucketInput (s3Config.bucket config) (s3Config.region config))) with
    | Some aerr => if bucketReady (Some aerr) then None else Some (awserr.Error aerr)
    | None => None
    end
  else None.

(** The parts of a trail. *)
Definition infoLines (evs : list hostEvent) : list string :=
  flat_map (fun e => match e with Infof msg => [msg] | _ => [] end) evs.

Definition createBucketCalls (evs : list hostEvent)
  : list (aws.Config * s3.CreateBucketInput) :=
  flat_map (fun e => match e with
                     | CreateBucketCall session input => [(session, input)]
                     | _ => []
                     end) evs.

Definition contextsSet (evs : list hostEvent) : list (Z * nat) :=
  flat_map (fun e => match e with
                     | FLBPluginSetContext ctx id => [(ctx, id)]
                     | _ => []
                     end) evs.

Definition unregistered (evs : list hostEvent) : list Z :=
  flat_map (fun e => match e with FLBPluginUnregister ctx => [ctx] | _ => [] end) evs.

(** The lines the operator's logger writes at start-up, given what is
    shown of the two keys. *)
Definition startUpLines (operatorID : nat) (key : string -> string)
           (shownAccessKeyID shownSecretAccessKey : string) : list string :=
  let id := "[flb-go " ++ fmtInt operatorID ++ "] " in
  [id ++ "Starting fluent-bit-go-s3: " ++ versionInfo tt;
   id ++ "plugin credential parameter = '" ++ key "Credential" ++ "'";
   id ++ "plugin accessKeyID parameter = '" ++ shownAccessKeyID ++ "'";
   id ++ "plugin secretAccessKey parameter = '" ++ shownSecretAccessKey ++ "'";
   id ++ "plugin bucket parameter = '" ++ key "Bucket" ++ "'";
   id ++ "plugin s3prefix parameter = '" ++ key "S3Prefix" ++ "'";
   id ++ "plugin region parameter = '" ++ key "Region" ++ "'";
   id ++ "plugin compress parameter = '" ++ key "Compress" ++ "'";
   id ++ "plugin endpoint parameter = '" ++ key "Endpoint" ++ "'";
   id ++ "plugin autoCreateBucket parameter = '" ++ key "AutoCreateBucket" ++ "'";
   id ++ "plugin timeZone parameter = '" ++ key "TimeZone" ++ "'"].

(** The configuration [FLBPluginInit] gets for an instance, when one
    is built, and the error that makes it fail. *)
Definition initConfig (h : Host) (ctx : Z) : option s3Config.t :=
  match configOf h ctx (process h) with
  | Some (inl config, _) => Some config
  | _ => None
  end.

Definition initFailure (h : Host) (ctx : Z) : option error :=
  match configOf h ctx (process h) with
  | Some (inl config, _) => bucketFailure config
  | Some (inr err, _) => Some err
  | None => None
  end.

(** * Credential resolution *)

Lemma addEvents_nil st : addEvents st [] = st.
Proof. destruct st; unfold addEvents; simpl; now rewrite app_nil_r. Qed.

Lemma addEvents_app st a b : addEvents (addEvents st a) b = addEvents st (a ++ b).
Proof. unfold addEvents; simpl; now rewrite app_assoc. Qed.

Lemma emit_addEvents e st : emit e st = Some (tt, addEvents st [e]).
Proof. reflexivity. Qed.

Lemma credsGet_eq c st :
  credsGet c st
  = Some (credentials.Get sharedProfile Getenv c, addEvents st [CredentialsGet c]).
Proof. reflexivity. Qed.

(** What [GetCredentials] computes, in one equation. *)
Lemma GetCredentials_eq (accessKeyID secretKey credential : string) (st : State) :
  let src := selectedSource accessKeyID secretKey credential in
  GetCredentials accessKeyID secretKey credential st
  = match credentials.Get sharedProfile Getenv src with
    | inl _ => Some (inl src, addEvents st [CredentialsGet src])
    | inr err =>
        Some (inr "Failed to create credentials",
              addEvents st [CredentialsGet src; Println (sourceTag src ++ err)])
    end.
Proof.
  unfold GetCredentials, selectedSource.
  destruct (String.eqb credential "");
    [destruct (String.eqb accessKeyID ""), (String.eqb secretKey "")|];
    cbn [negb andb orb]; cbv iota zeta;
    unfold bind; rewrite credsGet_eq;
    match goal with
    | |- context [credentials.Get _ _ ?c] =>
        destruct (credentials.Get sharedProfile Getenv c) as [v|e]
    end; try reflexivity;
    rewrite emit_addEvents, addEvents_app; reflexivity.
Qed.

(** C4. Credential resolution tries the one source the strict order
    selects (credential file when a path is given, else static keys when
    at least one of them is given, else the environment), accepts it
    when its credential can be retrieved, and otherwise fails with the
    configuration error; the only retrieval attempted is that of the
    selected source. *)
Theorem GetCredentials_strict_order (accessKeyID secretKey credential : string)
        (st : State) :
  let src := selectedSource accessKeyID secretKey credential in
  exists st',
    GetCredentials accessKeyID secretKey credential st
    = Some (match credentials.Get sharedProfile Getenv src with
            | inl _ => inl src
            | inr _ => inr "Failed to create credentials"
            end, st')
    /\ exists evs, events st' = (events st ++ evs)%list /\ attempts evs = [src].
Proof.
  cbv zeta. rewrite GetCredentials_eq. cbv zeta.
  destruct (credentials.Get sharedProfile Getenv
              (selectedSource accessKeyID secretKey credential)) as [v|e];
    (eexists; split; [reflexivity|]; eexists; split; [reflexivity|]; reflexivity).
Qed.

(** C10. When a credential file path is given and its "default" profile
    yields no retrievable credential, resolution fails with the
    configuration error, and the shared-file source is the only one
    attempted, whatever access key and secret were supplied. *)
Theorem GetCredentials_file_failure_is_final
        (accessKeyID secretKey credential : string) (err : error) (st : State) :
  credential <> "" ->
  credentials.Get sharedProfile Getenv
    (credentials.NewSharedCredentials credential "default") = inr err ->
  exists st',
    GetCredentials accessKeyID secretKey credential st
    = Some (inr "Failed to create credentials", st')
    /\ exists evs,
         events st' = (events st ++ evs)%list
         /\ attempts evs = [credentials.NewSharedCredentials credential "default"].
Proof.
  intros Hc Hget.
  rewrite GetCredentials_eq. cbv zeta. unfold selectedSource.
  apply String.eqb_neq in Hc. rewrite Hc. cbn [negb]. cbv iota.
  rewrite Hget.
  eexists; split; [reflexivity|].
  eexists; split; [reflexivity|]. reflexivity.
Qed.

(** * Configuration building *)

Lemma LoadLocation_state name st :
  exists r, LoadLocation name st = Some (r, st).
Proof.
  unfold LoadLocation.
  repeat match goal with
         | |- context [if ?b then _ else _] => destruct b
         end; eexists; reflexivity.
Qed.

(** [getS3Config] leaves [time.Local], the registry and the clock as
    they are; it only adds the events of credential resolution. *)
Lemma getS3Config_total
      (accessID secretKey credential s3prefix bucket region compress endpoint
         autoCreateBucket logLevel timeZone : string) (st : State) :
  exists r evs,
    getS3Config accessID secretKey credential s3prefix bucket region compress
      endpoint autoCreateBucket logLevel timeZone st = Some (r, addEvents st evs).
Proof.
  unfold getS3Config, bind. rewrite GetCredentials_eq. cbv zeta.
  destruct (credentials.Get _ _ _) as [v|e]; [|do 2 eexists; reflexivity].
  repeat match goal with
         | |- context [if ?b then _ else _] => destruct b
         end; try (do 2 eexists; reflexivity).
  all: destruct (log.ParseLevel ToLower _); try (do 2 eexists; reflexivity).
  all: match goal with
       | |- context [LoadLocation ?n ?s] =>
           destruct (LoadLocation_state n s) as [r Hr]; rewrite Hr
       end; destruct r; do 2 eexists; reflexivity.
Qed.

(** The outcome for any compression string is the outcome for the empty
    string, with the mode the string selects. *)
Lemma getS3Config_compress_eq
      (accessID secretKey credential s3prefix bucket region compress endpoint
         autoCreateBucket logLevel timeZone : string) (st : State) :
  getS3Config accessID secretKey credential s3prefix bucket region compress
    endpoint autoCreateBucket logLevel timeZone st
  = match getS3Config accessID secretKey credential s3prefix bucket region ""
            endpoint autoCreateBucket logLevel timeZone st with
    | Some (inl c, s) =>
        Some (inl (withCompress c (if String.eqb compress "gzip"
                                   then gzipFormat else plainTextFormat)), s)
    | other => other
    end.
Proof.
  unfold getS3Config, bind. rewrite GetCredentials_eq. cbv zeta.
  destruct (credentials.Get _ _ _) as [v|e]; [|reflexivity].
  unfold ret at 1 2.
  destruct (String.eqb bucket ""); [reflexivity|].
  destruct (String.eqb s3prefix ""); [reflexivity|].
  destruct (String.eqb region ""); [reflexivity|].
  destruct (negb (String.eqb endpoint "") && strings.HasSuffix endpoint "amazonaws.com");
    [reflexivity|].
  destruct (log.ParseLevel ToLower _); [|reflexivity].
  destruct (negb (String.eqb timeZone "")).
  - match goal with
    | |- context [LoadLocation ?n ?s] =>
        destruct (LoadLocation_state n s) as [r Hr]; rewrite Hr
    end.
    destruct r; reflexivity.
  - reflexivity.
Qed.

(** C6. Configuration building returns for every input; in a
    configuration that is built, the compression mode is gzip exactly
    when the compression string equals "gzip" and plain for every other
    string (the empty one included); the string never causes an error:
    with any other compression string the same input is built as well,
    and an input that is refused is refused with the same error whatever
    the compression string. *)
Theorem getS3Config_compress_mode
        (accessID secretKey credential s3prefix bucket region compress endpoint
           autoCreateBucket logLevel timeZone : string) (st : State) :
  exists (r : s3Config.t + error) (st' : State),
    getS3Config accessID secretKey credential s3prefix bucket region compress
      endpoint autoCreateBucket logLevel timeZone st = Some (r, st')
    /\ match r with
       | inl conf =>
           (s3Config.compress conf = gzipFormat <-> compress = "gzip")
           /\ (s3Config.compress conf = plainTextFormat <-> compress <> "gzip")
           /\ forall compress' : string,
                exists conf',
                  getS3Config accessID secretKey credential s3prefix bucket region
                    compress' endpoint autoCreateBucket logLevel timeZone st
                  = Some (inl conf', st')
                  /\ (s3Config.compress conf' = gzipFormat <-> compress' = "gzip")
                  /\ (s3Config.compress conf' = plainTextFormat
                      <-> compress' <> "gzip")
       | inr e =>
           forall compress' : string,
             getS3Config accessID secretKey credential s3prefix bucket region
               compress' endpoint autoCreateBucket logLevel timeZone st
             = Some (inr e, st')
       end.
Proof.
  destruct (getS3Config_total accessID secretKey credential s3prefix bucket region
              compress endpoint autoCreateBucket logLevel timeZone st)
    as (r & evs & H).
  exists r, (addEvents st evs). split; [exact H|].
  assert (Hmode : forall c0 s,
             (s3Config.compress
                (withCompress c0 (if String.eqb s "gzip" then gzipFormat
                                  else plainTextFormat)) = gzipFormat <-> s = "gzip")
             /\ (s3Config.compress
                   (withCompress c0 (if String.eqb s "gzip" then gzipFormat
                                     else plainTextFormat)) = plainTextFormat
                 <-> s <> "gzip")).
  { intros c0 s. simpl. destruct (String.eqb_spec s "gzip") as [E|E]; split; split;
      intros; try congruence; try discriminate; auto. }
  rewrite getS3Config_compress_eq in H.
  destruct (getS3Config accessID secretKey credential s3prefix bucket region ""
              endpoint autoCreateBucket logLevel timeZone st)
    as [[[c0|e0] s0]|] eqn:H0; try discriminate.
  - injection H as <- Hs. rewrite <- Hs.
    split; [apply Hmode|]. split; [apply Hmode|].
    intros compress'. rewrite getS3Config_compress_eq, H0.
    eexists; split; [reflexivity|]. split; apply Hmode.
  - injection H as <- Hs. rewrite <- Hs.
    intros compress'. rewrite getS3Config_compress_eq, H0. reflexivity.
Qed.

(** [strings.HasSuffix] holds of the strings that end with the suffix. *)
Lemma substring_all s : substring 0 (String.length s) s = s.
Proof. induction s as [|c s IH]; simpl; [reflexivity|now rewrite IH]. Qed.

Lemma substring_append p s :
  substring (String.length p) (String.length s) (p ++ s) = s.
Proof. induction p as [|c p IH]; simpl; [apply substring_all|exact IH]. Qed.

Lemma length_append p s :
  String.length (p ++ s) = (String.length p + String.length s)%nat.
Proof. induction p as [|c p IH]; simpl; [reflexivity|now rewrite IH]. Qed.

Lemma HasSuffix_append p suffix : strings.HasSuffix (p ++ suffix) suffix = true.
Proof.
  unfold strings.HasSuffix. rewrite length_append.
  replace (String.length p + String.length suffix - String.length suffix)%nat
    with (String.length p) by lia.
  rewrite substring_append, String.eqb_refl, andb_true_r.
  apply Nat.leb_le. lia.
Qed.

Lemma append_nonempty p c s : String.eqb (p ++ String c s) "" = false.
Proof. destruct p; reflexivity. Qed.

(** C7. An endpoint that ends with the default cloud-storage domain
    suffix ("amazonaws.com") never yields a configuration: building
    fails with an error, and for an input that is otherwise valid (it is
    built when the endpoint is left empty) that error is the one about
    the endpoint. *)
Theorem getS3Config_rejects_aws_endpoint
        (accessID secretKey credential s3prefix bucket region compress
           autoCreateBucket logLevel timeZone : string)
        (p : string) (st : State) :
  (exists e st',
      getS3Config accessID secretKey credential s3prefix bucket region compress
        (p ++ "amazonaws.com") autoCreateBucket logLevel timeZone st
      = Some (inr e, st'))
  /\ forall conf st',
      getS3Config accessID secretKey credential s3prefix bucket region compress
        "" autoCreateBucket logLevel timeZone st = Some (inl conf, st') ->
      getS3Config accessID secretKey credential s3prefix bucket region compress
        (p ++ "amazonaws.com") autoCreateBucket logLevel timeZone st
      = Some (inr endpointError, st').
Proof.
  unfold getS3Config, bind. rewrite GetCredentials_eq. cbv zeta.
  rewrite HasSuffix_append, append_nonempty. cbn [negb andb].
  destruct (credentials.Get _ _ _) as [v|e].
  - unfold ret.
    destruct (String.eqb bucket ""); [split; [do 2 eexists; reflexivity|discriminate]|].
    destruct (String.eqb s3prefix ""); [split; [do 2 eexists; reflexivity|discriminate]|].
    destruct (String.eqb region ""); [split; [do 2 eexists; reflexivity|discriminate]|].
    split; [do 2 eexists; reflexivity|].
    intros conf st' H.
    cbn [String.eqb negb andb] in H.
    destruct (log.ParseLevel ToLower _); [|discriminate].
    destruct (negb (String.eqb timeZone "")).
    + destruct (LoadLocation_state timeZone (addEvents st
          [CredentialsGet (selectedSource accessID secretKey credential)]))
        as [r Hr]; rewrite Hr in H.
      destruct r; [|discriminate]. injection H as _ <-. reflexivity.
    + unfold getLocal in H. injection H as _ <-. reflexivity.
  - split; [do 2 eexists; reflexivity|discriminate].
Qed.

Lemma LoadLocation_addEvents name st evs r :
  LoadLocation name st = Some (r, st) ->
  LoadLocation name (addEvents st evs) = Some (r, addEvents st evs).
Proof.
  unfold LoadLocation.
  repeat match goal with
         | |- context [if ?b then _ else _] => destruct b
         end; unfold ret, bind, getLocal; simpl; intros H; injection H as <-;
    reflexivity.
Qed.

(** C8. Configuration building returns for every input.  An
    auto-bucket-creation value that does not parse as a boolean is
    taken as [false] and causes no error (the input is treated as with
    "false"); an empty log level is treated as "info"; with an
    empty time zone the configuration gets the current [time.Local],
    the process's local zone; a non-empty log level that does not parse
    and a non-empty time zone that cannot be loaded make building fail
    with an error. *)
Theorem getS3Config_defaults_and_fatal_values
        (accessID secretKey credential s3prefix bucket region compress endpoint
           autoCreateBucket logLevel timeZone : string) (st : State) :
  (exists r st',
      getS3Config accessID secretKey credential s3prefix bucket region compress
        endpoint autoCreateBucket logLevel timeZone st = Some (r, st'))
  /\ (strconv.ParseBool autoCreateBucket = None ->
     getS3Config accessID secretKey credential s3prefix bucket region compress
       endpoint autoCreateBucket logLevel timeZone st
     = getS3Config accessID secretKey credential s3prefix bucket region compress
         endpoint "false" logLevel timeZone st
     /\ forall conf st',
         getS3Config accessID secretKey credential s3prefix bucket region compress
           endpoint autoCreateBucket logLevel timeZone st = Some (inl conf, st') ->
         s3Config.autoCreateBucket conf = false)
  /\ (getS3Config accessID secretKey credential s3prefix bucket region compress
        endpoint autoCreateBucket "" timeZone st
      = getS3Config accessID secretKey credential s3prefix bucket region compress
          endpoint autoCreateBucket "info" timeZone st
      /\ forall conf st',
          ToLower "info" = "info" ->
          getS3Config accessID secretKey credential s3prefix bucket region compress
            endpoint autoCreateBucket "" timeZone st = Some (inl conf, st') ->
          s3Config.logLevel conf = log.InfoLevel)
  /\ (forall conf st',
        getS3Config accessID secretKey credential s3prefix bucket region compress
          endpoint autoCreateBucket logLevel "" st = Some (inl conf, st') ->
        s3Config.location conf = Local st)
  /\ (logLevel <> "" -> log.ParseLevel ToLower logLevel = None ->
      exists e st',
        getS3Config accessID secretKey credential s3prefix bucket region compress
          endpoint autoCreateBucket logLevel timeZone st = Some (inr e, st'))
  /\ (forall err,
        timeZone <> "" -> LoadLocation timeZone st = Some (inr err, st) ->
        exists e st',
          getS3Config accessID secretKey credential s3prefix bucket region compress
            endpoint autoCreateBucket logLevel timeZone st = Some (inr e, st')).
Proof.
  split.
  { destruct (getS3Config_total accessID secretKey credential s3prefix bucket region
                compress endpoint autoCreateBucket logLevel timeZone st)
      as (r & evs & H).
    now exists r, (addEvents st evs). }
  unfold getS3Config, bind. rewrite GetCredentials_eq. cbv zeta.
  set (st1 := addEvents st [CredentialsGet (selectedSource accessID secretKey credential)]).
  destruct (credentials.Get _ _ _) as [v|e].
  2:{ repeat split; intros; try discriminate; try (do 2 eexists; reflexivity). }
  unfold ret.
  destruct (String.eqb bucket "").
  1:{ repeat split; intros; try discriminate; try (do 2 eexists; reflexivity). }
  destruct (String.eqb s3prefix "").
  1:{ repeat split; intros; try discriminate; try (do 2 eexists; reflexivity). }
  destruct (String.eqb region "").
  1:{ repeat split; intros; try discriminate; try (do 2 eexists; reflexivity). }
  destruct (negb (String.eqb endpoint "") && strings.HasSuffix endpoint "amazonaws.com").
  1:{ repeat split; intros; try discriminate; try (do 2 eexists; reflexivity). }
  split; [|split; [|split; [|split]]].
  - intros Hb. rewrite Hb. cbn [strconv.ParseBool existsb String.eqb Ascii.eqb Bool.eqb orb].
    split; [reflexivity|].
    intros conf st'.
    destruct (log.ParseLevel ToLower _); [|discriminate].
    destruct (negb (String.eqb timeZone "")).
    + destruct (LoadLocation_state timeZone st1) as [r Hr]; rewrite Hr.
      destruct r; [|discriminate]. intros H; injection H as <- _. reflexivity.
    + unfold getLocal. intros H; injection H as <- _. reflexivity.
  - cbn [String.eqb]. split; [reflexivity|].
    intros conf st' Hlow. unfold log.ParseLevel. rewrite Hlow.
    cbn [String.eqb Ascii.eqb Bool.eqb orb].
    destruct (negb (String.eqb timeZone "")).
    + destruct (LoadLocation_state timeZone st1) as [r Hr]; rewrite Hr.
      destruct r; [|discriminate]. intros H; injection H as <- _. reflexivity.
    + unfold getLocal. intros H; injection H as <- _. reflexivity.
  - intros conf st'.
    destruct (log.ParseLevel ToLower _); [|discriminate].
    cbn [String.eqb negb]. unfold getLocal.
    intros H; injection H as <- _. reflexivity.
  - intros Hne Hp. apply String.eqb_neq in Hne. rewrite Hne, Hp.
    do 2 eexists; reflexivity.
  - intros err Hne Hl. apply String.eqb_neq in Hne. rewrite Hne. cbn [negb].
    destruct (log.ParseLevel ToLower _); [|do 2 eexists; reflexivity].
    unfold st1. rewrite (LoadLocation_addEvents _ _ _ _ Hl).
    do 2 eexists; reflexivity.
Qed.

(** * Object keys *)

Lemma append_assoc (a b c : string) : (a ++ b) ++ c = a ++ (b ++ c).
Proof. induction a as [|x a IH]; simpl; [reflexivity|now rewrite IH]. Qed.

Lemma append_nil_r (a : string) : a ++ "" = a.
Proof. induction a as [|x a IH]; simpl; [reflexivity|now rewrite IH]. Qed.

(** The three layouts of [GenerateObjectKey], formatted. *)
Lemma Format_layouts (t : time.Time) :
  time.Format t "20060102150405" = timestampText t
  /\ time.Format t "20060102" = dateText t
  /\ time.Format t "15" = hourText t.
Proof.
  unfold timestampText, dateText, hourText. simpl.
  destruct (time.Date t) as [[year month] day].
  destruct (time.Clock t) as [[hour min] sec].
  rewrite !append_nil_r, !append_assoc. auto.
Qed.

Lemma GenerateObjectKey_eq (op : s3operator.t) (t : time.Time) (st : State) :
  GenerateObjectKey op t st
  = Some (objectKeyOf op t, withLocal st (s3operator.location op)).
Proof.
  unfold objectKeyOf.
  cbv [GenerateObjectKey bind setLocal Local_ getLocal ret Local].
  destruct (Format_layouts (time.In t (s3operator.location op))) as (-> & -> & ->).
  unfold suffixOf, strings.Join.
  destruct (s3operator.compressFormat op); reflexivity.
Qed.

Lemma string_of_list_ascii_app (a b : list ascii) :
  string_of_list_ascii (a ++ b) = string_of_list_ascii a ++ string_of_list_ascii b.
Proof. induction a as [|x a IH]; simpl; [reflexivity|now rewrite IH]. Qed.

(** Splitting an element without separator that is followed by a
    separator and more. *)
Lemma splitAcc_element (e rest : string) (cur : list ascii) :
  noSlash e = true ->
  filepath.splitAcc (e ++ String "/" rest) cur
  = (string_of_list_ascii (rev cur) ++ e) :: filepath.splitAcc rest [].
Proof.
  revert cur. induction e as [|c e IH]; intros cur H.
  - simpl. now rewrite append_nil_r.
  - simpl in H. apply andb_true_iff in H as [Hc He].
    apply negb_true_iff in Hc. simpl. rewrite Hc, IH by assumption.
    simpl. rewrite string_of_list_ascii_app. simpl.
    now rewrite append_assoc.
Qed.

Lemma splitAcc_last (e : string) (cur : list ascii) :
  noSlash e = true ->
  filepath.splitAcc e cur = [string_of_list_ascii (rev cur) ++ e].
Proof.
  revert cur. induction e as [|c e IH]; intros cur H.
  - simpl. now rewrite append_nil_r.
  - simpl in H. apply andb_true_iff in H as [Hc He].
    apply negb_true_iff in Hc. simpl. rewrite Hc, IH by assumption.
    simpl. rewrite string_of_list_ascii_app. simpl.
    now rewrite append_assoc.
Qed.

(** Splitting undoes joining, for elements without separator. *)
Lemma split_Join (elems : list string) :
  elems <> [] -> forallb noSlash elems = true ->
  filepath.split (strings.Join elems "/") = elems.
Proof.
  unfold filepath.split.
  induction elems as [|e rest IH]; [congruence|]. intros _ H.
  cbn [forallb] in H. apply andb_true_iff in H as [He Hr].
  destruct rest as [|e' rest'].
  - simpl. now rewrite splitAcc_last.
  - change (strings.Join (e :: e' :: rest') "/")
      with (e ++ String "/" (strings.Join (e' :: rest') "/")).
    rewrite splitAcc_element by assumption. simpl string_of_list_ascii.
    simpl String.append at 1. f_equal. apply IH; [discriminate|assumption].
Qed.

Lemma splitAcc_nonempty (p : string) (cur : list ascii) : filepath.splitAcc p cur <> [].
Proof.
  revert cur. induction p as [|c p IH]; intros cur; simpl; [discriminate|].
  destruct (Ascii.eqb c "/"); [discriminate|apply IH].
Qed.

(** Joining undoes splitting. *)
Lemma Join_splitAcc (p : string) (cur : list ascii) :
  strings.Join (filepath.splitAcc p cur) "/" = string_of_list_ascii (rev cur) ++ p.
Proof.
  revert cur. induction p as [|c p IH]; intros cur.
  - simpl. now rewrite append_nil_r.
  - simpl. destruct (Ascii.eqb_spec c "/") as [->|Hc].
    + pose proof (splitAcc_nonempty p []) as Hne. specialize (IH []).
      destruct (filepath.splitAcc p []) as [|x l]; [congruence|].
      change (string_of_list_ascii (rev cur) ++ "/" ++ strings.Join (x :: l) "/"
              = string_of_list_ascii (rev cur) ++ String "/" p).
      rewrite IH. reflexivity.
    + rewrite IH. simpl. rewrite string_of_list_ascii_app. simpl.
      now rewrite append_assoc.
Qed.

Lemma Join_split (p : string) : strings.Join (filepath.split p) "/" = p.
Proof. unfold filepath.split. now rewrite Join_splitAcc. Qed.

Lemma Join_app (a b : list string) :
  a <> [] -> b <> [] ->
  strings.Join (a ++ b) "/" = strings.Join a "/" ++ "/" ++ strings.Join b "/".
Proof.
  intros Ha Hb. induction a as [|x a IH]; [congruence|].
  destruct a as [|y a].
  - simpl. destruct b; [congruence|reflexivity].
  - change ((x :: y :: a) ++ b)%list with (x :: (y :: a) ++ b)%list.
    change (strings.Join (x :: (y :: a) ++ b)%list "/")
      with (x ++ "/" ++ strings.Join ((y :: a) ++ b)%list "/").
    rewrite IH by discriminate.
    change (strings.Join (x :: y :: a) "/") with (x ++ "/" ++ strings.Join (y :: a) "/").
    now rewrite !append_assoc.
Qed.

(** Cleaning keeps a path made of ordinary elements. *)
Lemma cleanElems_ordinary (rooted : bool) (elems : list string) :
  forall (ups : nat) (out : list string),
    forallb ordinary elems = true ->
    filepath.cleanElems rooted elems ups out = (ups, (rev elems ++ out)%list).
Proof.
  induction elems as [|e rest IH]; intros ups out H; [reflexivity|].
  cbn [forallb] in H. apply andb_true_iff in H as [He Hr].
  unfold ordinary in He.
  apply andb_true_iff in He as [He _].
  apply andb_true_iff in He as [He H2].
  apply andb_true_iff in He as [H0 H1].
  apply negb_true_iff in H0, H1, H2.
  cbn [filepath.cleanElems]. rewrite H0, H1, H2, IH by assumption.
  simpl. now rewrite <- app_assoc.
Qed.

Lemma ordinary_noSlash (elems : list string) :
  forallb ordinary elems = true -> forallb noSlash elems = true.
Proof.
  induction elems as [|e rest IH]; [reflexivity|].
  cbn [forallb]. intros H. apply andb_true_iff in H as [He Hr].
  rewrite IH by assumption. unfold ordinary in He.
  apply andb_true_iff in He as [_ ->]. reflexivity.
Qed.

Lemma Clean_ordinary (elems : list string) :
  elems <> [] -> forallb ordinary elems = true ->
  filepath.Clean (strings.Join elems "/") = strings.Join elems "/".
Proof.
  intros Hne Hord.
  assert (Hs : filepath.split (strings.Join elems "/") = elems)
    by (apply split_Join; [assumption|now apply ordinary_noSlash]).
  unfold filepath.Clean.
  destruct (strings.Join elems "/") as [|c s] eqn:Hj.
  - destruct elems as [|e rest]; [congruence|].
    cbn [forallb] in Hord. apply andb_true_iff in Hord as [He _].
    destruct e; [now compute in He|]. destruct rest; simpl in Hj; discriminate Hj.
  - rewrite Hs, cleanElems_ordinary by assumption.
    rewrite app_nil_r, rev_involutive. cbn [repeat app].
    assert (Hc : Ascii.eqb c "/" = false).
    { destruct elems as [|e rest]; [congruence|].
      cbn [forallb] in Hord. apply andb_true_iff in Hord as [He _].
      destruct e as [|c' e]; [now compute in He|].
      unfold ordinary in He. apply andb_true_iff in He as [_ He].
      simpl in He. apply andb_true_iff in He as [He _]. apply negb_true_iff in He.
      destruct rest; simpl in Hj; injection Hj as <- _; exact He. }
    rewrite Hc, Hj. reflexivity.
Qed.

Lemma plain_append (a b : string) : plain a = true -> plain b = true -> plain (a ++ b) = true.
Proof.
  induction a as [|c a IH]; simpl; [auto|].
  intros H Hb. apply andb_true_iff in H as [Hc Ha]. now rewrite Hc, IH.
Qed.

Lemma digit_plain (u : Z) :
  0 <= u < 10 -> plain (String (strconv.digit u) "") = true.
Proof.
  intros H.
  assert (E : u = 0 \/ u = 1 \/ u = 2 \/ u = 3 \/ u = 4 \/ u = 5 \/ u = 6 \/ u = 7
              \/ u = 8 \/ u = 9) by lia.
  repeat (destruct E as [->|E]; [reflexivity|]). now subst.
Qed.

Lemma digits_plain (fuel : nat) :
  forall (u : Z) (acc : string),
    0 <= u -> plain acc = true -> plain (strconv.digits fuel u acc) = true.
Proof.
  induction fuel as [|fuel IH]; intros u acc Hu Hacc; [exact Hacc|].
  cbn [strconv.digits]. destruct (Z.leb_spec 10 u).
  - apply IH; [apply Z.div_pos; lia|].
    apply (plain_append (String _ "") acc); [|exact Hacc].
    apply digit_plain. apply Z.mod_pos_bound. lia.
  - apply (plain_append (String _ "") acc); [|exact Hacc].
    apply digit_plain. lia.
Qed.

Lemma digits_nonempty (fuel : nat) :
  forall (u : Z) (acc : string),
    (fuel <> O \/ acc <> "") -> strconv.digits fuel u acc <> "".
Proof.
  induction fuel as [|fuel IH]; intros u acc H.
  - destruct H; [congruence|assumption].
  - cbn [strconv.digits]. destruct (10 <=? u); [|discriminate].
    apply IH. right. discriminate.
Qed.

Lemma zeros_plain (n : nat) : plain (time.zeros n) = true.
Proof. induction n; [reflexivity|exact IHn]. Qed.

Lemma append_nonempty_r (a b : string) : b <> "" -> a ++ b <> "".
Proof. destruct a; [auto|discriminate]. Qed.

(** A number written by [appendInt] is never empty and holds neither a
    separator nor a dot. *)
Lemma appendInt_plain (x : Z) (width : nat) :
  plain (time.appendInt x width) = true /\ time.appendInt x width <> "".
Proof.
  unfold time.appendInt. split.
  - apply plain_append; [destruct (x <? 0); reflexivity|].
    apply plain_append; [apply zeros_plain|].
    apply digits_plain; [lia|reflexivity].
  - apply append_nonempty_r, append_nonempty_r, digits_nonempty. left. discriminate.
Qed.

Lemma plain_ordinary (a b : string) :
  plain a = true -> a <> "" -> noSlash b = true -> ordinary (a ++ b) = true.
Proof.
  intros Ha Hne Hb. destruct a as [|c a]; [congruence|].
  simpl in Ha. apply andb_true_iff in Ha as [Hc Ha].
  apply andb_true_iff in Hc as [Hs Hd].
  assert (Hn : noSlash (a ++ b) = true).
  { clear -Ha Hb. induction a as [|x a IH]; [exact Hb|].
    simpl in *. apply andb_true_iff in Ha as [Hx Ha].
    apply andb_true_iff in Hx as [Hx _]. now rewrite Hx, IH. }
  unfold ordinary. cbn [String.append noSlash String.eqb].
  rewrite Hs, Hn. apply negb_true_iff in Hd. rewrite Hd. reflexivity.
Qed.

Lemma dateText_plain (t : time.Time) : plain (dateText t) = true /\ dateText t <> "".
Proof.
  unfold dateText. destruct (time.Date t) as [[y m] d].
  destruct (appendInt_plain y 4) as [H1 N1], (appendInt_plain m 2) as [H2 _],
    (appendInt_plain d 2) as [H3 _].
  split; [apply plain_append; [exact H1|apply plain_append; [exact H2|exact H3]]|].
  destruct (time.appendInt y 4); [congruence|discriminate].
Qed.

Lemma hourText_plain (t : time.Time) : plain (hourText t) = true /\ hourText t <> "".
Proof.
  unfold hourText. destruct (time.Clock t) as [[h m] s]. apply appendInt_plain.
Qed.

Lemma timestampText_plain (t : time.Time) :
  plain (timestampText t) = true /\ timestampText t <> "".
Proof.
  unfold timestampText. destruct (time.Clock t) as [[h m] s].
  destruct (dateText_plain t) as [H0 N0].
  destruct (appendInt_plain h 2) as [H1 _], (appendInt_plain m 2) as [H2 _],
    (appendInt_plain s 2) as [H3 _].
  split; [apply plain_append;
          [exact H0|apply plain_append; [exact H1|apply plain_append;
                                                   [exact H2|exact H3]]]|].
  destruct (dateText t); [congruence|discriminate].
Qed.

(** For a prefix made of ordinary elements the path join changes
    nothing: the object key is the prefix, the date, the hour and the
    file name with a separator between them. *)
Lemma objectKeyOf_literal (op : s3operator.t) (t : time.Time) :
  forallb ordinary (filepath.split (s3operator.prefix op)) = true ->
  let tl := time.In t (s3operator.location op) in
  objectKeyOf op t
  = s3operator.prefix op ++ "/" ++ dateText tl ++ "/" ++ hourText tl ++ "/"
      ++ timestampText tl ++ suffixOf (s3operator.compressFormat op).
Proof.
  intros Hp tl. unfold objectKeyOf. fold tl.
  set (file := timestampText tl ++ suffixOf (s3operator.compressFormat op)).
  assert (Hne : String.eqb (s3operator.prefix op) "" = false).
  { destruct (s3operator.prefix op); [discriminate Hp|reflexivity]. }
  cbn [filepath.Join]. rewrite Hne.
  assert (Htail : forallb ordinary [dateText tl; hourText tl; file] = true).
  { destruct (dateText_plain tl) as [Hd Nd], (hourText_plain tl) as [Hh Nh],
      (timestampText_plain tl) as [Ht Nt].
    assert (H1 : ordinary (dateText tl) = true)
      by (rewrite <- (append_nil_r (dateText tl)); now apply plain_ordinary).
    assert (H2 : ordinary (hourText tl) = true)
      by (rewrite <- (append_nil_r (hourText tl)); now apply plain_ordinary).
    assert (H3 : ordinary file = true).
    { unfold file. apply plain_ordinary; try assumption.
      unfold suffixOf. destruct (s3operator.compressFormat op); reflexivity. }
    cbn [forallb]. now rewrite H1, H2, H3. }
  assert (Hj : strings.Join [s3operator.prefix op; dateText tl; hourText tl; file] "/"
               = strings.Join (filepath.split (s3operator.prefix op)
                                 ++ [dateText tl; hourText tl; file])%list "/").
  { rewrite Join_app, Join_split; [reflexivity| |discriminate].
    apply splitAcc_nonempty. }
  rewrite Hj, Clean_ordinary.
  - rewrite <- Hj. reflexivity.
  - intros E. apply app_eq_nil in E as [_ E]. discriminate.
  - rewrite forallb_app, Hp. exact Htail.
Qed.

Lemma decimal_zero (n : nat) : decimal n 0 = time.zeros n.
Proof.
  induction n as [|n IH]; [reflexivity|].
  cbn [decimal]. change (0 / 10) with 0. rewrite IH.
  clear IH. induction n as [|n IH]; [reflexivity|].
  cbn [time.zeros String.append]. now rewrite IH.
Qed.

Lemma digits_length (fuel : nat) :
  forall u acc, (String.length acc <= String.length (strconv.digits fuel u acc))%nat.
Proof.
  induction fuel as [|fuel IH]; intros u acc; [simpl; lia|].
  cbn [strconv.digits]. destruct (10 <=? u).
  - specialize (IH (u / 10) (String (strconv.digit (u mod 10)) acc)). simpl in IH. lia.
  - simpl. lia.
Qed.

Lemma pad_digits (w : nat) :
  forall (fuel : nat) (x : Z) (acc : string),
    (1 <= w <= fuel)%nat -> 0 <= x < 10 ^ Z.of_nat w ->
    time.zeros (w - (String.length (strconv.digits fuel x acc) - String.length acc))
      ++ strconv.digits fuel x acc
    = decimal w x ++ acc.
Proof.
  induction w as [|w IH]; intros fuel x acc Hw Hx; [lia|].
  destruct fuel as [|fuel]; [lia|].
  cbn [strconv.digits decimal].
  destruct (Z.leb_spec 10 x) as [Hge|Hlt].
  - destruct w as [|w].
    { change (10 ^ Z.of_nat 1) with 10 in Hx. lia. }
    assert (Hq : 0 <= x / 10 < 10 ^ Z.of_nat (S w)).
    { rewrite Nat2Z.inj_succ, Z.pow_succ_r in Hx by lia.
      split; [apply Z.div_pos; lia|apply Z.div_lt_upper_bound; lia]. }
    specialize (IH fuel (x / 10) (String (strconv.digit (x mod 10)) acc)
                  ltac:(lia) Hq).
    pose proof (digits_length fuel (x / 10) (String (strconv.digit (x mod 10)) acc)) as Hl.
    cbn [String.length] in IH, Hl.
    replace (S (S w) - (String.length
                          (strconv.digits fuel (x / 10)
                             (String (strconv.digit (x mod 10)) acc))
                        - String.length acc))%nat
      with (S w - (String.length
                     (strconv.digits fuel (x / 10)
                        (String (strconv.digit (x mod 10)) acc))
                   - S (String.length acc)))%nat by lia.
    rewrite IH, append_assoc. reflexivity.
  - rewrite Z.div_small, Z.mod_small, decimal_zero by lia.
    cbn [String.length].
    replace (S w - (S (String.length acc) - String.length acc))%nat with w by lia.
    rewrite append_assoc. reflexivity.
Qed.

(** [appendInt] writes the [width]-digit numeral of a number that has
    at most [width] digits. *)
Lemma appendInt_decimal (x : Z) (width : nat) :
  (1 <= width <= 20)%nat -> 0 <= x < 10 ^ Z.of_nat width ->
  time.appendInt x width = decimal width x.
Proof.
  intros Hw Hx. unfold time.appendInt.
  replace (x <? 0) with false by (symmetry; apply Z.ltb_ge; lia).
  rewrite Z.abs_eq by lia.
  pose proof (pad_digits width 20 x "" Hw Hx) as H.
  rewrite append_nil_r in H. cbn [String.length] in H.
  rewrite Nat.sub_0_r in H. exact H.
Qed.

Lemma decimal_length (n : nat) (x : Z) : String.length (decimal n x) = n.
Proof.
  revert x. induction n as [|n IH]; intros x; [reflexivity|].
  cbn [decimal]. rewrite length_append, IH. simpl. lia.
Qed.

Lemma absClock_range (a : Z) :
  0 <= a ->
  let '(h, m, s) := time.absClock a in
  0 <= h < 24 /\ 0 <= m < 60 /\ 0 <= s < 60.
Proof.
  intros Ha. unfold time.absClock, time.secondsPerDay.
  Z.div_mod_to_equations. lia.
Qed.

Ltac month_cases Em :=
  repeat (destruct Em as [Em|Em]); subst;
  repeat match goal with
         | |- context [nth ?n time.daysBefore 0] =>
             let v := eval vm_compute in (nth n time.daysBefore 0) in
             change (nth n time.daysBefore 0) with v
         end;
  match goal with |- context [?x <=? ?y] => destruct (Z.leb_spec x y) end; lia.

Lemma absDate_range (a : Z) :
  0 <= a ->
  let '(y, m, d) := time.absDate a in
  1 <= m <= 12 /\ 1 <= d <= 31.
Proof.
  intros Ha. unfold time.absDate.
  unfold time.secondsPerDay, time.daysPer400Years, time.daysPer100Years,
    time.daysPer4Years, time.absoluteZeroYear.
  rewrite !Z.shiftr_div_pow2 by lia.
  change (2 ^ 2) with 4. change (365 * 400 + 97) with 146097.
  change (365 * 100 + 24) with 36524. change (365 * 4 + 1) with 1461.
  change (31 + 29 - 1) with 59.
  set (d0 := a / 86400).
  set (n1 := d0 / 146097).
  set (d1 := d0 - 146097 * n1).
  set (q2 := d1 / 36524).
  set (n2 := q2 - q2 / 4).
  set (d2 := d1 - 36524 * n2).
  set (q3 := d2 / 1461).
  set (d3 := d2 - 1461 * q3).
  set (q4 := d3 / 365).
  set (n4 := q4 - q4 / 4).
  set (d4 := d3 - 365 * n4).
  set (year := 400 * n1 + 100 * n2 + 4 * q3 + n4 + -292277022399).
  assert (H0 : 0 <= d0) by (unfold d0; apply Z.div_pos; lia).
  assert (H1 : 0 <= d1 < 146097) by (unfold d1, n1; Z.div_mod_to_equations; lia).
  assert (H2 : 0 <= n2 <= 3 /\ 0 <= d2 <= 36524 /\ (d2 = 36524 -> n2 = 3))
    by (unfold d2, n2, q2; Z.div_mod_to_equations; lia).
  assert (H3 : 0 <= q3 <= 24 /\ 0 <= d3 <= 1460 /\ (q3 = 24 /\ d3 = 1460 -> d2 = 36524))
    by (unfold d3, q3; Z.div_mod_to_equations; lia).
  assert (H4 : 0 <= n4 <= 3 /\ 0 <= d4 <= 365 /\ (d4 = 365 -> n4 = 3 /\ d3 = 1460))
    by (unfold d4, n4, q4; Z.div_mod_to_equations; lia).
  assert (Hleap : time.isLeap year = true <-> n4 = 3 /\ (q3 <> 24 \/ n2 = 3)).
  { unfold time.isLeap, year.
    rewrite andb_true_iff, orb_true_iff, negb_true_iff, !Z.eqb_eq, Z.eqb_neq.
    Z.to_euclidean_division_equations. lia. }
  clearbody year d4 n4 q3 n2. clear - H2 H3 H4 Hleap.
  destruct (time.isLeap year) eqn:Hl.
  - assert (Hd : 0 <= d4 <= 365) by lia. clear - Hd.
    cbn [andb].
    destruct (Z.eqb_spec d4 59); [lia|].
    destruct (Z.ltb_spec 59 d4).
    + assert (E : 0 <= (d4 - 1) / 31 <= 11) by (Z.div_mod_to_equations; lia).
      assert (E' : 31 * ((d4 - 1) / 31) <= d4 - 1 < 31 * ((d4 - 1) / 31) + 31)
        by (Z.div_mod_to_equations; lia).
      set (m := (d4 - 1) / 31) in *.
      assert (Em : m = 0 \/ m = 1 \/ m = 2 \/ m = 3 \/ m = 4 \/ m = 5 \/ m = 6 \/ m = 7
                   \/ m = 8 \/ m = 9 \/ m = 10 \/ m = 11) by lia.
      clearbody m.
      month_cases Em.
    + assert (E : 0 <= d4 / 31 <= 11) by (Z.div_mod_to_equations; lia).
      assert (E' : 31 * (d4 / 31) <= d4 < 31 * (d4 / 31) + 31)
        by (Z.div_mod_to_equations; lia).
      set (m := d4 / 31) in *.
      assert (Em : m = 0 \/ m = 1 \/ m = 2 \/ m = 3 \/ m = 4 \/ m = 5 \/ m = 6 \/ m = 7
                   \/ m = 8 \/ m = 9 \/ m = 10 \/ m = 11) by lia.
      clearbody m.
      month_cases Em.
  - assert (Hd : 0 <= d4 <= 364).
    { destruct (Z.eq_dec d4 365) as [E|E]; [|lia].
      assert (Hc : false = true) by (apply Hleap; lia). discriminate Hc. }
    clear - Hd. cbn [andb].
    assert (E : 0 <= d4 / 31 <= 11) by (Z.div_mod_to_equations; lia).
    assert (E' : 31 * (d4 / 31) <= d4 < 31 * (d4 / 31) + 31)
      by (Z.div_mod_to_equations; lia).
    set (m := d4 / 31) in *.
    assert (Em : m = 0 \/ m = 1 \/ m = 2 \/ m = 3 \/ m = 4 \/ m = 5 \/ m = 6 \/ m = 7
                 \/ m = 8 \/ m = 9 \/ m = 10 \/ m = 11) by lia.
    clearbody m.
    month_cases Em.
Qed.

Lemma rem_mod_zero (y k : Z) : 0 < k -> (Z.rem y k =? 0) = (y mod k =? 0).
Proof.
  intros Hk.
  destruct (Z.eqb_spec (Z.rem y k) 0) as [E|E], (Z.eqb_spec (y mod k) 0) as [F|F];
    try reflexivity; exfalso; Z.to_euclidean_division_equations; nia.
Qed.

Lemma isLeap_leapYear (y : Z) : time.isLeap y = leapYear y.
Proof.
  unfold time.isLeap, leapYear. now rewrite !rem_mod_zero by lia.
Qed.

Ltac eval_months l :=
  repeat match goal with
         | |- context [daysBeforeMonth l ?m] =>
             let v := eval vm_compute in (daysBeforeMonth l m) in
             change (daysBeforeMonth l m) with v
         | H : context [daysIn l ?m] |- _ =>
             let v := eval vm_compute in (daysIn l m) in
             change (daysIn l m) with v in H
         end.

(** The day of the year of a valid date, counted from zero. *)
Lemma dayOfYear_range (l : bool) (m d : Z) :
  1 <= m <= 12 -> 1 <= d <= daysIn l m ->
  0 <= daysBeforeMonth l m + (d - 1) <= (if l then 365 else 364).
Proof.
  intros Hm Hd.
  assert (Em : m = 1 \/ m = 2 \/ m = 3 \/ m = 4 \/ m = 5 \/ m = 6 \/ m = 7 \/ m = 8
               \/ m = 9 \/ m = 10 \/ m = 11 \/ m = 12) by lia.
  repeat (destruct Em as [Em|Em]); subst m; eval_months l; destruct l; lia.
Qed.

Ltac eval_table :=
  repeat match goal with
         | |- context [nth ?n time.daysBefore 0] =>
             let v := eval vm_compute in (nth n time.daysBefore 0) in
             change (nth n time.daysBefore 0) with v
         end.

Ltac split_month :=
  match goal with
  | |- context [?day / 31] =>
      let q := fresh "q" in
      let Hq := fresh "Hq" in
      let Eq := fresh "Eq" in
      assert (Hq : 31 * (day / 31) <= day < 31 * (day / 31) + 31)
        by (Z.div_mod_to_equations; lia);
      set (q := day / 31) in *;
      assert (Eq : q = 0 \/ q = 1 \/ q = 2 \/ q = 3 \/ q = 4 \/ q = 5 \/ q = 6 \/ q = 7
                   \/ q = 8 \/ q = 9 \/ q = 10 \/ q = 11) by lia;
      clearbody q;
      repeat (destruct Eq as [Eq|Eq]); subst q; try lia; eval_table;
      match goal with |- context [?x <=? ?y] => destruct (Z.leb_spec x y) end;
      try lia; repeat f_equal; lia
  end.

(** The month and day [absDate] reads off the day of the year. *)
Lemma monthDay_of_dayOfYear (l : bool) (y m d : Z) :
  1 <= m <= 12 -> 1 <= d <= daysIn l m ->
  let yday := daysBeforeMonth l m + (d - 1) in
  (if l && (yday =? 59) then (y, 2, 29)
   else
     let day := if l && (59 <? yday) then yday - 1 else yday in
     let month := day / 31 in
     let endd := nth (Z.to_nat (month + 1)) time.daysBefore 0 in
     if endd <=? day
     then (y, month + 1 + 1, day - endd + 1)
     else (y, month + 1, day - nth (Z.to_nat month) time.daysBefore 0 + 1))
  = (y, m, d).
Proof.
  intros Hm Hd. cbv zeta.
  assert (Em : m = 1 \/ m = 2 \/ m = 3 \/ m = 4 \/ m = 5 \/ m = 6 \/ m = 7 \/ m = 8
               \/ m = 9 \/ m = 10 \/ m = 11 \/ m = 12) by lia.
  repeat (destruct Em as [Em|Em]); subst m; eval_months l; destruct l; cbn [andb];
    repeat match goal with
           | |- context [?x =? 59] => destruct (Z.eqb_spec x 59)
           | |- context [59 <? ?x] => destruct (Z.ltb_spec 59 x)
           end; try lia; try (repeat f_equal; lia); split_month.
Qed.

(** [absDate] reads a valid date back from its day number. *)
Lemma absDate_civil (y m d secs : Z) :
  validDate y m d -> 0 <= secs < 86400 -> time.absoluteZeroYear <= y ->
  time.absDate (civilDays y m d * 86400 + secs + time.unixToAbsolute) = (y, m, d).
Proof.
  intros [Hm Hd] Hs Hy.
  pose proof (dayOfYear_range (leapYear y) m d Hm Hd) as Hyd.
  pose proof (monthDay_of_dayOfYear (leapYear y) y m d Hm Hd) as Htail.
  cbv zeta in Htail.
  unfold civilDays.
  set (yd := daysBeforeMonth (leapYear y) m + (d - 1)) in *.
  replace (365 * (y - 1) + (y - 1) / 4 - (y - 1) / 100 + (y - 1) / 400
           + daysBeforeMonth (leapYear y) m + (d - 1) - 719162)
    with (365 * (y - 1) + (y - 1) / 4 - (y - 1) / 100 + (y - 1) / 400 + yd - 719162)
    by (unfold yd; lia).
  unfold time.absoluteZeroYear in Hy.
  set (Y := y + 292277022399).
  set (n := Y / 400). set (c := Y mod 400 / 100). set (q := Y mod 100 / 4).
  set (r := Y mod 4).
  assert (HY : Y = 400 * n + 100 * c + 4 * q + r /\ 0 <= n /\ 0 <= c <= 3
               /\ 0 <= q <= 24 /\ 0 <= r <= 3)
    by (unfold n, c, q, r, Y; Z.div_mod_to_equations; lia).
  assert (Hdiv : (y - 1) / 4 = 100 * n + 25 * c + q - 73069255600
                 /\ (y - 1) / 100 = 4 * n + c - 2922770224
                 /\ (y - 1) / 400 = n - 730692556).
  { replace (y - 1) with (Y - 292277022400) by (unfold Y; lia).
    destruct HY as (HY & ?). clearbody n c q r. rewrite HY.
    Z.div_mod_to_equations. lia. }
  assert (Hleap : leapYear y = true <-> r = 3 /\ (q <> 24 \/ c = 3)).
  { unfold leapYear.
    rewrite andb_true_iff, orb_true_iff, negb_true_iff, !Z.eqb_eq, Z.eqb_neq.
    replace y with (Y - 292277022399) by (unfold Y; lia).
    destruct HY as (HY & ?). clearbody n c q r. rewrite HY.
    Z.div_mod_to_equations. lia. }
  assert (Hyd' : 0 <= yd <= 365 /\ (yd = 365 -> r = 3 /\ (q <> 24 \/ c = 3))).
  { destruct (leapYear y); [split; [lia|intros _; now apply Hleap]|lia]. }
  destruct Hdiv as (-> & -> & ->).
  assert (Ey : y = 400 * n + 100 * c + 4 * q + r + -292277022399)
    by (destruct HY as (HY & _); unfold Y in HY; lia).
  unfold time.absDate.
  unfold time.secondsPerDay, time.daysPer400Years, time.daysPer100Years,
    time.daysPer4Years, time.absoluteZeroYear, time.unixToAbsolute.
  rewrite !Z.shiftr_div_pow2 by lia.
  change (2 ^ 2) with 4. change (365 * 400 + 97) with 146097.
  change (365 * 100 + 24) with 36524. change (365 * 4 + 1) with 1461.
  change (31 + 29 - 1) with 59.
  replace ((365 * (y - 1) + (100 * n + 25 * c + q - 73069255600)
            - (4 * n + c - 2922770224) + (n - 730692556) + yd - 719162) * 86400
           + secs + 9223372028715321600)
    with ((146097 * n + 36524 * c + 1461 * q + 365 * r + yd) * 86400 + secs) by lia.
  set (D := 146097 * n + 36524 * c + 1461 * q + 365 * r + yd).
  assert (E0 : (D * 86400 + secs) / 86400 = D) by (Z.div_mod_to_equations; lia).
  rewrite E0.
  destruct HY as (_ & Hn & Hc & Hq & Hr).
  clearbody n c q r yd. clear Hleap Hyd Hd Hm Hy Y.
  assert (E1 : D / 146097 = n) by (unfold D; Z.div_mod_to_equations; lia).
  rewrite E1.
  replace (D - 146097 * n) with (36524 * c + 1461 * q + 365 * r + yd) by (unfold D; lia).
  set (d1 := 36524 * c + 1461 * q + 365 * r + yd).
  assert (E2 : d1 / 36524 - d1 / 36524 / 4 = c)
    by (unfold d1; Z.div_mod_to_equations; lia).
  rewrite E2.
  replace (d1 - 36524 * c) with (1461 * q + 365 * r + yd) by (unfold d1; lia).
  set (d2 := 1461 * q + 365 * r + yd).
  assert (E3 : d2 / 1461 = q) by (unfold d2; Z.div_mod_to_equations; lia).
  rewrite E3.
  replace (d2 - 1461 * q) with (365 * r + yd) by (unfold d2; lia).
  set (d3 := 365 * r + yd).
  assert (E4 : d3 / 365 - d3 / 365 / 4 = r)
    by (unfold d3; Z.div_mod_to_equations; lia).
  rewrite E4.
  replace (d3 - 365 * r) with yd by (unfold d3; lia).
  rewrite <- Ey, isLeap_leapYear. exact Htail.
Qed.

Lemma civilDays_range (y m d : Z) :
  validDate y m d -> 0 <= y <= 9999 -> -719528 <= civilDays y m d <= 2932897.
Proof.
  intros [Hm Hd] Hy.
  pose proof (dayOfYear_range (leapYear y) m d Hm Hd) as Hyd.
  unfold civilDays.
  assert (Hb : 0 <= daysBeforeMonth (leapYear y) m + (d - 1) <= 365)
    by (destruct (leapYear y); lia).
  revert Hb. generalize (daysBeforeMonth (leapYear y) m). intros b Hb.
  Z.div_mod_to_equations. lia.
Qed.

Lemma Date_Clock_civil (t : time.Time) (y m d h mi s : Z) :
  showsCivil t y m d h mi s -> 0 <= y <= 9999 ->
  time.Date t = (y, m, d) /\ time.Clock t = (h, mi, s).
Proof.
  intros (Hv & Hh & Hmi & Hs & Ht) Hy.
  pose proof (civilDays_range y m d Hv Hy) as Hr.
  unfold time.Date, time.Clock, time.abs. rewrite Ht. unfold civilSeconds.
  set (D := civilDays y m d) in *.
  assert (Hsmall : 0 <= D * 86400 + h * 3600 + mi * 60 + s + time.unixToAbsolute < 2 ^ 64)
    by (unfold time.unixToAbsolute; change (2 ^ 64) with 18446744073709551616; lia).
  rewrite Z.mod_small by exact Hsmall.
  split.
  - replace (D * 86400 + h * 3600 + mi * 60 + s + time.unixToAbsolute)
      with (D * 86400 + (h * 3600 + mi * 60 + s) + time.unixToAbsolute) by lia.
    apply absDate_civil; [exact Hv|lia|unfold time.absoluteZeroYear; lia].
  - unfold time.absClock, time.secondsPerDay, time.unixToAbsolute.
    clearbody D.
    assert (E : (D * 86400 + h * 3600 + mi * 60 + s + 9223372028715321600) mod 86400
                = h * 3600 + mi * 60 + s)
      by (Z.div_mod_to_equations; lia).
    rewrite E.
    assert (E1 : (h * 3600 + mi * 60 + s) / 3600 = h) by (Z.div_mod_to_equations; lia).
    rewrite E1.
    replace (h * 3600 + mi * 60 + s - h * 3600) with (mi * 60 + s) by lia.
    assert (E2 : (mi * 60 + s) / 60 = mi) by (Z.div_mod_to_equations; lia).
    rewrite E2. repeat f_equal. lia.
Qed.

Lemma validDate_range (y m d : Z) : validDate y m d -> 1 <= m <= 12 /\ 1 <= d <= 31.
Proof.
  intros [Hm Hd]. split; [exact Hm|].
  assert (Em : m = 1 \/ m = 2 \/ m = 3 \/ m = 4 \/ m = 5 \/ m = 6 \/ m = 7 \/ m = 8
               \/ m = 9 \/ m = 10 \/ m = 11 \/ m = 12) by lia.
  set (l := leapYear y) in *. clearbody l.
  repeat (destruct Em as [Em|Em]); subst m; eval_months l; destruct l; lia.
Qed.

(** The texts of an instant that shows a civil date and time of a year
    of at most four digits: the fields as numerals of fixed width. *)
Lemma texts_civil (t : time.Time) (y m d h mi s : Z) :
  showsCivil t y m d h mi s -> 0 <= y <= 9999 ->
  dateText t = decimal 4 y ++ decimal 2 m ++ decimal 2 d
  /\ hourText t = decimal 2 h
  /\ timestampText t
     = decimal 4 y ++ decimal 2 m ++ decimal 2 d
         ++ decimal 2 h ++ decimal 2 mi ++ decimal 2 s.
Proof.
  intros Hc Hy.
  destruct (Date_Clock_civil t y m d h mi s Hc Hy) as [HD HC].
  destruct Hc as (Hv & Hh & Hmi & Hs & _).
  destruct (validDate_range y m d Hv) as [Hm Hd].
  unfold timestampText, dateText, hourText. rewrite HD, HC.
  rewrite !appendInt_decimal;
    try (split; lia);
    try (change (10 ^ Z.of_nat 2) with 100; lia);
    try (change (10 ^ Z.of_nat 4) with 10000; lia).
  rewrite !append_assoc. auto.
Qed.

(** C1. The object key is a function of the operator and the instant
    alone (the state it is computed in does not matter): it is the path
    join of the prefix, the date [YYYYMMDD], the hour [HH] and the file
    name made of the timestamp [YYYYMMDDHHMMSS] and of the suffix
    [.log] (plain) or [.log.gz] (gzip), all fields read off the instant
    presented in the operator's time zone, whatever [time.Local] was
    before.  For a prefix of ordinary path elements the join is the plain
    concatenation with separators; when the instant shows, in that zone,
    the civil date y-m-d and time h:mi:s of a year of at most four
    digits, the fields are the zero-padded numerals of y, m, d, h, mi
    and s.  Prefix "logs" at local time 2024-03-05T08:07:09 gives
    "logs/20240305/08/20240305080709.log" under plain mode, in UTC as
    in a zone nine hours ahead. *)
Theorem GenerateObjectKey_format (op : s3operator.t) (t : time.Time) (st : State) :
  let tl := time.In t (s3operator.location op) in
  let fileName :=
    timestampText tl ++ match s3operator.compressFormat op with
                        | plainTextFormat => ".log"
                        | gzipFormat => ".log.gz"
                        end in
  (exists st',
      GenerateObjectKey op t st
      = Some (filepath.Join [s3operator.prefix op; dateText tl; hourText tl; fileName],
              st'))
  /\ (forall st2 : State,
         option_map fst (GenerateObjectKey op t st2)
         = option_map fst (GenerateObjectKey op t st))
  /\ (forallb ordinary (filepath.split (s3operator.prefix op)) = true ->
      option_map fst (GenerateObjectKey op t st)
      = Some (s3operator.prefix op ++ "/" ++ dateText tl ++ "/" ++ hourText tl
                ++ "/" ++ fileName))
  /\ (forall y m d h mi s : Z,
         showsCivil tl y m d h mi s -> 0 <= y <= 9999 ->
         dateText tl = decimal 4 y ++ decimal 2 m ++ decimal 2 d
         /\ hourText tl = decimal 2 h
         /\ timestampText tl
            = decimal 4 y ++ decimal 2 m ++ decimal 2 d
                ++ decimal 2 h ++ decimal 2 mi ++ decimal 2 s)
  /\ option_map fst
       (GenerateObjectKey (sample.operator sample.alwaysOk plainTextFormat)
          (time.Unix 1709626029 0) st)
     = Some "logs/20240305/08/20240305080709.log"
  /\ option_map fst
       (GenerateObjectKey
          {| s3operator.bucket := "bucket"; s3operator.prefix := "logs";
             s3operator.uploader := sample.alwaysOk;
             s3operator.compressFormat := plainTextFormat;
             s3operator.logger := log.InfoLevel;
             s3operator.location := sample.JST |}
          (time.Unix (1709626029 - 32400) 0) st)
     = Some "logs/20240305/08/20240305080709.log".
Proof.
  cbv zeta. rewrite !GenerateObjectKey_eq.
  split; [|split; [|split; [|split; [|split]]]].
  - eexists. unfold objectKeyOf, suffixOf. reflexivity.
  - intros st2. rewrite GenerateObjectKey_eq. reflexivity.
  - intros Hp. cbn [option_map fst].
    rewrite (objectKeyOf_literal op t Hp). unfold suffixOf. reflexivity.
  - intros y m d h mi s Hc Hy. exact (texts_civil _ y m d h mi s Hc Hy).
  - vm_compute. reflexivity.
  - vm_compute. reflexivity.
Qed.

(** * Flushing a batch *)

Lemma Now_eq st : Now st = Some (timeAt st, tick st).
Proof. unfold Now, timeAt, tick. destruct (clock (ticks st)); reflexivity. Qed.

Lemma makeGzip_eq body st : makeGzip body st = Some (gzipOf (timeAt st) body, tick st).
Proof.
  unfold makeGzip, bind. rewrite Now_eq. unfold gzipOf.
  destruct (gzip.Write _ body) as [gw err].
  destruct (gzip.Close deflate gw) as [gw' e']. reflexivity.
Qed.

(** The header of [makeGzip] is always accepted: the write never fails. *)
Lemma gzipOf_no_error now body : snd (gzipOf now body) = None.
Proof.
  unfold gzipOf, gzip.Write. cbn -[gzip.Close gzip.latin1 crc32.Update Z.modulo Z.pow].
  replace (gzip.latin1 _) with
    (Some (list_byte_of_string "fluent-bit-go-s3")) by (vm_compute; reflexivity).
  cbn -[gzip.Close crc32.Update Z.modulo Z.pow list_byte_of_string].
  destruct (gzip.Close deflate _). reflexivity.
Qed.

Lemma payload_cons (r : record) (rest : list record) :
  payload (r :: rest)
  = match lineOf r with
    | inl line => line ++ String "010" "" ++ payload rest
    | inr _ => payload rest
    end.
Proof.
  unfold payload, encodedLines. cbn [flat_map].
  destruct (lineOf r) as [line|e]; [|reflexivity].
  cbn [app map concatAll]. now rewrite append_assoc.
Qed.

(** One turn of the record loop, as [FLBPluginFlushCtx] writes it:
    [GetRecord], the test of the return code, [createJSON], and the
    rest of the loop on the decoder as [GetRecord] left it. *)
Lemma readRecords_GetRecord (op : s3operator.t) (dec : FLBDecoder) (lines : string) :
  readRecords op dec lines
  = let '((r, _, record), dec') := GetRecord dec in
    if negb (r =? 0) then ret lines
    else
      c <- createJSON record ;;
      match c with
      | (_, Some err) =>
          warnf op ("error creating message for S3: " ++ err) ;;;
          readRecords op dec' lines
      | (line, None) =>
          readRecords op dec' (lines ++ line ++ String "010" "")
      end.
Proof.
  destruct dec as [|obj dec']; [reflexivity|].
  cbn [readRecords GetRecord].
  destruct (recordOf obj) as [[r ts] rec]. reflexivity.
Qed.

Lemma readRecords_eq (op : s3operator.t) (data : list value) :
  forall (lines : string) (st : State),
    readRecords op data lines st
    = if forallb encodable (delivered data)
      then Some (lines ++ payload (delivered data),
                 addEvents st (encodeWarnings (s3operator.logger op) (delivered data)))
      else None.
Proof.
  unfold encodeWarnings.
  destruct (log.IsLevelEnabled (s3operator.logger op) log.WarnLevel) eqn:Hl;
    induction data as [|obj rest IH]; intros lines st;
    try (simpl; rewrite append_nil_r, addEvents_nil; reflexivity);
    cbn [readRecords delivered];
    destruct (recordOf obj) as [[r ts] rec];
    (destruct (r =? 0) eqn:Hr; cbn [negb];
     [|simpl; rewrite append_nil_r, addEvents_nil; reflexivity]);
    rewrite payload_cons; cbn [forallb flat_map];
    unfold bind, createJSON, encodable, lineOf;
    (destruct (encodeJSON rec) as [m|]; [|reflexivity]);
    cbn [andb];
    destruct (Marshal m) as [js|err]; unfold warnf; rewrite ?Hl;
    unfold ret; rewrite ?emit_addEvents; cbv beta iota; rewrite IH; fold encodable;
    (destruct (forallb encodable (delivered rest)); [|reflexivity]);
    rewrite ?addEvents_app, ?append_assoc; reflexivity.
Qed.

(** What [Put] does: at most one put-object call, none when the
    compression step fails. *)
Lemma Put_eq (op : s3operator.t) (objectKey : string) (timestamp : time.Time)
      (line : string) (st : State) :
  Put op objectKey timestamp line st
  = match s3operator.compressFormat op with
    | plainTextFormat =>
        let input := {| Bucket := s3operator.bucket op; Key := objectKey;
                        Body := list_byte_of_string line |} in
        Some (s3operator.uploader op input, addEvents st [Upload input])
    | gzipFormat =>
        match gzipOf (timeAt st) (list_byte_of_string line) with
        | (_, Some err) => Some (Some err, tick st)
        | (compressed, None) =>
            let input := {| Bucket := s3operator.bucket op; Key := objectKey;
                            Body := compressed |} in
            Some (s3operator.uploader op input, addEvents (tick st) [Upload input])
        end
    end.
Proof.
  unfold Put. destruct (s3operator.compressFormat op).
  - reflexivity.
  - unfold bind. rewrite makeGzip_eq.
    destruct (gzipOf _ _) as [c [e|]]; reflexivity.
Qed.

(** The whole of [FLBPluginFlushCtx], step by step. *)
Lemma FLBPluginFlushCtx_eq (ctx : nat) (data : list value) (st : State) :
  FLBPluginFlushCtx ctx data st
  = match nth_error (s3operators st) ctx with
    | None => None
    | Some op =>
        if forallb encodable (delivered data) then
          let recs := delivered data in
          let st1 := addEvents st (encodeWarnings (s3operator.logger op) recs) in
          let st3 := withLocal (tick st1) (s3operator.location op) in
          match Put op (objectKeyOf op (timeAt st1)) (timeAt st3) (payload recs)
                  (tick st3) with
          | Some (Some e, st5) => Some (FLB_RETRY, addEvents st5 (sendWarning op e))
          | Some (None, st5) => Some (FLB_OK, st5)
          | None => None
          end
        else None
    end.
Proof.
  unfold FLBPluginFlushCtx, bind, getS3Operator, NewDecoder.
  destruct (nth_error (s3operators st) ctx) as [op|]; [|reflexivity].
  rewrite readRecords_eq.
  destruct (forallb encodable (delivered data)); [|reflexivity].
  cbv zeta. rewrite Now_eq, GenerateObjectKey_eq, Now_eq. cbv zeta.
  fold (objectKeyOf op (timeAt (addEvents st
          (encodeWarnings (s3operator.logger op) (delivered data))))).
  simpl String.append.
  destruct (Put _ _ _ _ _) as [[[e|] st5]|]; try reflexivity.
  unfold warnf, sendWarning.
  destruct (log.IsLevelEnabled _ _).
  - rewrite emit_addEvents. reflexivity.
  - unfold ret. rewrite addEvents_nil. reflexivity.
Qed.

Lemma uploads_app a b : uploads (a ++ b) = (uploads a ++ uploads b)%list.
Proof. unfold uploads. apply flat_map_app. Qed.

Lemma uploads_encodeWarnings lvl recs : uploads (encodeWarnings lvl recs) = [].
Proof.
  unfold encodeWarnings. destruct (log.IsLevelEnabled _ _); [|reflexivity].
  induction recs as [|r rest IH]; [reflexivity|].
  cbn [flat_map]. rewrite uploads_app, IH.
  destruct (lineOf r); reflexivity.
Qed.

Lemma uploads_sendWarning op e : uploads (sendWarning op e) = [].
Proof. unfold sendWarning. destruct (log.IsLevelEnabled _ _); reflexivity. Qed.

(** C2. A flush for a registered operator, over records that can be
    encoded, returns, and what it returns is never [FLB_ERROR]: it is
    [FLB_OK] when the one put-object call succeeded, and [FLB_RETRY]
    when that call failed with whatever error or, under gzip, when the
    compression before it failed and no call was made. *)
Theorem FLBPluginFlushCtx_outcome (ctx : nat) (data : list value)
        (st : State) (op : s3operator.t) :
  nth_error (s3operators st) ctx = Some op ->
  forallb encodable (delivered data) = true ->
  exists code st' evs,
    FLBPluginFlushCtx ctx data st = Some (code, st')
    /\ events st' = (events st ++ evs)%list
    /\ code <> FLB_ERROR
    /\ ((code = FLB_OK
         /\ exists input, uploads evs = [input] /\ s3operator.uploader op input = None)
        \/ (code = FLB_RETRY
            /\ exists input e,
                uploads evs = [input] /\ s3operator.uploader op input = Some e)
        \/ (code = FLB_RETRY
            /\ uploads evs = []
            /\ s3operator.compressFormat op = gzipFormat
            /\ exists now lines e,
                snd (gzipOf now (list_byte_of_string lines)) = Some e)).
Proof.
  intros Hop Henc.
  rewrite FLBPluginFlushCtx_eq, Hop, Henc.
  cbv zeta. rewrite Put_eq.
  set (recs := delivered data).
  set (w := encodeWarnings (s3operator.logger op) recs).
  destruct (s3operator.compressFormat op) eqn:Hf.
  - cbv zeta.
    set (input := {| Bucket := _; Key := _; Body := _ |}).
    destruct (s3operator.uploader op input) as [e|] eqn:Hu.
    + exists FLB_RETRY. eexists.
      exists (w ++ [Upload input] ++ sendWarning op e)%list.
      split; [reflexivity|]. split; [simpl; now rewrite <- !app_assoc|].
      split; [discriminate|]. right; left. split; [reflexivity|].
      exists input, e. split; [|assumption].
      unfold w. rewrite !uploads_app, uploads_encodeWarnings, uploads_sendWarning.
      reflexivity.
    + exists FLB_OK. eexists.
      exists (w ++ [Upload input])%list.
      split; [reflexivity|]. split; [simpl; now rewrite <- !app_assoc|].
      split; [discriminate|]. left. split; [reflexivity|].
      exists input. split; [|assumption].
      unfold w. rewrite !uploads_app, uploads_encodeWarnings. reflexivity.
  - destruct (gzipOf _ _) as [c [ge|]] eqn:Hg.
    + exists FLB_RETRY. eexists.
      exists (w ++ sendWarning op ge)%list.
      split; [reflexivity|]. split; [simpl; now rewrite <- !app_assoc|].
      split; [discriminate|]. right; right. split; [reflexivity|].
      split; [unfold w; now rewrite uploads_app, uploads_encodeWarnings,
                uploads_sendWarning|].
      split; [reflexivity|].
      do 3 eexists. rewrite Hg. reflexivity.
    + cbv zeta.
      set (input := {| Bucket := _; Key := _; Body := _ |}).
      destruct (s3operator.uploader op input) as [e|] eqn:Hu.
      * exists FLB_RETRY. eexists.
        exists (w ++ [Upload input] ++ sendWarning op e)%list.
        split; [reflexivity|]. split; [simpl; now rewrite <- !app_assoc|].
        split; [discriminate|]. right; left. split; [reflexivity|].
        exists input, e. split; [|assumption].
        unfold w. rewrite !uploads_app, uploads_encodeWarnings, uploads_sendWarning.
        reflexivity.
      * exists FLB_OK. eexists.
        exists (w ++ [Upload input])%list.
        split; [reflexivity|]. split; [simpl; now rewrite <- !app_assoc|].
        split; [discriminate|]. left. split; [reflexivity|].
        exists input. split; [|assumption].
        unfold w. rewrite !uploads_app, uploads_encodeWarnings. reflexivity.
Qed.

(** * Record encoding *)

(** Induction on values, with the hypothesis for every value held in a
    mapping. *)
Lemma value_map_ind (P : value -> Prop) :
  (forall v, (forall r, v <> VMap r) -> P v) ->
  (forall r, Forall (fun kv => P (snd kv)) r -> P (VMap r)) ->
  forall v, P v.
Proof.
  intros Hother Hmap.
  fix IH 1. intros v.
  destruct v as [| | | | | | |m|]; try (apply Hother; discriminate).
  apply Hmap. revert m.
  fix IHm 1. intros [|[k x] rest]; constructor; [apply IH|apply IHm].
Qed.

Lemma mapSet_fresh (m : list (string * value)) (k : string) (v : value) :
  existsb (String.eqb k) (map fst m) = false -> mapSet m k v = (m ++ [(k, v)])%list.
Proof.
  induction m as [|[k' v'] rest IH]; simpl; [reflexivity|].
  rewrite (String.eqb_sym k k').
  destruct (String.eqb k' k); simpl; [discriminate|].
  intros H. now rewrite IH.
Qed.

Lemma distinct_app_cons (a : list string) (s : string) (b : list string) :
  distinct (a ++ s :: b) = true ->
  existsb (String.eqb s) a = false /\ distinct ((a ++ [s]) ++ b) = true.
Proof.
  rewrite <- app_assoc. simpl. intros H. split; [|exact H].
  induction a as [|x a IH]; simpl in *; [reflexivity|].
  apply andb_true_iff in H as [Hx Ha].
  rewrite (IH Ha), orb_false_r.
  apply negb_true_iff in Hx. rewrite existsb_app in Hx.
  apply orb_false_iff in Hx as [_ Hx]. simpl in Hx.
  apply orb_false_iff in Hx as [Hx _]. now rewrite String.eqb_sym.
Qed.

(** The loop of [encodeJSON] appends the converted entries in order,
    when the keys are text, differ from one another and from the keys
    already in the map. *)
Lemma rangeRecord_convert (l : record) :
  Forall (fun kv => forall next, snd kv = VMap next -> textKeyed (snd kv) = true ->
                    encodeJSONValue (snd kv) = Some (convertFields next)) l ->
  forallb (fun '(k, _) => isTextKey k) l = true ->
  forallb (fun '(_, x) => textKeyed x) l = true ->
  forall m : list (string * value),
    distinct (map fst m ++ map (fun '(k, _) => keyText k) l) = true ->
    rangeRecord encodeJSONValue l m = Some (m ++ convertFields l)%list.
Proof.
  induction 1 as [|[k x] rest Hx _ IH]; intros Hk Ht m Hd.
  - simpl. now rewrite app_nil_r.
  - cbn [forallb] in Hk, Ht.
    apply andb_true_iff in Hk as [Hk Hk'].
    apply andb_true_iff in Ht as [Ht Ht'].
    destruct k as [| | | |s]; try discriminate.
    cbn [map keyText] in Hd.
    apply distinct_app_cons in Hd as [Hfresh Hd].
    cbn [snd] in Hx.
    assert (Hstep : forall y,
               rangeRecord encodeJSONValue rest (mapSet m s y)
               = Some (m ++ (s, y) :: convertFields rest)%list).
    { intros y. rewrite (mapSet_fresh _ _ _ Hfresh).
      rewrite IH; [now rewrite <- app_assoc|assumption|assumption|].
      rewrite map_app. exact Hd. }
    cbn [rangeRecord convertFields map keyText keyString findsItself].
    destruct x; cbn [convert]; try apply Hstep.
    rewrite (Hx _ eq_refl Ht). apply Hstep.
Qed.

(** On records with text keys [encodeJSON] returns, and what it returns
    is the record converted as the specification says, entry by entry. *)
Lemma encodeJSON_convert (r : record) :
  textKeyed (VMap r) = true -> encodeJSON r = Some (convertFields r).
Proof.
  unfold encodeJSON.
  enough (H : forall v next, v = VMap next -> textKeyed v = true ->
                             encodeJSONValue v = Some (convertFields next))
    by (intros Ht; now apply H).
  clear r.
  induction v as [v Hv|m IH] using value_map_ind; intros next Hn Ht.
  - now specialize (Hv next).
  - injection Hn as <-. cbn [textKeyed] in Ht.
    apply andb_true_iff in Ht as [Ht Ht3].
    apply andb_true_iff in Ht as [Ht1 Ht2].
    cbn [encodeJSONValue].
    rewrite (rangeRecord_convert m); try assumption; reflexivity.
Qed.

Lemma entry_convertFields (name : string) (r : record) :
  forallb (fun '(k, _) => isTextKey k) r = true ->
  entry name (convertFields r) = option_map convert (field name r).
Proof.
  induction r as [|[k x] rest IH]; [reflexivity|].
  cbn [forallb]. intros H. apply andb_true_iff in H as [Hk H].
  destruct k; try discriminate.
  cbn [convertFields map keyText entry field]. fold (convertFields rest).
  destruct (String.eqb s name); [reflexivity|now apply IH].
Qed.

Lemma field_textKeyed (name : string) (r : record) (x : value) :
  forallb (fun '(_, y) => textKeyed y) r = true ->
  field name r = Some x -> textKeyed x = true.
Proof.
  induction r as [|[k y] rest IH]; [discriminate|].
  cbn [forallb]. intros H. apply andb_true_iff in H as [Hy H].
  cbn [field]. destruct k; try (now apply IH).
  destruct (String.eqb s name); [|now apply IH].
  now intros [= <-].
Qed.

(** A field reached through nested mappings is found, converted, at the
    same path of the encoded record. *)
Lemma recordAt_convert (path : list string) :
  forall v x,
    textKeyed v = true -> recordAt path v = Some x ->
    encodedAt path (convert v) = Some (convert x).
Proof.
  induction path as [|name rest IH]; intros v x Ht H.
  - injection H as <-. reflexivity.
  - cbn [recordAt] in H. destruct v; try discriminate.
    cbn [textKeyed] in Ht.
    apply andb_true_iff in Ht as [Ht Ht3].
    apply andb_true_iff in Ht as [Ht1 Ht2].
    cbn [convert encodedAt]. fold (convertFields m).
    rewrite entry_convertFields by assumption.
    destruct (field name m) as [y|] eqn:Hy; [|discriminate].
    cbn [option_map]. apply IH; [|assumption].
    eapply field_textKeyed; eassumption.
Qed.

Lemma sequence_Some {A} (l : list (option A)) (r : list A) :
  sequence l = Some r -> l = map Some r.
Proof.
  revert r. induction l as [|[a|] l IH]; intros r H; simpl in H.
  - now injection H as <-.
  - destruct (sequence l) as [r'|]; [|discriminate].
    injection H as <-. simpl. now rewrite (IH r' eq_refl).
  - discriminate.
Qed.

Lemma member_entry (name : string) (m : list (string * value))
      (fields : list (string * json)) (y : value) :
  sequence (map (fun kv => match jsonOf (snd kv) with
                           | Some j => Some (fst kv, j)
                           | None => None
                           end) m) = Some fields ->
  entry name m = Some y ->
  exists j, jsonOf y = Some j /\ member name fields = Some j.
Proof.
  revert fields. induction m as [|[s x] rest IH]; intros fields Hs He;
    [discriminate|].
  cbn [map sequence fst snd] in Hs.
  destruct (jsonOf x) as [jx|] eqn:Hx; [|discriminate].
  destruct (sequence _) as [fs|] eqn:Hfs; [|discriminate].
  injection Hs as <-.
  cbn [entry] in He. cbn [member].
  destruct (String.eqb s name).
  - injection He as <-. now exists jx.
  - now apply IH.
Qed.

(** What the marshaller writes for an encoded record has, at every path
    of the record, what it writes for the value found there. *)
Lemma jsonOf_encodedAt (path : list string) :
  forall y j y',
    jsonOf y = Some j -> encodedAt path y = Some y' ->
    exists j', jsonOf y' = Some j' /\ jsonAt path j = Some j'.
Proof.
  induction path as [|name rest IH]; intros y j y' Hj He.
  - injection He as <-. now exists j.
  - cbn [encodedAt] in He. destruct y; try discriminate.
    destruct (entry name m) as [y1|] eqn:Hy1; [|discriminate].
    cbn [jsonOf] in Hj.
    destruct (sequence _) as [fields|] eqn:Hs; [|discriminate].
    injection Hj as <-.
    destruct (member_entry _ _ _ _ Hs Hy1) as (j1 & Hj1 & Hm).
    cbn [jsonAt]. rewrite Hm. eapply IH; eassumption.
Qed.

(** An array is one of the other kinds of value: it reaches the
    marshaller as it is, a byte sequence among its elements included,
    which the marshaller writes in base64. *)
Lemma encodeJSON_array_unchanged (k : string) (l : list value) :
  encodeJSON [(KString k, VArray l)] = Some [(k, VArray l)].
Proof. reflexivity. Qed.

Lemma jsonOf_array_of_bytes (k : string) (b : list byte) :
  jsonOf (VSMap [(k, VArray [VBytes b])])
  = Some (JObject [(k, JArray [JString (base64.EncodeToString b)])]).
Proof. reflexivity. Qed.

(** C5. On a record whose mappings have text keys, encoding returns the
    record with every byte-sequence field turned into the text of the
    same bytes, every nested mapping encoded by the same rule, and
    every other value kept as it is, at every depth of nested mappings;
    this is the value handed to the marshaller.  Hence in the JSON
    document written for it, a byte-sequence field is the JSON string
    of that text (not of its base64 encoding), a nested mapping is what
    is written for its encoding, and any other value is what the
    marshaller writes for the value itself. *)
Theorem encodeJSON_text_at_every_depth (r : record) :
  textKeyed (VMap r) = true ->
  exists m,
    encodeJSON r = Some m
    /\ m = convertFields r
    /\ (forall st, createJSON r st
                   = Some (match Marshal m with
                           | inl js => (js, None)
                           | inr err => ("{}", Some err)
                           end, st))
    /\ (forall path x,
           recordAt path (VMap r) = Some x ->
           encodedAt path (VSMap m)
           = Some (match x with
                   | VBytes b => VString (string_of_list_byte b)
                   | VMap next => VSMap (convertFields next)
                   | other => other
                   end))
    /\ (forall j,
           jsonOf (VSMap m) = Some j ->
           forall path x,
             recordAt path (VMap r) = Some x ->
             jsonAt path j
             = match x with
               | VBytes b => Some (JString (string_of_list_byte b))
               | VMap next => jsonOf (VSMap (convertFields next))
               | other => jsonOf other
               end).
Proof.
  intros Ht. exists (convertFields r).
  pose proof (encodeJSON_convert r Ht) as He.
  assert (Hat : forall path x,
             recordAt path (VMap r) = Some x ->
             encodedAt path (VSMap (convertFields r))
             = Some (match x with
                     | VBytes b => VString (string_of_list_byte b)
                     | VMap next => VSMap (convertFields next)
                     | other => other
                     end)).
  { intros path x Hx.
    pose proof (recordAt_convert path (VMap r) x Ht Hx) as H.
    cbn [convert] in H. fold (convertFields r) in H. rewrite H.
    destruct x; reflexivity. }
  split; [exact He|]. split; [reflexivity|].
  split; [|split; [exact Hat|]].
  - intros st. unfold createJSON. rewrite He.
    destruct (Marshal (convertFields r)); reflexivity.
  - intros j Hj path x Hx.
    destruct (jsonOf_encodedAt path _ _ _ Hj (Hat path x Hx)) as (j' & Hj' & ->).
    destruct x; symmetry; exact Hj'.
Qed.

Lemma textKeyed_encodable (recs : list record) :
  forallb (fun r => textKeyed (VMap r)) recs = true ->
  forallb encodable recs = true.
Proof.
  induction recs as [|r rest IH]; [reflexivity|].
  cbn [forallb]. intros H. apply andb_true_iff in H as [Hr H].
  unfold encodable at 1. rewrite (encodeJSON_convert r Hr). now apply IH.
Qed.

(** C3 (amended). A flush of records with text keys returns and makes
    exactly one put-object call, to the operator's bucket under the
    object key of the first clock reading; its payload is every
    successfully encoded record followed by a newline (the last one
    included), gzip-compressed under gzip mode.  Records that cannot be
    marshalled are left out, and when none is left (the empty sequence
    included) the call is still made, with the empty payload or its
    compressed form. *)
Theorem FLBPluginFlushCtx_single_put (ctx : nat) (data : list value)
        (st : State) (op : s3operator.t) :
  nth_error (s3operators st) ctx = Some op ->
  forallb (fun r => textKeyed (VMap r)) (delivered data) = true ->
  exists code st' evs body,
    FLBPluginFlushCtx ctx data st = Some (code, st')
    /\ events st' = (events st ++ evs)%list
    /\ uploads evs = [{| Bucket := s3operator.bucket op;
                         Key := objectKeyOf op (timeAt st);
                         Body := body |}]
    /\ match s3operator.compressFormat op with
       | plainTextFormat => body = list_byte_of_string (payload (delivered data))
       | gzipFormat =>
           exists now,
             body = fst (gzipOf now (list_byte_of_string (payload (delivered data))))
       end
    /\ payload (delivered data)
       = concatAll (map (fun line => line ++ String "010" "")
                      (encodedLines (delivered data)))
    /\ (encodedLines (delivered data) = [] -> payload (delivered data) = "").
Proof.
  intros Hop Hkeys.
  rewrite FLBPluginFlushCtx_eq, Hop, (textKeyed_encodable _ Hkeys).
  cbv zeta. rewrite Put_eq.
  set (recs := delivered data).
  set (w := encodeWarnings (s3operator.logger op) recs).
  assert (Hpay : encodedLines recs = [] -> payload recs = "")
    by (unfold payload; now intros ->).
  destruct (s3operator.compressFormat op) eqn:Hf.
  - cbv zeta.
    set (input := {| Bucket := _; Key := _; Body := _ |}).
    destruct (s3operator.uploader op input) as [e|] eqn:Hu.
    + exists FLB_RETRY. eexists.
      exists (w ++ [Upload input] ++ sendWarning op e)%list.
      exists (list_byte_of_string (payload recs)).
      split; [reflexivity|]. split; [simpl; now rewrite <- !app_assoc|].
      split; [unfold w; now rewrite !uploads_app, uploads_encodeWarnings,
                uploads_sendWarning|].
      split; [reflexivity|]. split; [reflexivity|exact Hpay].
    + exists FLB_OK. eexists.
      exists (w ++ [Upload input])%list.
      exists (list_byte_of_string (payload recs)).
      split; [reflexivity|]. split; [simpl; now rewrite <- !app_assoc|].
      split; [unfold w; now rewrite !uploads_app, uploads_encodeWarnings|].
      split; [reflexivity|]. split; [reflexivity|exact Hpay].
  - pose proof (gzipOf_no_error
                  (timeAt (tick (withLocal (tick (addEvents st w))
                                   (s3operator.location op))))
                  (list_byte_of_string (payload recs))) as Hne.
    destruct (gzipOf _ _) as [c ge] eqn:Hg. cbn [snd] in Hne. subst ge.
    cbv zeta.
    set (input := {| Bucket := _; Key := _; Body := _ |}).
    destruct (s3operator.uploader op input) as [e|] eqn:Hu.
    + exists FLB_RETRY. eexists.
      exists (w ++ [Upload input] ++ sendWarning op e)%list.
      exists c.
      split; [reflexivity|]. split; [simpl; now rewrite <- !app_assoc|].
      split; [unfold w; now rewrite !uploads_app, uploads_encodeWarnings,
                uploads_sendWarning|].
      split; [eexists; rewrite Hg; reflexivity|].
      split; [reflexivity|exact Hpay].
    + exists FLB_OK. eexists.
      exists (w ++ [Upload input])%list.
      exists c.
      split; [reflexivity|]. split; [simpl; now rewrite <- !app_assoc|].
      split; [unfold w; now rewrite !uploads_app, uploads_encodeWarnings|].
      split; [eexists; rewrite Hg; reflexivity|].
      split; [reflexivity|exact Hpay].
Qed.

(** * Compression *)

Lemma byteZ_Zbyte (z : Z) : byteZ (Zbyte z) = z mod 256.
Proof.
  unfold byteZ, Zbyte.
  assert (Hr : 0 <= z mod 256 < 256) by (apply Z.mod_pos_bound; lia).
  destruct (Byte.of_N (Z.to_N (z mod 256))) as [b|] eqn:Hb.
  - apply Byte.to_of_N in Hb. rewrite Hb. lia.
  - apply Byte.of_N_None_iff in Hb. lia.
Qed.

Lemma testbit_high (v n i : Z) : 0 <= v < 2 ^ n -> n <= i -> Z.testbit v i = false.
Proof.
  intros Hv Hi.
  destruct (Z.eq_dec v 0) as [->|Hz]; [apply Z.bits_0|].
  apply Z.bits_above_log2; [lia|].
  assert (0 <= n).
  { destruct (Z.le_gt_cases 0 n); [assumption|].
    rewrite Z.pow_neg_r in Hv by lia. lia. }
  assert (Z.log2 v < n) by (apply Z.log2_lt_pow2; lia). lia.
Qed.

Ltac bool_simpl :=
  rewrite ?andb_true_l, ?andb_false_l, ?andb_false_r, ?andb_true_r,
    ?orb_false_r, ?orb_false_l.

Lemma Uint16_PutUint16 (v : Z) :
  0 <= v < 2 ^ 16 ->
  binary.Uint16 (Zbyte v) (Zbyte (Z.shiftr v 8)) = v.
Proof.
  intros Hv. unfold binary.Uint16. rewrite !byteZ_Zbyte.
  change 256 with (2 ^ 8).
  apply Z.bits_inj'. intros n Hn.
  rewrite Z.lor_spec, Z.shiftl_spec, !Z.testbit_mod_pow2 by lia.
  destruct (Z.ltb_spec n 8).
  - rewrite (Z.testbit_neg_r _ (n - 8)) by lia. now bool_simpl.
  - bool_simpl. rewrite Z.shiftr_spec by lia.
    replace (n - 8 + 8) with n by lia.
    destruct (Z.ltb_spec (n - 8) 8); bool_simpl; [reflexivity|].
    symmetry. apply (testbit_high v 16); lia.
Qed.

Lemma Uint32_PutUint32 (v : Z) :
  0 <= v < 2 ^ 32 ->
  binary.Uint32 (Zbyte v) (Zbyte (Z.shiftr v 8)) (Zbyte (Z.shiftr v 16))
    (Zbyte (Z.shiftr v 24)) = v.
Proof.
  intros Hv. unfold binary.Uint32. rewrite !byteZ_Zbyte.
  change 256 with (2 ^ 8).
  apply Z.bits_inj'. intros n Hn.
  rewrite !Z.lor_spec, !Z.shiftl_spec, !Z.testbit_mod_pow2 by lia.
  destruct (Z.ltb_spec n 8).
  { rewrite !(Z.testbit_neg_r _ (n - _)) by lia. now bool_simpl. }
  bool_simpl. rewrite (Z.shiftr_spec v 8) by lia.
  replace (n - 8 + 8) with n by lia.
  destruct (Z.ltb_spec n 16).
  { rewrite !(Z.testbit_neg_r _ (n - _)) by lia.
    destruct (Z.ltb_spec (n - 8) 8); [|lia]. now bool_simpl. }
  destruct (Z.ltb_spec (n - 8) 8); [lia|]. bool_simpl.
  rewrite (Z.shiftr_spec v 16) by lia.
  replace (n - 16 + 16) with n by lia.
  destruct (Z.ltb_spec n 24).
  { rewrite !(Z.testbit_neg_r _ (n - _)) by lia.
    destruct (Z.ltb_spec (n - 16) 8); [|lia]. now bool_simpl. }
  destruct (Z.ltb_spec (n - 16) 8); [lia|]. bool_simpl.
  rewrite (Z.shiftr_spec v 24) by lia.
  replace (n - 24 + 24) with n by lia.
  destruct (Z.ltb_spec (n - 24) 8); bool_simpl; [reflexivity|].
  symmetry. apply (testbit_high v 32); lia.
Qed.

Lemma lxor_range (n a b : Z) :
  0 < n -> 0 <= a < 2 ^ n -> 0 <= b < 2 ^ n -> 0 <= Z.lxor a b < 2 ^ n.
Proof.
  intros Hn Ha Hb.
  assert (H0 : 0 <= Z.lxor a b) by (apply Z.lxor_nonneg; lia).
  split; [exact H0|].
  destruct (Z.eq_dec (Z.lxor a b) 0) as [->|Hz]; [apply Z.pow_pos_nonneg; lia|].
  apply Z.log2_lt_pow2; [lia|].
  pose proof (Z.log2_lxor a b ltac:(lia) ltac:(lia)) as Hl.
  assert (Z.log2 a < n).
  { destruct (Z.eq_dec a 0) as [->|]; [simpl; lia|]. apply Z.log2_lt_pow2; lia. }
  assert (Z.log2 b < n).
  { destruct (Z.eq_dec b 0) as [->|]; [simpl; lia|]. apply Z.log2_lt_pow2; lia. }
  lia.
Qed.

Lemma shiftr_range (n a k : Z) :
  0 <= k -> 0 <= a < 2 ^ n -> 0 <= Z.shiftr a k < 2 ^ n.
Proof.
  intros Hk Ha. rewrite Z.shiftr_div_pow2 by lia.
  assert (0 < 2 ^ k) by (apply Z.pow_pos_nonneg; lia).
  split; [apply Z.div_pos; lia|].
  apply Z.le_lt_trans with a; [|lia].
  apply Z.div_le_upper_bound; nia.
Qed.

Lemma tableRounds_range (n : nat) (crc : Z) :
  0 <= crc < 2 ^ 32 -> 0 <= crc32.tableRounds n crc < 2 ^ 32.
Proof.
  revert crc. induction n as [|n IH]; intros crc H; [exact H|].
  cbn [crc32.tableRounds]. apply IH.
  destruct (Z.testbit crc 0).
  - apply lxor_range; [lia|apply shiftr_range; lia|unfold crc32.IEEE; lia].
  - apply shiftr_range; lia.
Qed.

(** A CRC-32 is a 32-bit value. *)
Lemma Update_range (crc : Z) (p : list byte) :
  0 <= crc < 2 ^ 32 -> 0 <= crc32.Update crc p < 2 ^ 32.
Proof.
  intros H. unfold crc32.Update.
  apply lxor_range; [lia| |lia].
  assert (H1 : 0 <= Z.lxor crc 0xffffffff < 2 ^ 32) by (apply lxor_range; lia).
  revert H1. generalize (Z.lxor crc 0xffffffff). clear crc H.
  induction p as [|b p IH]; intros c Hc; [exact Hc|].
  cbn [fold_left]. apply IH.
  apply lxor_range; [lia| |apply shiftr_range; lia].
  apply tableRounds_range.
  assert (0 <= Z.land c 255 < 2 ^ 8).
  { change 255 with (Z.ones 8). rewrite Z.land_ones by lia.
    apply Z.mod_pos_bound. lia. }
  assert (0 <= byteZ b < 256) by (unfold byteZ; pose proof (Byte.to_N_bounded b); lia).
  assert (0 <= Z.lxor (Z.land c 255) (byteZ b) < 2 ^ 8)
    by (apply lxor_range; [lia|lia|change (2 ^ 8) with 256; lia]).
  change (2 ^ 8) with 256 in *. change (2 ^ 32) with 4294967296. lia.
Qed.

Lemma gzipOf_eq now body :
  gzipOf now body
  = ((gzipHeader now ++ deflate body
        ++ binary.PutUint32 (crc32.Update 0 body)
        ++ binary.PutUint32 (Z.of_nat (List.length body) mod 2 ^ 32))%list, None).
Proof.
  unfold gzipOf, gzip.Write, gzip.writeHeader, gzip.withHeader, gzip.NewWriter.
  cbn [gzip.err gzip.wroteHeader gzip.Name gzip.w gzip.closed gzip.size gzip.digest
       gzip.pending gzip.ModTime String.eqb Ascii.eqb Bool.eqb].
  replace (gzip.latin1 _) with
    (Some (list_byte_of_string "fluent-bit-go-s3")) by (vm_compute; reflexivity).
  cbn [gzip.err gzip.wroteHeader gzip.Name gzip.w gzip.closed gzip.size gzip.digest
       gzip.pending gzip.ModTime].
  unfold gzip.Close.
  cbn [gzip.err gzip.wroteHeader gzip.Name gzip.w gzip.closed gzip.size gzip.digest
       gzip.pending gzip.ModTime fst snd].
  unfold gzip.headerBytes, gzipHeader.
  cbn [gzip.Name gzip.ModTime String.eqb Ascii.eqb Bool.eqb].
  rewrite !app_nil_l, Z.add_0_l, <- !app_assoc. reflexivity.
Qed.

Lemma readHeader_gzipHeader now rest :
  gzip.readHeader (gzipHeader now ++ rest) = Some rest.
Proof.
  unfold gzipHeader, binary.PutUint32.
  destruct (time.After now (time.Unix 0 0)); vm_compute; reflexivity.
Qed.

Lemma firstn_length_app {A} (l m : list A) : firstn (List.length l) (l ++ m) = l.
Proof.
  rewrite firstn_app, firstn_all, Nat.sub_diag. simpl. apply app_nil_r.
Qed.

Lemma skipn_length_app {A} (l m : list A) : skipn (List.length l) (l ++ m) = m.
Proof.
  rewrite skipn_app, skipn_all, Nat.sub_diag. reflexivity.
Qed.

Lemma maxStoreBlockSize_Z : Z.of_nat flate.maxStoreBlockSize = 65535.
Proof. unfold flate.maxStoreBlockSize. rewrite Z2Nat.id; lia. Qed.

(** Reading one stored block back. *)
Lemma inflateBlocks_storedBlock (fuel : nat) (final : bool) (chunk rest : list byte) :
  Z.of_nat (List.length chunk) <= 65535 ->
  flate.inflateBlocks (S fuel) (flate.storedBlock final chunk ++ rest)
  = if final then Some (chunk, rest)
    else match flate.inflateBlocks fuel rest with
         | Some (more, rest') => Some ((chunk ++ more)%list, rest')
         | None => None
         end.
Proof.
  intros Hlen.
  set (n := Z.of_nat (List.length chunk)).
  assert (Hn : 0 <= n < 2 ^ 16) by (change (2 ^ 16) with 65536; lia).
  assert (Hx : 0 <= Z.lxor n 0xffff < 2 ^ 16)
    by (apply lxor_range; [lia|exact Hn|change (2 ^ 16) with 65536; lia]).
  unfold flate.storedBlock, binary.PutUint16. fold n.
  cbn [app flate.inflateBlocks].
  rewrite (Uint16_PutUint16 n Hn), (Uint16_PutUint16 _ Hx), Z.eqb_refl.
  unfold n. rewrite Nat2Z.id, firstn_length_app, skipn_length_app.
  replace (Datatypes.length chunk <=? Datatypes.length (chunk ++ rest))%nat with true
    by (symmetry; apply Nat.leb_le; rewrite length_app; lia).
  destruct final; reflexivity.
Qed.

Lemma storedBlock_length (final : bool) (data : list byte) :
  List.length (flate.storedBlock final data) = (5 + List.length data)%nat.
Proof. unfold flate.storedBlock, binary.PutUint16. simpl. reflexivity. Qed.

Lemma storedBlocks_length (fuel : nat) (data : list byte) :
  (List.length data < List.length (flate.storedBlocks fuel data))%nat
  \/ (fuel < List.length data)%nat.
Proof.
  pose proof maxStoreBlockSize_Z as Hm.
  revert data. induction fuel as [|fuel IH]; intros data.
  - destruct data; [left; simpl; lia|right; simpl; lia].
  - cbn [flate.storedBlocks].
    destruct (Nat.leb_spec (List.length data) flate.maxStoreBlockSize) as [Hle|Hgt].
    + left. rewrite storedBlock_length. lia.
    + destruct (IH (skipn flate.maxStoreBlockSize data)) as [H|H].
      * left. rewrite length_app, storedBlock_length, firstn_length_le by lia.
        rewrite length_skipn in H. lia.
      * right. rewrite length_skipn in H. lia.
Qed.

Lemma inflateBlocks_storedBlocks (fuel : nat) :
  forall (data rest : list byte) (fuel' : nat),
    (List.length data <= fuel)%nat -> (fuel < fuel')%nat ->
    flate.inflateBlocks fuel' (flate.storedBlocks fuel data ++ rest)
    = Some (data, rest).
Proof.
  induction fuel as [|fuel IH]; intros data rest fuel' Hd Hf;
    (destruct fuel' as [|fuel']; [lia|]).
  - destruct data; [|simpl in Hd; lia].
    cbn [flate.storedBlocks]. rewrite inflateBlocks_storedBlock; [reflexivity|simpl; lia].
  - cbn [flate.storedBlocks].
    pose proof maxStoreBlockSize_Z as Hm.
    destruct (Nat.leb_spec (List.length data) flate.maxStoreBlockSize) as [Hle|Hgt].
    + rewrite inflateBlocks_storedBlock; [reflexivity|lia].
    + rewrite <- app_assoc, inflateBlocks_storedBlock
        by (rewrite firstn_length_le; lia).
      rewrite IH; [now rewrite firstn_skipn| |lia].
      rewrite length_skipn. lia.
Qed.

(** The stored-block encoder and decoder are inverse to each other,
    whatever follows the stream. *)
Lemma inflateStored_deflateStored (data rest : list byte) :
  flate.inflateStored (flate.deflateStored data ++ rest) = Some (data, rest).
Proof.
  unfold flate.inflateStored, flate.deflateStored.
  apply inflateBlocks_storedBlocks; [lia|].
  rewrite length_app.
  destruct (storedBlocks_length (List.length data) data); lia.
Qed.

(** The member name in the header has no zero byte: [Write] refuses
    a name with one. *)
Lemma latin1_nonzero (s : list byte) :
  forall nm, gzip.latin1 s = Some nm -> Forall (fun b => byteZ b <> 0) nm.
Proof.
  assert (Hn : forall n s, (List.length s <= n)%nat ->
                   forall nm, gzip.latin1 s = Some nm ->
                              Forall (fun b => byteZ b <> 0) nm);
    [|now apply (Hn (List.length s))].
  clear s. induction n as [|n IHn]; intros s Hlen nm H;
    (destruct s as [|b rest]; [injection H as <-; constructor|]);
    [simpl in Hlen; lia|].
  assert (IH : forall s', (List.length s' < List.length (b :: rest))%nat ->
                          forall nm, gzip.latin1 s' = Some nm ->
                                     Forall (fun b => byteZ b <> 0) nm)
    by (intros s' Hs'; apply IHn; simpl in *; lia).
  clear IHn Hlen.
  cbn [gzip.latin1] in H.
  destruct (Z.eqb_spec (byteZ b) 0) as [E|E]; [discriminate|].
  destruct (byteZ b <? 128).
  - destruct (gzip.latin1 rest) as [nm'|] eqn:Hr; [|discriminate].
    injection H as <-. constructor; [exact E|].
    apply (IH rest); [simpl; lia|exact Hr].
  - destruct rest as [|b2 rest']; [discriminate|].
    destruct (andb _ _) eqn:Hc; [|discriminate].
    destruct (gzip.latin1 rest') as [nm'|] eqn:Hr; [|discriminate].
    injection H as <-. constructor.
    + rewrite byteZ_Zbyte.
      apply andb_true_iff in Hc as [Hc H3]. apply andb_true_iff in Hc as [Hc H2].
      apply orb_true_iff in Hc. apply Z.leb_le in H2, H3.
      assert (Hv2 : 0 <= Z.land (byteZ b2) 63 < 64).
      { change 63 with (Z.ones 6). rewrite Z.land_ones by lia.
        apply Z.mod_pos_bound. lia. }
      destruct Hc as [Hc|Hc]; apply Z.eqb_eq in Hc; rewrite Hc;
        [change (Z.shiftl (Z.land 194 31) 6) with 128
        |change (Z.shiftl (Z.land 195 31) 6) with 192];
        intros Hz;
        assert (Hb : Z.testbit 0 7 = true);
        try discriminate Hb;
        rewrite <- Hz; change 256 with (2 ^ 8);
        rewrite Z.testbit_mod_pow2, Z.lor_spec by lia; reflexivity.
    + apply (IH rest'); [simpl; lia|exact Hr].
Qed.

(** [readString] skips a string without zero byte up to its terminator. *)
Lemma readString_skip (nm rest : list byte) :
  forall fuel : nat,
    Forall (fun b => byteZ b <> 0) nm -> (List.length nm < fuel)%nat ->
    gzip.readString fuel (nm ++ x00 :: rest) = Some rest.
Proof.
  induction nm as [|b nm IH]; intros fuel Hnz Hlen.
  - destruct fuel; [simpl in Hlen; lia|reflexivity].
  - destruct fuel; [simpl in Hlen; lia|].
    inversion Hnz as [|? ? Hb Hrest]; subst.
    cbn [app gzip.readString].
    apply Z.eqb_neq in Hb. rewrite Hb. apply IH; [assumption|simpl in Hlen; lia].
Qed.

Lemma gzipOf_gzipWith (now : time.Time) (body : list byte) :
  gzipOf now body = gzipWith "fluent-bit-go-s3" now body.
Proof. reflexivity. Qed.

(** The bytes of a gzip file written with an accepted member name. *)
Lemma gzipWith_eq (name : string) (mt : time.Time) (body nm : list byte) :
  gzip.latin1 (list_byte_of_string name) = Some nm ->
  gzipWith name mt body
  = ((gzip.headerBytes (gzip.withHeader gzip.NewWriter name mt)
        ++ (if String.eqb name "" then [] else nm ++ [x00])
        ++ deflate body
        ++ binary.PutUint32 (crc32.Update 0 body)
        ++ binary.PutUint32 (Z.of_nat (List.length body) mod 2 ^ 32))%list, None).
Proof.
  intros Hn.
  unfold gzipWith, gzip.Write, gzip.writeHeader.
  set (z0 := gzip.withHeader gzip.NewWriter name mt).
  cbn [gzip.err gzip.wroteHeader gzip.Name gzip.w gzip.closed gzip.size gzip.digest
       gzip.pending gzip.ModTime z0 gzip.withHeader gzip.NewWriter].
  fold z0. rewrite Hn.
  destruct (String.eqb name "") eqn:He;
    cbn [gzip.err gzip.wroteHeader gzip.Name gzip.w gzip.closed gzip.size gzip.digest
         gzip.pending gzip.ModTime];
    unfold gzip.Close;
    cbn [gzip.err gzip.wroteHeader gzip.Name gzip.w gzip.closed gzip.size gzip.digest
         gzip.pending gzip.ModTime fst snd];
    rewrite ?app_nil_l, Z.add_0_l, <- ?app_assoc; reflexivity.
Qed.

(** The reader accepts the header [Write] produces, for any accepted
    member name of fewer than 512 bytes and any modification time. *)
Lemma readHeader_headerBytes (name : string) (mt : time.Time) (nm rest : list byte) :
  Forall (fun b => byteZ b <> 0) nm -> (List.length nm < 512)%nat ->
  gzip.readHeader
    (gzip.headerBytes (gzip.withHeader gzip.NewWriter name mt)
       ++ (if String.eqb name "" then [] else nm ++ [x00]) ++ rest)%list
  = Some rest.
Proof.
  intros Hnz Hlen. unfold gzip.headerBytes, binary.PutUint32.
  cbn [gzip.Name gzip.ModTime gzip.withHeader].
  destruct (String.eqb name "").
  - destruct (time.After mt (time.Unix 0 0)); vm_compute; reflexivity.
  - pose proof (readString_skip nm rest 512 Hnz Hlen) as Hr.
    rewrite <- (app_assoc nm). cbn [app] in *.
    destruct (time.After mt (time.Unix 0 0));
      cbn [app gzip.readHeader];
      change (byteZ (Zbyte gzip.gzipID1) =? gzip.gzipID1) with true;
      change (byteZ (Zbyte gzip.gzipID2) =? gzip.gzipID2) with true;
      change (byteZ (Zbyte gzip.gzipDeflate) =? gzip.gzipDeflate) with true;
      cbn [andb];
      change (Z.land (byteZ (Zbyte gzip.flagName)) gzip.flagExtra =? 0) with true;
      change (Z.land (byteZ (Zbyte gzip.flagName)) gzip.flagName =? 0) with false;
      change (Z.land (byteZ (Zbyte gzip.flagName)) gzip.flagComment =? 0) with true;
      change (Z.land (byteZ (Zbyte gzip.flagName)) gzip.flagHdrCrc =? 0) with true;
      cbv beta iota; rewrite Hr; reflexivity.
Qed.

Section RoundTrip.

(** The DEFLATE decoder that goes with the compressor: it reads back
  what the compressor wrote and stops at the end of the stream. *)
Variable inflate : list byte -> option (list byte * list byte).
Hypothesis inflate_deflate :
forall data rest, inflate (deflate data ++ rest) = Some (data, rest).

Lemma gunzip_gzipOf now body :
gzip.gunzip inflate (fst (gzipOf now body)) = Some body.
Proof.
rewrite gzipOf_eq. cbn [fst].
unfold gzip.gunzip. cbn [gzip.readAll]. unfold gzip.readMember.
rewrite readHeader_gzipHeader, inflate_deflate.
unfold binary.PutUint32. cbn [app].
rewrite !Uint32_PutUint32, !Z.eqb_refl.
- reflexivity.
- apply Z.mod_pos_bound. lia.
- apply Update_range. lia.
Qed.

(** A gzip file written with any accepted member name of fewer than 512
    bytes and any modification time decompresses to the bytes written. *)
Lemma gunzip_gzipWith (name : string) (mt : time.Time) (body nm : list byte) :
  gzip.latin1 (list_byte_of_string name) = Some nm -> (List.length nm < 512)%nat ->
  snd (gzipWith name mt body) = None
  /\ gzip.gunzip inflate (fst (gzipWith name mt body)) = Some body.
Proof.
  intros Hn Hlen. rewrite (gzipWith_eq name mt body nm Hn). cbn [fst snd].
  split; [reflexivity|].
  unfold gzip.gunzip. cbn [gzip.readAll]. unfold gzip.readMember.
  rewrite readHeader_headerBytes by (try apply (latin1_nonzero _ _ Hn); assumption).
  rewrite inflate_deflate.
  unfold binary.PutUint32. cbn [app].
  rewrite !Uint32_PutUint32, !Z.eqb_refl.
  - reflexivity.
  - apply Z.mod_pos_bound. lia.
  - apply Update_range. lia.
Qed.

(** C9. [makeGzip] returns without error, and decompressing what it
    returns gives back exactly the bytes it was given, whatever the
    clock shows for the modification time written next to the member
    name in the header.  What it returns is the gzip file of its steps
    for the name [fluent-bit-go-s3] and the clock's reading, and the
    same steps give a file that decompresses to the bytes written for
    every member name that [Write] accepts and the reader can skip
    (fewer than 512 bytes) and for every modification time. *)
Theorem makeGzip_roundtrip (body : list byte) (st : State) :
  (exists out st',
     makeGzip body st = Some ((out, None), st')
     /\ out = fst (gzipWith "fluent-bit-go-s3" (timeAt st) body)
     /\ gzip.gunzip inflate out = Some body)
  /\ (forall (name : string) (mt : time.Time) (nm : list byte),
        gzip.latin1 (list_byte_of_string name) = Some nm ->
        (List.length nm < 512)%nat ->
        snd (gzipWith name mt body) = None
        /\ gzip.gunzip inflate (fst (gzipWith name mt body)) = Some body).
Proof.
  split.
  - exists (fst (gzipOf (timeAt st) body)), (tick st).
    split; [|split; [reflexivity|apply gunzip_gzipOf]].
    rewrite makeGzip_eq, gzipOf_eq. reflexivity.
  - intros name mt nm Hn Hlen. exact (gunzip_gzipWith name mt body nm Hn Hlen).
Qed.
End RoundTrip.

(** * Further properties of the plugin *)

(** ** [obfuscateSecret] *)

Lemma substring_last (p : string) (z : ascii) :
  substring (String.length p) 1 (p ++ String z "") = String z "".
Proof. induction p as [|c p IH]; [reflexivity|exact IH]. Qed.

(** X1. Of a key of three bytes or more the log shows the first and
    the last byte around three dots, whatever lies between them; of a
    key of one or two bytes the first byte and the dots (a one-byte key
    is shown whole); of the empty key nothing. *)
Theorem obfuscateSecret_shows_the_ends :
  obfuscateSecret "" = ""
  /\ (forall a, obfuscateSecret (String a "") = String a "...")
  /\ (forall a b, obfuscateSecret (String a (String b "")) = String a "...")
  /\ (forall a b mid z,
        obfuscateSecret (String a (String b mid ++ String z ""))
        = String a "..." ++ String z "").
Proof.
  split; [reflexivity|]. split; [reflexivity|]. split; [reflexivity|].
  intros a b mid z. unfold obfuscateSecret.
  set (rest := String b mid ++ String z "").
  assert (Hlen : String.length (String a rest) = S (S (String.length (String b mid)))).
  { unfold rest. cbn [String.length]. rewrite length_append. simpl. lia. }
  rewrite Hlen.
  replace (S (S (String.length (String b mid)))
           - (S (S (String.length (String b mid))) - 1))%nat with 1%nat by lia.
  replace (S (S (String.length (String b mid))) - 1)%nat
    with (S (String.length (String b mid))) by lia.
  cbn [Nat.ltb Nat.leb String.length].
  change (substring 0 1 (String a rest)) with (String a (substring 0 0 rest)).
  change (substring (S (S (String.length mid))) 1 (String a rest))
    with (substring (String.length (String b mid)) 1 rest).
  unfold rest at 2. rewrite substring_last.
  destruct rest; reflexivity.
Qed.

(** ** Configuration building *)

Lemma LoadLocation_eq (name : string) (st : State) :
  LoadLocation name st = Some (locationOf (Local st) name, st).
Proof.
  unfold LoadLocation, locationOf.
  repeat match goal with
         | |- context [if ?b then _ else _] => destruct b
         end; reflexivity.
Qed.

(** [getS3Config] once the selected credential has been retrieved. *)
Lemma getS3Config_retrieved
      (accessID secretKey credential s3prefix bucket region compress endpoint
         autoCreateBucket logLevel timeZone : string) (st : State)
      (v : credentials.Value) :
  let src := selectedSource accessID secretKey credential in
  let st1 := addEvents st [CredentialsGet src] in
  let level := if String.eqb logLevel "" then "info" else logLevel in
  credentials.Get sharedProfile Getenv src = inl v ->
  getS3Config accessID secretKey credential s3prefix bucket region compress
    endpoint autoCreateBucket logLevel timeZone st
  = Some
      (if String.eqb bucket "" then inr "Cannot specify empty string to bucket name"
       else if String.eqb s3prefix "" then inr "Cannot specify empty string to s3prefix"
       else if String.eqb region "" then inr "Cannot specify empty string to region"
       else if negb (String.eqb endpoint "")
               && strings.HasSuffix endpoint "amazonaws.com"
       then inr endpointError
       else
         match log.ParseLevel ToLower level with
         | None => inr ("invalid log level: " ++ level)
         | Some l =>
             match (if String.eqb timeZone "" then inl (Local st)
                    else locationOf (Local st) timeZone) with
             | inr err => inr ("invalid timeZone: " ++ err)
             | inl loc =>
                 inl {| s3Config.credentials := src;
                        s3Config.bucket := bucket;
                        s3Config.s3prefix := s3prefix;
                        s3Config.region := region;
                        s3Config.compress :=
                          if String.eqb compress "gzip" then gzipFormat
                          else plainTextFormat;
                        s3Config.endpoint := endpoint;
                        s3Config.logLevel := l;
                        s3Config.location := loc;
                        s3Config.autoCreateBucket :=
                          existsb (String.eqb autoCreateBucket) trueSpellings |}
             end
         end, st1).
Proof.
  intros src st1 level Hget.
  unfold getS3Config, bind. rewrite GetCredentials_eq. cbv zeta.
  fold src. rewrite Hget. fold st1. fold level. unfold ret.
  destruct (String.eqb bucket ""); [reflexivity|].
  destruct (String.eqb s3prefix ""); [reflexivity|].
  destruct (String.eqb region ""); [reflexivity|].
  destruct (negb (String.eqb endpoint "") && strings.HasSuffix endpoint "amazonaws.com");
    [reflexivity|].
  destruct (log.ParseLevel ToLower level); [|reflexivity].
  assert (Hb : match strconv.ParseBool autoCreateBucket with
               | Some b => b
               | None => false
               end = existsb (String.eqb autoCreateBucket) trueSpellings).
  { unfold strconv.ParseBool, trueSpellings.
    destruct (existsb (String.eqb autoCreateBucket) ["1"; "t"; "T"; "TRUE"; "true"; "True"]);
      [reflexivity|].
    destruct (existsb _ _); reflexivity. }
  rewrite Hb.
  destruct (String.eqb timeZone ""); cbn [negb].
  - reflexivity.
  - rewrite LoadLocation_eq. unfold st1 at 1. cbn [Local addEvents].
    destruct (locationOf (Local st) timeZone); reflexivity.
Qed.

Lemma getS3Config_not_retrieved
      (accessID secretKey credential s3prefix bucket region compress endpoint
         autoCreateBucket logLevel timeZone : string) (st : State) (err : error) :
  let src := selectedSource accessID secretKey credential in
  credentials.Get sharedProfile Getenv src = inr err ->
  getS3Config accessID secretKey credential s3prefix bucket region compress
    endpoint autoCreateBucket logLevel timeZone st
  = Some (inr "Failed to create credentials",
          addEvents st [CredentialsGet src; Println (sourceTag src ++ err)]).
Proof.
  intros src Hget.
  unfold getS3Config, bind. rewrite GetCredentials_eq. cbv zeta.
  fold src. rewrite Hget. reflexivity.
Qed.

Lemma HasSuffix_empty (suffix : string) :
  suffix <> "" -> strings.HasSuffix "" suffix = false.
Proof. destruct suffix; [congruence|reflexivity]. Qed.

(** X2. [getS3Config] builds a configuration exactly when the selected
    credential can be retrieved, bucket, prefix and region are not
    empty, the endpoint does not end in [amazonaws.com], the log level
    ([info] when empty) parses and the time zone loads.  The
    configuration then holds the selected credential source, the bucket,
    prefix, region and endpoint as given, the location loaded (the
    current [time.Local] for the empty name), auto-creation switched on
    exactly for the spellings [ParseBool] reads as true, and the only
    thing done is the one retrieval of the credential. *)
Theorem getS3Config_builds_exactly
        (accessID secretKey credential s3prefix bucket region compress endpoint
           autoCreateBucket logLevel timeZone : string)
        (st st' : State) (conf : s3Config.t) :
  let src := selectedSource accessID secretKey credential in
  getS3Config accessID secretKey credential s3prefix bucket region compress
    endpoint autoCreateBucket logLevel timeZone st = Some (inl conf, st')
  <-> ((exists v, credentials.Get sharedProfile Getenv src = inl v)
       /\ bucket <> "" /\ s3prefix <> "" /\ region <> ""
       /\ strings.HasSuffix endpoint "amazonaws.com" = false
       /\ log.ParseLevel ToLower (if String.eqb logLevel "" then "info" else logLevel)
          = Some (s3Config.logLevel conf)
       /\ (if String.eqb timeZone "" then inl (Local st)
           else locationOf (Local st) timeZone) = inl (s3Config.location conf)
       /\ s3Config.credentials conf = src
       /\ s3Config.bucket conf = bucket
       /\ s3Config.s3prefix conf = s3prefix
       /\ s3Config.region conf = region
       /\ s3Config.endpoint conf = endpoint
       /\ s3Config.compress conf
          = (if String.eqb compress "gzip" then gzipFormat else plainTextFormat)
       /\ s3Config.autoCreateBucket conf
          = existsb (String.eqb autoCreateBucket) trueSpellings
       /\ st' = addEvents st [CredentialsGet src]).
Proof.
  intros src. split.
  - intros H.
    destruct (credentials.Get sharedProfile Getenv src) as [v|err] eqn:Hget.
    2:{ unfold src in Hget.
        rewrite (getS3Config_not_retrieved _ _ _ _ _ _ _ _ _ _ _ _ _ Hget) in H.
        discriminate H. }
    unfold src in Hget.
    rewrite (getS3Config_retrieved _ _ _ _ _ _ _ _ _ _ _ _ _ Hget) in H.
    fold src in H.
    destruct (String.eqb_spec bucket "") as [|Hb]; [discriminate H|].
    destruct (String.eqb_spec s3prefix "") as [|Hp]; [discriminate H|].
    destruct (String.eqb_spec region "") as [|Hr]; [discriminate H|].
    destruct (negb (String.eqb endpoint "") && strings.HasSuffix endpoint "amazonaws.com")
      eqn:He; [discriminate H|].
    destruct (log.ParseLevel ToLower _) as [l|] eqn:Hl; [|discriminate H].
    destruct (if String.eqb timeZone "" then _ else _) as [loc|e] eqn:Hz;
      [|discriminate H].
    injection H as <- <-. cbn.
    repeat split; try assumption; try reflexivity.
    + now exists v.
    + destruct (String.eqb_spec endpoint "") as [->|Hn]; [reflexivity|exact He].
  - intros ((v & Hget) & Hb & Hp & Hr & He & Hl & Hz & Hc & Eb & Ep & Er & Ee & Ec & Ea & ->).
    unfold src in Hget.
    rewrite (getS3Config_retrieved _ _ _ _ _ _ _ _ _ _ _ _ _ Hget).
    fold src.
    apply String.eqb_neq in Hb, Hp, Hr. rewrite Hb, Hp, Hr, He, andb_false_r, Hl, Hz.
    destruct conf. cbn in *. subst. reflexivity.
Qed.

(** X3. [getS3Config] reports the first check that fails, in the order
    credential, bucket, prefix, region, endpoint, log level, time zone,
    with that check's message; what comes after the failing check is not
    looked at. *)
Theorem getS3Config_reports_first_failure
        (accessID secretKey credential s3prefix bucket region compress endpoint
           autoCreateBucket logLevel timeZone : string) (st : State) :
  let src := selectedSource accessID secretKey credential in
  let level := if String.eqb logLevel "" then "info" else logLevel in
  let fails (msg : error) :=
    exists st',
      getS3Config accessID secretKey credential s3prefix bucket region compress
        endpoint autoCreateBucket logLevel timeZone st = Some (inr msg, st') in
  (forall err, credentials.Get sharedProfile Getenv src = inr err ->
               fails "Failed to create credentials")
  /\ (forall v, credentials.Get sharedProfile Getenv src = inl v ->
        (bucket = "" -> fails "Cannot specify empty string to bucket name")
        /\ (bucket <> "" -> s3prefix = "" ->
            fails "Cannot specify empty string to s3prefix")
        /\ (bucket <> "" -> s3prefix <> "" -> region = "" ->
            fails "Cannot specify empty string to region")
        /\ (bucket <> "" -> s3prefix <> "" -> region <> "" ->
            strings.HasSuffix endpoint "amazonaws.com" = true ->
            fails endpointError)
        /\ (bucket <> "" -> s3prefix <> "" -> region <> "" ->
            strings.HasSuffix endpoint "amazonaws.com" = false ->
            log.ParseLevel ToLower level = None ->
            fails ("invalid log level: " ++ level))
        /\ (forall l err,
              bucket <> "" -> s3prefix <> "" -> region <> "" ->
              strings.HasSuffix endpoint "amazonaws.com" = false ->
              log.ParseLevel ToLower level = Some l ->
              timeZone <> "" -> locationOf (Local st) timeZone = inr err ->
              fails ("invalid timeZone: " ++ err))).
Proof.
  intros src level fails. unfold fails. split.
  - intros err Hget. unfold src in Hget.
    rewrite (getS3Config_not_retrieved _ _ _ _ _ _ _ _ _ _ _ _ _ Hget).
    eexists; reflexivity.
  - intros v Hget. unfold src in Hget.
    rewrite (getS3Config_retrieved _ _ _ _ _ _ _ _ _ _ _ _ _ Hget).
    fold src level.
    repeat split.
    + intros ->. eexists; reflexivity.
    + intros Hb ->. apply String.eqb_neq in Hb. rewrite Hb. eexists; reflexivity.
    + intros Hb Hp ->. apply String.eqb_neq in Hb, Hp. rewrite Hb, Hp.
      eexists; reflexivity.
    + intros Hb Hp Hr He. apply String.eqb_neq in Hb, Hp, Hr. rewrite Hb, Hp, Hr, He.
      destruct (String.eqb_spec endpoint "") as [E|_].
      * rewrite E in He. discriminate He.
      * eexists; reflexivity.
    + intros Hb Hp Hr He Hl. apply String.eqb_neq in Hb, Hp, Hr.
      rewrite Hb, Hp, Hr, He, andb_false_r, Hl. eexists; reflexivity.
    + intros l err Hb Hp Hr He Hl Hz Hloc. apply String.eqb_neq in Hb, Hp, Hr, Hz.
      rewrite Hb, Hp, Hr, He, andb_false_r, Hl, Hz, Hloc. eexists; reflexivity.
Qed.

(** X4. Building is idempotent: run again on the state it left, with
    the same raw values, [getS3Config] gives the same result; it leaves
    [time.Local], the registry of operators and the clock untouched. *)
Theorem getS3Config_idempotent
        (accessID secretKey credential s3prefix bucket region compress endpoint
           autoCreateBucket logLevel timeZone : string) (st : State) :
  exists r st1 st2,
    getS3Config accessID secretKey credential s3prefix bucket region compress
      endpoint autoCreateBucket logLevel timeZone st = Some (r, st1)
    /\ getS3Config accessID secretKey credential s3prefix bucket region compress
         endpoint autoCreateBucket logLevel timeZone st1 = Some (r, st2)
    /\ Local st1 = Local st /\ s3operators st1 = s3operators st
    /\ ticks st1 = ticks st.
Proof.
  destruct (credentials.Get sharedProfile Getenv
              (selectedSource accessID secretKey credential)) as [v|err] eqn:Hget.
  - pose proof (fun s => getS3Config_retrieved accessID secretKey credential s3prefix
                           bucket region compress endpoint autoCreateBucket logLevel
                           timeZone s v Hget) as H.
    cbv zeta in H.
    eexists. eexists. eexists.
    split; [apply H|]. split; [|repeat split].
    rewrite H. reflexivity.
  - pose proof (fun s => getS3Config_not_retrieved accessID secretKey credential s3prefix
                           bucket region compress endpoint autoCreateBucket logLevel
                           timeZone s err Hget) as H.
    cbv zeta in H.
    eexists. eexists. eexists.
    split; [apply H|]. split; [|repeat split].
    rewrite H. reflexivity.
Qed.

(** ** Credential resolution *)

(** X5. With no credential file and only one of the two keys given,
    resolution tries the static pair, which cannot be retrieved with a
    part missing, prints the one diagnostic and fails; the environment
    is not consulted, whatever it holds. *)
Theorem GetCredentials_half_a_key_pair (accessKeyID secretKey : string) (st : State) :
  (accessKeyID = "" /\ secretKey <> "") \/ (accessKeyID <> "" /\ secretKey = "") ->
  exists st',
    GetCredentials accessKeyID secretKey "" st
    = Some (inr "Failed to create credentials", st')
    /\ events st'
       = (events st
            ++ [CredentialsGet (credentials.NewStaticCredentials accessKeyID secretKey "");
                Println "[StaticCredentials] ERROR: EmptyStaticCreds: static credentials are empty"])%list.
Proof.
  intros H. rewrite GetCredentials_eq. cbv zeta. unfold selectedSource.
  cbn [String.eqb negb].
  destruct H as [[-> Hs]|[Ha ->]].
  - apply String.eqb_neq in Hs. cbn [String.eqb negb orb]. rewrite Hs.
    cbn [negb orb credentials.Get String.eqb]. eexists. split; reflexivity.
  - apply String.eqb_neq in Ha. rewrite Ha.
    cbn [negb orb credentials.Get String.eqb]. rewrite Ha. cbn [orb].
    eexists. split; reflexivity.
Qed.

(** ** Record encoding *)

Lemma rangeRecord_panics (l : record) :
  Forall (fun kv => forall r, snd kv = VMap r ->
                    (encodeJSONValue (snd kv) = None
                     <-> assertsNonText (snd kv) = true)) l ->
  forall m : list (string * value),
    rangeRecord encodeJSONValue l m = None <-> assertsNonText (VMap l) = true.
Proof.
  induction 1 as [|[k x] rest Hx _ IH]; intros m.
  - simpl. split; discriminate.
  - cbn [snd] in Hx.
    cbn [rangeRecord assertsNonText existsb].
    change (existsb _ rest) with (assertsNonText (VMap rest)).
    destruct x;
      try (destruct k; cbn [keyString isTextKey negb orb];
           solve [apply IH | split; reflexivity]).
    specialize (Hx _ eq_refl).
    destruct (findsItself k) eqn:Hf; cbn [andb orb]; [|apply IH].
    destruct k; cbn [keyString isTextKey negb orb]; try (split; reflexivity).
    destruct (encodeJSONValue (VMap m0)) as [next|] eqn:He.
    + destruct (assertsNonText (VMap m0)) eqn:Ha.
      * destruct Hx as [_ Hx]. discriminate (Hx eq_refl).
      * apply IH.
    + destruct Hx as [Hx _]. rewrite (Hx eq_refl). split; reflexivity.
Qed.

Lemma encodeJSONValue_panics (v : value) :
  forall r, v = VMap r ->
            (encodeJSONValue v = None <-> assertsNonText v = true).
Proof.
  induction v as [v Hv|r Hr] using value_map_ind; intros r' E.
  - destruct (Hv r' E).
  - cbn [encodeJSONValue]. apply rangeRecord_panics. exact Hr.
Qed.

(** X6. [encodeJSON] panics exactly when, in the record or in a
    mapping nested in it, it comes to an entry whose key is not text;
    the one entry it passes over unasserted is a mapping held under a
    NaN key. *)
Theorem encodeJSON_panics_exactly (r : record) :
  encodeJSON r = None <-> assertsNonText (VMap r) = true.
Proof. unfold encodeJSON. now apply (encodeJSONValue_panics (VMap r) r). Qed.

Lemma rangeRecord_app (enc : value -> option (list (string * value)))
      (a b : record) :
  forall m,
    rangeRecord enc (a ++ b)%list m
    = match rangeRecord enc a m with
      | Some m' => rangeRecord enc b m'
      | None => None
      end.
Proof.
  induction a as [|[k x] a IH]; intros m; [reflexivity|].
  cbn [app rangeRecord].
  destruct x; try (destruct (keyString k); [apply IH|reflexivity]).
  destruct (findsItself k); [|apply IH].
  destruct (keyString k); [|reflexivity].
  destruct (enc (VMap m0)); [apply IH|reflexivity].
Qed.

(** X7. A mapping held under a NaN key never reaches the output: the
    record is encoded as if the entry were not there, and the mapping is
    not looked into. *)
Theorem encodeJSON_drops_mapping_under_NaN (a b : record) (bits : Z) (inner : record) :
  isNaN bits = true ->
  encodeJSON (a ++ (KFloat bits, VMap inner) :: b)%list = encodeJSON (a ++ b)%list.
Proof.
  intros Hn. unfold encodeJSON. cbn [encodeJSONValue].
  rewrite !rangeRecord_app.
  destruct (rangeRecord encodeJSONValue a []) as [m|]; [|reflexivity].
  cbn [rangeRecord findsItself]. rewrite Hn. reflexivity.
Qed.

(** ** Flushing a batch *)

Lemma encodable_asserts (r : record) :
  encodable r = negb (assertsNonText (VMap r)).
Proof.
  unfold encodable, encodeJSON.
  pose proof (encodeJSONValue_panics (VMap r) r eq_refl) as [H1 H2].
  destruct (encodeJSONValue (VMap r)) as [m|].
  - destruct (assertsNonText (VMap r)); [discriminate (H2 eq_refl)|reflexivity].
  - now rewrite (H1 eq_refl).
Qed.

Lemma forallb_encodable (recs : list record) :
  forallb encodable recs = negb (existsb (fun r => assertsNonText (VMap r)) recs).
Proof.
  induction recs as [|r rest IH]; [reflexivity|].
  cbn [forallb existsb]. rewrite IH, encodable_asserts, negb_orb. reflexivity.
Qed.

(** A flush that does not panic, in full: the return code, and the
    state it leaves. *)
Lemma FLBPluginFlushCtx_run (ctx : nat) (data : list value) (st : State)
      (op : s3operator.t) :
  nth_error (s3operators st) ctx = Some op ->
  forallb encodable (delivered data) = true ->
  let recs := delivered data in
  let body :=
    match s3operator.compressFormat op with
    | plainTextFormat => list_byte_of_string (payload recs)
    | gzipFormat =>
        fst (gzipOf (reading (S (S (ticks st))) (s3operator.location op))
               (list_byte_of_string (payload recs)))
    end in
  let input := {| Bucket := s3operator.bucket op;
                  Key := objectKeyOf op (timeAt st);
                  Body := body |} in
  FLBPluginFlushCtx ctx data st
  = Some (match s3operator.uploader op input with
          | Some _ => FLB_RETRY
          | None => FLB_OK
          end,
          {| Local := s3operator.location op;
             s3operators := s3operators st;
             ticks := match s3operator.compressFormat op with
                      | plainTextFormat => S (S (ticks st))
                      | gzipFormat => S (S (S (ticks st)))
                      end;
             events := (events st
                          ++ encodeWarnings (s3operator.logger op) recs
                          ++ [Upload input]
                          ++ match s3operator.uploader op input with
                             | Some e => sendWarning op e
                             | None => []
                             end)%list |}).
Proof.
  intros Hop Henc recs body input.
  rewrite FLBPluginFlushCtx_eq, Hop, Henc. cbv zeta. rewrite Put_eq.
  fold recs. unfold input, body. clear input body.
  change (timeAt (addEvents st (encodeWarnings (s3operator.logger op) recs)))
    with (timeAt st).
  destruct (s3operator.compressFormat op).
  - cbv zeta.
    match goal with
    | |- context [s3operator.uploader op ?i] =>
        destruct (s3operator.uploader op i) as [e|]
    end; unfold addEvents, tick, withLocal; cbn [Local s3operators ticks events];
      rewrite <- ?app_assoc; reflexivity.
  - match goal with
    | |- context [gzipOf ?now ?b] =>
        pose proof (gzipOf_no_error now b) as Hne;
          change now with (reading (S (S (ticks st))) (s3operator.location op)) in *;
          destruct (gzipOf (reading (S (S (ticks st))) (s3operator.location op)) b)
          as [c ge]
    end.
    cbn [snd] in Hne. subst ge. cbn [fst]. cbv zeta.
    match goal with
    | |- context [s3operator.uploader op ?i] =>
        destruct (s3operator.uploader op i) as [e|]
    end; unfold addEvents, tick, withLocal; cbn [Local s3operators ticks events];
      rewrite <- ?app_assoc; reflexivity.
Qed.

(** X8. A flush panics exactly when its context names no operator of
    the registry or one of the records it reads makes [encodeJSON]
    panic; otherwise it returns. *)
Theorem FLBPluginFlushCtx_panics_exactly (ctx : nat) (data : list value) (st : State) :
  FLBPluginFlushCtx ctx data st = None
  <-> (nth_error (s3operators st) ctx = None
       \/ existsb (fun r => assertsNonText (VMap r)) (delivered data) = true).
Proof.
  destruct (nth_error (s3operators st) ctx) as [op|] eqn:Hop.
  - destruct (forallb encodable (delivered data)) eqn:Henc.
    + rewrite (FLBPluginFlushCtx_run ctx data st op Hop Henc).
      rewrite forallb_encodable in Henc. apply negb_true_iff in Henc.
      rewrite Henc. split; [discriminate|intros [H|H]; discriminate H].
    + rewrite FLBPluginFlushCtx_eq, Hop, Henc.
      rewrite forallb_encodable in Henc. apply negb_false_iff in Henc.
      split; [now right|reflexivity].
  - rewrite FLBPluginFlushCtx_eq, Hop. split; [now left|reflexivity].
Qed.

Lemma delivered_rejected (a rest : list value) (bad : value) :
  isRecord bad = false -> delivered (a ++ bad :: rest) = delivered a.
Proof.
  intros Hbad. induction a as [|obj a IH].
  - cbn [app delivered]. unfold isRecord in Hbad.
    destruct (recordOf bad) as [[r ts] rec]. cbn [fst] in Hbad. now rewrite Hbad.
  - cbn [app delivered]. destruct (recordOf obj) as [[r ts] rec].
    destruct (r =? 0); [now rewrite IH|reflexivity].
Qed.

(** X9. A flush reads no further than the first object [GetRecord]
    does not return as a record: whatever follows that object in the
    buffer is left out, and the flush goes on to its put as for the
    records before it. *)
Theorem FLBPluginFlushCtx_stops_at_rejected_object
        (ctx : nat) (a rest : list value) (bad : value) (st : State) :
  isRecord bad = false ->
  FLBPluginFlushCtx ctx (a ++ bad :: rest) st = FLBPluginFlushCtx ctx a st.
Proof.
  intros Hbad. rewrite !FLBPluginFlushCtx_eq, (delivered_rejected a rest bad Hbad).
  reflexivity.
Qed.

(** X10. A flush leaves the process-wide [time.Local] set to the zone
    of its operator, the registry as it was, and the clock read twice
    (three times under gzip); so a configuration built afterwards with
    the empty time zone, or with the name [Local], gets the zone of that
    operator. *)
Theorem FLBPluginFlushCtx_leaves_operator_zone
        (ctx : nat) (data : list value) (st : State) (op : s3operator.t) :
  nth_error (s3operators st) ctx = Some op ->
  forallb encodable (delivered data) = true ->
  exists code st',
    FLBPluginFlushCtx ctx data st = Some (code, st')
    /\ Local st' = s3operator.location op
    /\ s3operators st' = s3operators st
    /\ ticks st' = (ticks st + match s3operator.compressFormat op with
                               | plainTextFormat => 2
                               | gzipFormat => 3
                               end)%nat
    /\ forall accessID secretKey credential s3prefix bucket region compress
              endpoint autoCreateBucket logLevel timeZone conf st'',
         timeZone = "" \/ timeZone = "Local" ->
         getS3Config accessID secretKey credential s3prefix bucket region compress
           endpoint autoCreateBucket logLevel timeZone st' = Some (inl conf, st'') ->
         s3Config.location conf = s3operator.location op.
Proof.
  intros Hop Henc.
  rewrite (FLBPluginFlushCtx_run ctx data st op Hop Henc).
  eexists. eexists. split; [reflexivity|]. cbn [Local s3operators ticks].
  split; [reflexivity|]. split; [reflexivity|].
  split; [destruct (s3operator.compressFormat op); lia|].
  intros accessID secretKey credential s3prefix bucket region compress
         endpoint autoCreateBucket logLevel timeZone conf st'' Hz H.
  destruct (credentials.Get sharedProfile Getenv
              (selectedSource accessID secretKey credential)) as [v|err] eqn:Hget.
  2:{ rewrite (getS3Config_not_retrieved _ _ _ _ _ _ _ _ _ _ _ _ _ Hget) in H.
      discriminate H. }
  rewrite (getS3Config_retrieved _ _ _ _ _ _ _ _ _ _ _ _ _ Hget) in H.
  cbn [Local] in H.
  destruct (String.eqb bucket ""); [discriminate H|].
  destruct (String.eqb s3prefix ""); [discriminate H|].
  destruct (String.eqb region ""); [discriminate H|].
  destruct (negb (String.eqb endpoint "") && strings.HasSuffix endpoint "amazonaws.com");
    [discriminate H|].
  destruct (log.ParseLevel ToLower _); [|discriminate H].
  assert (Hl : forall l, locationOf l "Local" = inl l) by reflexivity.
  destruct Hz as [-> | ->];
    [change (String.eqb "" "") with true in H
    |change (String.eqb "Local" "") with false in H; rewrite Hl in H];
    cbv beta iota in H; injection H as <- _; reflexivity.
Qed.

Lemma warnings_app (a b : list event) :
  warnings (a ++ b) = (warnings a ++ warnings b)%list.
Proof. unfold warnings. apply flat_map_app. Qed.

Lemma warnings_encodeWarnings (lvl : log.Level) (recs : list record) :
  warnings (encodeWarnings lvl recs)
  = if log.IsLevelEnabled lvl log.WarnLevel
    then map (fun err => "error creating message for S3: " ++ err) (marshalErrors recs)
    else [].
Proof.
  unfold encodeWarnings, marshalErrors.
  destruct (log.IsLevelEnabled lvl log.WarnLevel); [|reflexivity].
  induction recs as [|r rest IH]; [reflexivity|].
  cbn [flat_map]. rewrite warnings_app, map_app, IH.
  destruct (lineOf r); reflexivity.
Qed.

(** X11. What a flush writes to the log: when the operator's logger
    admits warnings, one warning for every record that could not be
    marshalled, with the marshaller's error and in the order of the
    records, and after them one for a put that failed; when the logger
    stands at error level or below, nothing at all. *)
Theorem FLBPluginFlushCtx_warnings
        (ctx : nat) (data : list value) (st : State) (op : s3operator.t) :
  nth_error (s3operators st) ctx = Some op ->
  forallb encodable (delivered data) = true ->
  exists (failure : option error) (st' : State) (evs : list event),
    FLBPluginFlushCtx ctx data st
    = Some (match failure with Some _ => FLB_RETRY | None => FLB_OK end, st')
    /\ events st' = (events st ++ evs)%list
    /\ warnings evs
       = if log.IsLevelEnabled (s3operator.logger op) log.WarnLevel
         then (map (fun err => ("error creating message for S3: " ++ err)%string)
                   (marshalErrors (delivered data))
                 ++ match failure with
                    | Some e => [("error sending message for S3: " ++ e)%string]
                    | None => []
                    end)%list
         else [].
Proof.
  intros Hop Henc.
  rewrite (FLBPluginFlushCtx_run ctx data st op Hop Henc). cbv zeta.
  match goal with
  | |- context [s3operator.uploader op ?i] =>
      exists (s3operator.uploader op i); set (input := i)
  end.
  eexists. eexists. split; [reflexivity|]. split; [reflexivity|].
  rewrite !warnings_app, warnings_encodeWarnings.
  unfold sendWarning.
  destruct (log.IsLevelEnabled (s3operator.logger op) log.WarnLevel);
    destruct (s3operator.uploader op input); reflexivity.
Qed.

Lemma delivered_app (a b : list value) :
  forallb isRecord a = true -> delivered (a ++ b) = (delivered a ++ delivered b)%list.
Proof.
  induction a as [|obj a IH]; [reflexivity|].
  cbn [forallb app delivered]. unfold isRecord at 1.
  destruct (recordOf obj) as [[r ts] rec]. cbn [fst].
  intros H. apply andb_true_iff in H as [-> Ha]. now rewrite IH.
Qed.

Lemma concatAll_app (x y : list string) :
  concatAll (x ++ y) = concatAll x ++ concatAll y.
Proof.
  induction x as [|s x IH]; [reflexivity|].
  cbn [app concatAll]. now rewrite IH, append_assoc.
Qed.

Lemma payload_app (x y : list record) : payload (x ++ y) = payload x ++ payload y.
Proof.
  unfold payload, encodedLines. now rewrite flat_map_app, map_app, concatAll_app.
Qed.

Lemma list_byte_of_string_append (s1 s2 : string) :
  list_byte_of_string (s1 ++ s2)
  = (list_byte_of_string s1 ++ list_byte_of_string s2)%list.
Proof.
  unfold list_byte_of_string. rewrite <- map_app. f_equal.
  induction s1 as [|c s1 IH]; [reflexivity|].
  cbn [String.append list_ascii_of_string app]. now rewrite IH.
Qed.

(** X12. Under plain mode flushes concatenate: the object uploaded for
    a buffer [a ++ b] whose first part consists of records is the object
    uploaded for [a] followed by the object uploaded for [b]. *)
Theorem FLBPluginFlushCtx_batches_concatenate
        (ctx : nat) (a b : list value) (sa sb sab : State) (op : s3operator.t) :
  s3operator.compressFormat op = plainTextFormat ->
  nth_error (s3operators sa) ctx = Some op ->
  nth_error (s3operators sb) ctx = Some op ->
  nth_error (s3operators sab) ctx = Some op ->
  forallb isRecord a = true ->
  forallb encodable (delivered (a ++ b)) = true ->
  exists ca cb cab sa' sb' sab' ia ib iab,
    FLBPluginFlushCtx ctx a sa = Some (ca, sa')
    /\ FLBPluginFlushCtx ctx b sb = Some (cb, sb')
    /\ FLBPluginFlushCtx ctx (a ++ b) sab = Some (cab, sab')
    /\ uploads (events sa') = (uploads (events sa) ++ [ia])%list
    /\ uploads (events sb') = (uploads (events sb) ++ [ib])%list
    /\ uploads (events sab') = (uploads (events sab) ++ [iab])%list
    /\ Body iab = (Body ia ++ Body ib)%list.
Proof.
  intros Hf Ha Hb Hab Hrec Henc.
  pose proof Henc as Henc'.
  rewrite (delivered_app a b Hrec), forallb_app in Henc'.
  apply andb_true_iff in Henc' as [Ea Eb].
  rewrite (FLBPluginFlushCtx_run ctx a sa op Ha Ea),
    (FLBPluginFlushCtx_run ctx b sb op Hb Eb),
    (FLBPluginFlushCtx_run ctx (a ++ b) sab op Hab Henc).
  cbv zeta. rewrite Hf.
  do 9 eexists.
  split; [reflexivity|]. split; [reflexivity|]. split; [reflexivity|].
  cbn [events].
  rewrite !uploads_app, !uploads_encodeWarnings.
  assert (Hs : forall i, uploads (match s3operator.uploader op i with
                                  | Some e => sendWarning op e
                                  | None => []
                                  end) = []).
  { intros i. destruct (s3operator.uploader op i); [apply uploads_sendWarning|reflexivity]. }
  rewrite !Hs. cbn [uploads flat_map app].
  split; [reflexivity|]. split; [reflexivity|]. split; [reflexivity|].
  cbn [Body]. rewrite (delivered_app a b Hrec), payload_app.
  apply list_byte_of_string_append.
Qed.

(** ** Object keys *)

(** X13. Object keys have the precision of one second and depend on
    nothing but the prefix, the compression mode, the zone and the
    second: two instants of the same second, whatever their nanoseconds
    and the zones they are presented in, get the same key from
    operators that agree on prefix, mode and zone, whatever their
    bucket, uploader and logger. *)
Theorem GenerateObjectKey_second_precision
        (op1 op2 : s3operator.t) (t1 t2 : time.Time) (st1 st2 : State) :
  s3operator.prefix op1 = s3operator.prefix op2 ->
  s3operator.compressFormat op1 = s3operator.compressFormat op2 ->
  s3operator.location op1 = s3operator.location op2 ->
  time.unixSec t1 = time.unixSec t2 ->
  exists key st1' st2',
    GenerateObjectKey op1 t1 st1 = Some (key, st1')
    /\ GenerateObjectKey op2 t2 st2 = Some (key, st2').
Proof.
  intros Hp Hf Hl Hs. rewrite !GenerateObjectKey_eq.
  do 3 eexists. split; [reflexivity|].
  unfold objectKeyOf, timestampText, dateText, hourText, time.Date, time.Clock,
    time.abs, time.In.
  cbn [time.unixSec time.loc]. rewrite Hp, Hf, Hl, Hs. reflexivity.
Qed.

Lemma splitAcc_separator (a b : string) :
  forall cur,
    filepath.splitAcc (a ++ String "/" b) cur
    = (filepath.splitAcc a cur ++ filepath.splitAcc b [])%list.
Proof.
  induction a as [|c a IH]; intros cur; [reflexivity|].
  cbn [String.append filepath.splitAcc].
  destruct (Ascii.eqb c "/"); rewrite IH; reflexivity.
Qed.

Lemma cleanElems_app (rooted : bool) (x y : list string) :
  forall ups out,
    filepath.cleanElems rooted (x ++ y) ups out
    = let '(u, o) := filepath.cleanElems rooted x ups out in
      filepath.cleanElems rooted y u o.
Proof.
  induction x as [|e x IH]; intros ups out; [reflexivity|].
  cbn [app filepath.cleanElems].
  destruct (String.eqb e ""); [apply IH|].
  destruct (String.eqb e "."); [apply IH|].
  destruct (String.eqb e ".."); [|apply IH].
  destruct out; [destruct rooted|]; apply IH.
Qed.

Lemma Join_snoc (x : list string) (e : string) :
  strings.Join (x ++ [e]) "/"
  = match x with
    | [] => ""
    | _ :: _ => strings.Join x "/" ++ "/"
    end ++ e.
Proof.
  destruct x as [|a x]; [reflexivity|].
  rewrite Join_app by discriminate. cbn [strings.Join].
  now rewrite append_assoc.
Qed.

(** Cleaning a path that ends in an ordinary element leaves that
    element in place, after a directory part that depends on the rest
    of the path alone. *)
Lemma Clean_last (q e : string) :
  q <> "" -> ordinary e = true ->
  filepath.Clean (q ++ "/" ++ e) = cleanDir q ++ e.
Proof.
  intros Hq He.
  destruct q as [|c q]; [congruence|].
  assert (Hns : noSlash e = true).
  { unfold ordinary in He. now apply andb_true_iff in He as [_ He]. }
  assert (Hne : e <> "") by (intros ->; discriminate He).
  unfold filepath.Clean, cleanDir.
  cbn [String.append].
  change (String c (q ++ String "/" e)) with (String c q ++ String "/" e).
  unfold filepath.split.
  rewrite splitAcc_separator, (splitAcc_last e [] Hns), cleanElems_app.
  cbn [rev string_of_list_ascii String.append].
  destruct (filepath.cleanElems (Ascii.eqb c "/") (filepath.splitAcc (String c q) []) 0 [])
    as [u o].
  assert (Hc : filepath.cleanElems (Ascii.eqb c "/") [e] u o = (u, e :: o)).
  { unfold ordinary in He.
    apply andb_true_iff in He as [He _].
    apply andb_true_iff in He as [He H2].
    apply andb_true_iff in He as [H0 H1].
    apply negb_true_iff in H0, H1, H2.
    cbn [filepath.cleanElems]. now rewrite H0, H1, H2. }
  rewrite Hc. cbn [rev]. rewrite app_assoc, Join_snoc.
  set (d := match (repeat ".." u ++ rev o)%list with
            | [] => ""
            | _ :: _ => strings.Join (repeat ".." u ++ rev o) "/" ++ "/"
            end).
  destruct (Ascii.eqb c "/").
  - reflexivity.
  - cbn [String.append].
    destruct (d ++ e) eqn:E; [|reflexivity].
    destruct d; [cbn in E; congruence|discriminate E].
Qed.

(** What [filepath.Join] does with the four elements of an object key. *)
Lemma objectKeyOf_last (op : s3operator.t) (t : time.Time) :
  let tl := time.In t (s3operator.location op) in
  let q := if String.eqb (s3operator.prefix op) ""
           then dateText tl ++ "/" ++ hourText tl
           else s3operator.prefix op ++ "/" ++ dateText tl ++ "/" ++ hourText tl in
  objectKeyOf op t
  = cleanDir q ++ timestampText tl ++ suffixOf (s3operator.compressFormat op).
Proof.
  intros tl q. unfold objectKeyOf. fold tl.
  set (file := timestampText tl ++ suffixOf (s3operator.compressFormat op)).
  assert (Hfile : ordinary file = true).
  { destruct (timestampText_plain tl) as [Ht Nt].
    unfold file. apply plain_ordinary; try assumption.
    unfold suffixOf. destruct (s3operator.compressFormat op); reflexivity. }
  destruct (dateText_plain tl) as [Hd Nd].
  assert (Hq : q <> "").
  { unfold q. destruct (String.eqb_spec (s3operator.prefix op) "") as [E|E].
    - destruct (dateText tl); [congruence|discriminate].
    - destruct (s3operator.prefix op); [congruence|discriminate]. }
  rewrite <- (Clean_last q file Hq Hfile).
  unfold q. cbn [filepath.Join].
  destruct (String.eqb (s3operator.prefix op) "") eqn:E.
  - destruct (String.eqb_spec (dateText tl) "") as [E'|_]; [congruence|].
    cbn [strings.Join]. now rewrite !append_assoc.
  - cbn [strings.Join]. now rewrite !append_assoc.
Qed.

(** X14. Whatever the prefix, the object key ends in the file name,
    the timestamp followed by the suffix of the mode: the path join may
    rewrite the prefix (dots, doubled separators) but not the file name.
    The part before the file name is the same for both modes, so the key
    under gzip is the key under plain mode followed by [.gz]. *)
Theorem GenerateObjectKey_file_name (op : s3operator.t) (t : time.Time) :
  exists dir : string,
    forall (op' : s3operator.t) (st : State),
      s3operator.prefix op' = s3operator.prefix op ->
      s3operator.location op' = s3operator.location op ->
      exists st',
        GenerateObjectKey op' t st
        = Some (dir ++ timestampText (time.In t (s3operator.location op))
                  ++ suffixOf (s3operator.compressFormat op'), st').
Proof.
  pose proof (objectKeyOf_last op t) as H. cbv zeta in H.
  eexists. intros op' st Hp Hl.
  rewrite GenerateObjectKey_eq, objectKeyOf_last, Hp, Hl.
  eexists. reflexivity.
Qed.

Lemma cleanDir_separator (p r : string) :
  p <> "" -> cleanDir ((p ++ "/") ++ "/" ++ r) = cleanDir (p ++ "/" ++ r).
Proof.
  intros Hp. destruct p as [|c p]; [congruence|].
  unfold cleanDir. cbn [String.append].
  change (String c ((p ++ "/") ++ String "/" r))
    with ((String c p ++ String "/" "") ++ String "/" r).
  change (String c (p ++ String "/" r)) with (String c p ++ String "/" r).
  unfold filepath.split.
  rewrite !splitAcc_separator, <- !app_assoc, !cleanElems_app.
  destruct (filepath.cleanElems (Ascii.eqb c "/") (filepath.splitAcc (String c p) []) 0 [])
    as [u o].
  reflexivity.
Qed.

(** X15. A separator at the end of the prefix changes no object key:
    the prefixes [p] and [p/] lead to the same keys. *)
Theorem GenerateObjectKey_prefix_trailing_separator
        (op op' : s3operator.t) (t : time.Time) (st : State) :
  s3operator.prefix op <> "" ->
  s3operator.prefix op' = s3operator.prefix op ++ "/" ->
  s3operator.compressFormat op' = s3operator.compressFormat op ->
  s3operator.location op' = s3operator.location op ->
  exists key st1 st2,
    GenerateObjectKey op t st = Some (key, st1)
    /\ GenerateObjectKey op' t st = Some (key, st2).
Proof.
  intros Hne Hp Hf Hl. rewrite !GenerateObjectKey_eq.
  do 3 eexists. split; [reflexivity|].
  rewrite !objectKeyOf_last, Hp, Hf, Hl.
  apply String.eqb_neq in Hne. rewrite Hne.
  assert (Hne' : String.eqb (s3operator.prefix op ++ "/") "" = false)
    by (destruct (s3operator.prefix op); reflexivity).
  rewrite Hne'. apply String.eqb_neq in Hne.
  rewrite (cleanDir_separator _ _ Hne). reflexivity.
Qed.

(** ** Compression in a flush *)

Section FlushRoundTrip.

Variable inflate : list byte -> option (list byte * list byte).
Hypothesis inflate_deflate :
  forall data rest, inflate (deflate data ++ rest) = Some (data, rest).

(** X16. Under gzip a flush uploads one object, and decompressing
    that object gives the payload of the batch: every line that could be
    marshalled, each followed by a newline. *)
Theorem FLBPluginFlushCtx_gzip_object_decompresses
        (ctx : nat) (data : list value) (st : State) (op : s3operator.t) :
  nth_error (s3operators st) ctx = Some op ->
  s3operator.compressFormat op = gzipFormat ->
  forallb encodable (delivered data) = true ->
  exists code st' input,
    FLBPluginFlushCtx ctx data st = Some (code, st')
    /\ uploads (events st') = (uploads (events st) ++ [input])%list
    /\ gzip.gunzip inflate (Body input)
       = Some (list_byte_of_string (payload (delivered data))).
Proof.
  intros Hop Hf Henc.
  rewrite (FLBPluginFlushCtx_run ctx data st op Hop Henc). cbv zeta. rewrite Hf.
  do 3 eexists. split; [reflexivity|]. cbn [events].
  rewrite !uploads_app, uploads_encodeWarnings.
  assert (Hs : forall i, uploads (match s3operator.uploader op i with
                                  | Some e => sendWarning op e
                                  | None => []
                                  end) = []).
  { intros i. destruct (s3operator.uploader op i); [apply uploads_sendWarning|reflexivity]. }
  rewrite Hs. cbn [uploads flat_map app]. split; [reflexivity|].
  cbn [Body]. apply gunzip_gzipOf; exact inflate_deflate.
Qed.

End FlushRoundTrip.

(** ** Start-up *)

Lemma addTrail_nil (h : Host) : addTrail h [] = h.
Proof. destruct h. unfold addTrail. cbn. now rewrite app_nil_r. Qed.

Lemma addTrail_app (h : Host) (a b : list hostEvent) :
  addTrail (addTrail h a) b = addTrail h (a ++ b).
Proof. unfold addTrail. cbn. now rewrite app_assoc. Qed.

Lemma bindH_Returned {A B} (m : H A) (k : A -> H B) (h h' : Host) (a : A) :
  m h = Returned a h' -> bindH m k h = k a h'.
Proof. unfold bindH. now intros ->. Qed.

Lemma bindH_assoc {A B C} (m : H A) (f : A -> H B) (g : B -> H C) (h : Host) :
  bindH (bindH m f) g h = bindH m (fun x => bindH (f x) g) h.
Proof. unfold bindH. destruct (m h); reflexivity. Qed.

Lemma bindH_emitH {B} (e : hostEvent) (k : unit -> H B) (h : Host) :
  bindH (emitH e) k h = k tt (addTrail h [e]).
Proof. reflexivity. Qed.

Lemma bindH_infof {B} (l : log.Level) (msg : string) (k : unit -> H B) (h : Host) :
  bindH (infof l msg) k h
  = k tt (addTrail h (if log.IsLevelEnabled l log.InfoLevel then [Infof msg] else [])).
Proof.
  unfold infof. destruct (log.IsLevelEnabled l log.InfoLevel); [reflexivity|].
  unfold bindH, retH. now rewrite addTrail_nil.
Qed.

Lemma bindH_tracef {B} (l : log.Level) (msg : string) (k : unit -> H B) (h : Host) :
  bindH (tracef l msg) k h
  = k tt (addTrail h (if log.IsLevelEnabled l log.TraceLevel then [Tracef msg] else [])).
Proof.
  unfold tracef. destruct (log.IsLevelEnabled l log.TraceLevel); [reflexivity|].
  unfold bindH, retH. now rewrite addTrail_nil.
Qed.

Lemma bindH_PluginConfigKey {B} (ctx : Z) (key : string) (k : string -> H B) (h : Host) :
  bindH (PluginConfigKey ctx key) k h = k (configKeys h ctx key) h.
Proof. reflexivity. Qed.

Lemma bindH_liftM {A B} (m : M A) (k : A -> H B) (h : Host) :
  bindH (liftM m) k h
  = match m (process h) with
    | Some (a, st) => k a (withProcess h st)
    | None => Panicked
    end.
Proof. unfold bindH, liftM. destruct (m (process h)) as [[a st]|]; reflexivity. Qed.

Lemma createBucketCalls_app (a b : list hostEvent) :
  createBucketCalls (a ++ b) = (createBucketCalls a ++ createBucketCalls b)%list.
Proof. apply flat_map_app. Qed.

Lemma infoLines_app (a b : list hostEvent) :
  infoLines (a ++ b) = (infoLines a ++ infoLines b)%list.
Proof. apply flat_map_app. Qed.

Lemma contextsSet_app (a b : list hostEvent) :
  contextsSet (a ++ b) = (contextsSet a ++ contextsSet b)%list.
Proof. apply flat_map_app. Qed.

Lemma unregistered_app (a b : list hostEvent) :
  unregistered (a ++ b) = (unregistered a ++ unregistered b)%list.
Proof. apply flat_map_app. Qed.

(** [ensureBucket], in full: one request, and the bucket counts as
    there when the answer says so. *)
Lemma ensureBucket_run (session : aws.Config) (bucket region : string) (h : Host) :
  let err := snd (CreateBucket session (bucketInput bucket region)) in
  exists evs,
    ensureBucket session bucket region h
    = Returned (bucketReady err,
                if bucketReady err then None else option_map awserr.Error err)
               (addTrail h evs)
    /\ createBucketCalls evs = [(session, bucketInput bucket region)]
    /\ infoLines evs = [] /\ contextsSet evs = [] /\ unregistered evs = [].
Proof.
  intros err. unfold ensureBucket.
  assert (Hin : (if String.eqb region "us-east-1"
                 then {| s3.Bucket := bucket; s3.LocationConstraint := None |}
                 else {| s3.Bucket := bucket; s3.LocationConstraint := Some region |})
                = bucketInput bucket region)
    by (unfold bucketInput; destruct (String.eqb region "us-east-1"); reflexivity).
  cbv zeta. rewrite Hin. unfold CreateBucket_.
  rewrite bindH_assoc, bindH_emitH. unfold bindH at 1, retH at 1.
  unfold err. clear err.
  unfold s3.ErrCodeBucketAlreadyExists, s3.ErrCodeBucketAlreadyOwnedByYou.
  destruct (CreateBucket session (bucketInput bucket region)) as [result [aerr|]];
    cbn [snd]; rewrite bindH_tracef, addTrail_app; unfold bucketReady.
  - destruct (awserr.Code aerr) as [code|].
    + destruct (String.eqb code "BucketAlreadyExists");
        [|destruct (String.eqb code "BucketAlreadyOwnedByYou")];
        rewrite bindH_tracef, addTrail_app; unfold retH; cbn [orb option_map];
        (eexists; split; [reflexivity|]);
        destruct (log.IsLevelEnabled logger log.TraceLevel); repeat split; reflexivity.
    + unfold retH. cbn [option_map].
      eexists; split; [reflexivity|].
      destruct (log.IsLevelEnabled logger log.TraceLevel); repeat split; reflexivity.
  - unfold retH.
    eexists; split; [reflexivity|].
    destruct (log.IsLevelEnabled logger log.TraceLevel); repeat split; reflexivity.
Qed.

(** [newS3Output], in full. *)
Lemma newS3Output_run (ctx : Z) (operatorID : nat) (h : Host) :
  exists evs,
    newS3Output ctx operatorID h
    = match configOf h ctx (process h) with
      | None => Panicked
      | Some (inr err, st) => Returned (inr err) (addTrail (withProcess h st) evs)
      | Some (inl config, st) =>
          Returned (match bucketFailure config with
                    | Some e => inr e
                    | None => inl (operatorOf config)
                    end)
                   (addTrail (withProcess h st) evs)
      end
    /\ infoLines evs
       = match initConfig h ctx with
         | Some config =>
             if log.IsLevelEnabled (s3Config.logLevel config) log.InfoLevel
             then startUpLines operatorID (configKeys h ctx)
                    (obfuscateSecret (configKeys h ctx "AccessKeyID"))
                    (obfuscateSecret (configKeys h ctx "SecretAccessKey"))
             else []
         | None => []
         end
    /\ createBucketCalls evs
       = match initConfig h ctx with
         | Some config =>
             if s3Config.autoCreateBucket config
             then [(sessionOf config,
                    bucketInput (s3Config.bucket config) (s3Config.region config))]
             else []
         | None => []
         end
    /\ contextsSet evs = [] /\ unregistered evs = [].
Proof.
  unfold newS3Output, initConfig.
  rewrite !bindH_PluginConfigKey, bindH_liftM.
  fold (configOf h ctx).
  destruct (configOf h ctx (process h)) as [[[config|err] st]|].
  - cbv zeta. unfold newLogger.
    rewrite !bindH_infof, !addTrail_app.
    fold (sessionOf config).
    unfold bucketFailure.
    destruct (s3Config.autoCreateBucket config).
    + rewrite bindH_assoc.
      match goal with
      | |- context [bindH (ensureBucket ?s ?b ?r) _ ?h0] =>
          destruct (ensureBucket_run s b r h0) as (evs & He & Hc & Hi & Hs & Hu)
      end.
      cbv zeta in He.
      rewrite (bindH_Returned _ _ _ _ _ He). cbn [snd].
      unfold bindH at 1, retH at 1. rewrite addTrail_app.
      eexists. split.
      * destruct (snd (CreateBucket (sessionOf config)
                         (bucketInput (s3Config.bucket config) (s3Config.region config))))
          as [aerr|]; [destruct (bucketReady (Some aerr))|]; reflexivity.
      * rewrite !infoLines_app, !createBucketCalls_app, !contextsSet_app,
          !unregistered_app, Hc, Hi, Hs, Hu.
        unfold startUpLines.
        destruct (log.IsLevelEnabled (s3Config.logLevel config) log.InfoLevel);
          repeat split; reflexivity.
    + unfold bindH at 1, retH at 1. unfold retH.
      eexists. split; [reflexivity|].
      rewrite !infoLines_app, !createBucketCalls_app, !contextsSet_app,
        !unregistered_app.
      unfold startUpLines.
      destruct (log.IsLevelEnabled (s3Config.logLevel config) log.InfoLevel);
        repeat split; reflexivity.
  - exists []. rewrite addTrail_nil. repeat split; reflexivity.
  - exists []. repeat split; reflexivity.
Qed.

Lemma configOf_total (h : Host) (ctx : Z) :
  exists r evs, configOf h ctx (process h) = Some (r, addEvents (process h) evs).
Proof. unfold configOf. apply getS3Config_total. Qed.

(** [FLBPluginInit], in full: how it ends, the state it leaves, and
    the parts of the trail it adds. *)
Lemma FLBPluginInit_run (ctx : Z) (h : Host) :
  let id := List.length (s3operators (process h)) in
  exists (st : State) (pevs : list event) (evs : list hostEvent),
    st = addEvents (process h) pevs
    /\ FLBPluginInit ctx h
       = match initFailure h ctx, initConfig h ctx with
         | None, Some config =>
             Returned FLB_OK
               (addTrail (withProcess h (registered st (operatorOf config))) evs)
         | _, _ => Exited 1 (addTrail (withProcess h st) evs)
         end
    /\ contextsSet evs = [(ctx, id)]
    /\ unregistered evs = match initFailure h ctx with
                          | Some _ => [ctx]
                          | None => []
                          end
    /\ createBucketCalls evs
       = match initConfig h ctx with
         | Some config =>
             if s3Config.autoCreateBucket config
             then [(sessionOf config,
                    bucketInput (s3Config.bucket config) (s3Config.region config))]
             else []
         | None => []
         end
    /\ infoLines evs
       = ((if log.IsLevelEnabled logger log.InfoLevel
           then [("[s3operator] id = " ++ fmtInt id)%string] else [])
            ++ match initConfig h ctx with
               | Some config =>
                   if log.IsLevelEnabled (s3Config.logLevel config) log.InfoLevel
                   then startUpLines id (configKeys h ctx)
                          (obfuscateSecret (configKeys h ctx "AccessKeyID"))
                          (obfuscateSecret (configKeys h ctx "SecretAccessKey"))
                   else []
               | None => []
               end
            ++ match initFailure h ctx with
               | Some e =>
                   if log.IsLevelEnabled logger log.InfoLevel
                   then [("Error: " ++ e)%string] else []
               | None => []
               end)%list.
Proof.
  intros id.
  destruct (configOf_total h ctx) as (r & pevs & Hcfg).
  exists (addEvents (process h) pevs), pevs.
  unfold FLBPluginInit, addS3Output.
  rewrite !bindH_assoc. unfold lenOperators at 1. unfold bindH at 1. fold id.
  rewrite bindH_assoc, bindH_infof, bindH_assoc, bindH_emitH, addTrail_app.
  rewrite bindH_assoc.
  match goal with
  | |- context [bindH (newS3Output ctx id) _ ?h0] =>
      destruct (newS3Output_run ctx id h0) as (evs & Hrun & Hi & Hc & Hs & Hu)
  end.
  unfold initConfig in Hi, Hc.
  unfold initFailure, initConfig.
  change (configOf (addTrail h ?e) ctx) with (configOf h ctx) in *.
  change (process (addTrail h ?e)) with (process h) in *.
  change (configKeys (addTrail h ?e) ctx) with (configKeys h ctx) in *.
  rewrite Hcfg in *.
  destruct r as [config|err].
  - rewrite (bindH_Returned _ _ _ _ _ Hrun).
    change (withProcess (addTrail h ?e) ?s) with (addTrail (withProcess h s) e).
    rewrite addTrail_app.
    destruct (bucketFailure config) as [e|].
    + unfold retH at 1. unfold bindH at 1.
      rewrite bindH_infof, addTrail_app. unfold Unregister.
      rewrite bindH_emitH, addTrail_app. unfold Exit, bindH.
      eexists. split; [reflexivity|]. split; [reflexivity|].
      rewrite !infoLines_app, !createBucketCalls_app, !contextsSet_app,
        !unregistered_app, Hc, Hi, Hs, Hu.
      destruct (log.IsLevelEnabled logger log.InfoLevel); repeat split;
        cbn; rewrite ?app_nil_r; reflexivity.
    + unfold bindH, appendOperator, retH.
      eexists. split; [reflexivity|]. split; [reflexivity|].
      rewrite !infoLines_app, !createBucketCalls_app, !contextsSet_app,
        !unregistered_app, Hc, Hi, Hs, Hu.
      destruct (log.IsLevelEnabled logger log.InfoLevel); repeat split;
        cbn; rewrite ?app_nil_r; reflexivity.
  - rewrite (bindH_Returned _ _ _ _ _ Hrun).
    change (withProcess (addTrail h ?e) ?s) with (addTrail (withProcess h s) e).
    rewrite addTrail_app.
    unfold retH at 1. unfold bindH at 1.
    rewrite bindH_infof, addTrail_app. unfold Unregister.
    rewrite bindH_emitH, addTrail_app. unfold Exit, bindH.
    eexists. split; [reflexivity|]. split; [reflexivity|].
    rewrite !infoLines_app, !createBucketCalls_app, !contextsSet_app,
      !unregistered_app, Hc, Hi, Hs, Hu.
    destruct (log.IsLevelEnabled logger log.InfoLevel); repeat split;
      cbn; rewrite ?app_nil_r; reflexivity.
Qed.

(** The fields of a configuration that was built. *)
Lemma getS3Config_fields
      (accessID secretKey credential s3prefix bucket region compress endpoint
         autoCreateBucket logLevel timeZone : string)
      (st st' : State) (conf : s3Config.t) :
  getS3Config accessID secretKey credential s3prefix bucket region compress
    endpoint autoCreateBucket logLevel timeZone st = Some (inl conf, st') ->
  s3Config.credentials conf = selectedSource accessID secretKey credential
  /\ s3Config.bucket conf = bucket
  /\ s3Config.s3prefix conf = s3prefix
  /\ s3Config.region conf = region
  /\ s3Config.endpoint conf = endpoint
  /\ s3Config.compress conf
     = (if String.eqb compress "gzip" then gzipFormat else plainTextFormat)
  /\ s3Config.autoCreateBucket conf
     = existsb (String.eqb autoCreateBucket) trueSpellings
  /\ log.ParseLevel ToLower (if String.eqb logLevel "" then "info" else logLevel)
     = Some (s3Config.logLevel conf).
Proof.
  intros H.
  destruct (credentials.Get sharedProfile Getenv
              (selectedSource accessID secretKey credential)) as [v|err] eqn:Hget.
  2:{ rewrite (getS3Config_not_retrieved _ _ _ _ _ _ _ _ _ _ _ _ _ Hget) in H.
      discriminate H. }
  rewrite (getS3Config_retrieved _ _ _ _ _ _ _ _ _ _ _ _ _ Hget) in H.
  destruct (String.eqb bucket ""); [discriminate H|].
  destruct (String.eqb s3prefix ""); [discriminate H|].
  destruct (String.eqb region ""); [discriminate H|].
  destruct (negb (String.eqb endpoint "") && strings.HasSuffix endpoint "amazonaws.com");
    [discriminate H|].
  destruct (log.ParseLevel ToLower _) as [l|]; [|discriminate H].
  destruct (if String.eqb timeZone "" then _ else _) as [loc|e]; [|discriminate H].
  injection H as <- _. repeat split; reflexivity.
Qed.

(** X17. [ensureBucket] sends one request to create the bucket, with
    the region as location constraint except in [us-east-1], and takes
    the bucket to be there exactly when the request succeeds or fails
    with the code [BucketAlreadyExists] or [BucketAlreadyOwnedByYou];
    any other error, with or without a code, is returned. *)
Theorem ensureBucket_outcome (session : aws.Config) (bucket region : string) (h : Host) :
  let input := {| s3.Bucket := bucket;
                  s3.LocationConstraint :=
                    if String.eqb region "us-east-1" then None else Some region |} in
  let err := snd (CreateBucket session input) in
  exists (ok : bool) (failure : option error) (evs : list hostEvent),
    ensureBucket session bucket region h = Returned (ok, failure) (addTrail h evs)
    /\ createBucketCalls evs = [(session, input)]
    /\ (ok = true
        <-> err = None
            \/ exists aerr,
                 err = Some aerr
                 /\ (awserr.Code aerr = Some "BucketAlreadyExists"
                     \/ awserr.Code aerr = Some "BucketAlreadyOwnedByYou"))
    /\ (ok = true -> failure = None)
    /\ (ok = false -> exists aerr, err = Some aerr /\ failure = Some (awserr.Error aerr)).
Proof.
  intros input err.
  destruct (ensureBucket_run session bucket region h) as (evs & Hrun & Hc & _).
  cbv zeta in Hrun. fold input in Hrun, Hc. fold err in Hrun.
  change (bucketInput bucket region) with input in *.
  fold err in Hrun.
  do 3 eexists. split; [exact Hrun|]. split; [exact Hc|].
  unfold bucketReady.
  destruct err as [aerr|].
  - destruct (awserr.Code aerr) as [code|] eqn:Hcode.
    + destruct (String.eqb_spec code "BucketAlreadyExists") as [E1|E1];
        [|destruct (String.eqb_spec code "BucketAlreadyOwnedByYou") as [E2|E2]];
        cbn [orb option_map]; repeat split; try reflexivity; try discriminate.
      * intros _. right. exists aerr. split; [reflexivity|left; congruence].
      * intros _. right. exists aerr. split; [reflexivity|right; congruence].
      * intros [H|(a & Ha & [H|H])]; try discriminate H;
          injection Ha as <-; rewrite Hcode in H; injection H as H; congruence.
      * intros _. now exists aerr.
    + cbn [option_map]. repeat split; try reflexivity; try discriminate.
      * intros [H|(a & Ha & [H|H])]; try discriminate H;
          injection Ha as <-; rewrite Hcode in H; discriminate H.
      * intros _. now exists aerr.
  - repeat split; try reflexivity; try discriminate. intros _. now left.
Qed.

Lemma registered_nth (st : State) (operator : s3operator.t) :
  nth_error (s3operators (registered st operator)) (List.length (s3operators st))
  = Some operator.
Proof.
  unfold registered. cbn [s3operators].
  rewrite nth_error_app2, Nat.sub_diag by lia. reflexivity.
Qed.

(** X18. [FLBPluginInit] ends in one of two ways, for every instance
    and in every state.  Either it returns [FLB_OK], having put one
    more operator at the end of the registry, at the index it gave the
    host as the context of the instance, and the instance stays
    registered; or it unregisters the instance and ends the process with
    status 1, the registry as it was.  It never returns [FLB_ERROR]
    and never panics. *)
Theorem FLBPluginInit_outcome (ctx : Z) (h : Host) :
  let old := s3operators (process h) in
  (exists h' operator evs,
      FLBPluginInit ctx h = Returned FLB_OK h'
      /\ s3operators (process h') = (old ++ [operator])%list
      /\ nth_error (s3operators (process h')) (List.length old) = Some operator
      /\ trail h' = (trail h ++ evs)%list
      /\ contextsSet evs = [(ctx, List.length old)]
      /\ unregistered evs = [])
  \/ (exists h' evs,
         FLBPluginInit ctx h = Exited 1 h'
         /\ s3operators (process h') = old
         /\ trail h' = (trail h ++ evs)%list
         /\ contextsSet evs = [(ctx, List.length old)]
         /\ unregistered evs = [ctx]).
Proof.
  intros old.
  destruct (FLBPluginInit_run ctx h) as (st & pevs & evs & -> & Hrun & Hs & Hu & _).
  cbv zeta in Hs. fold old in Hs.
  destruct (initFailure h ctx) as [e|] eqn:Hf.
  - right. do 2 eexists. split; [exact Hrun|]. repeat split; assumption.
  - destruct (initConfig h ctx) as [config|] eqn:Hc.
    + left. do 3 eexists. split; [exact Hrun|].
      split; [reflexivity|]. split; [|repeat split; assumption].
      exact (registered_nth (addEvents (process h) pevs) (operatorOf config)).
    + exfalso. unfold initFailure, initConfig in *.
      destruct (configOf_total h ctx) as (r & evs' & Hr). rewrite Hr in *.
      destruct r; discriminate.
Qed.

(** X19. [FLBPluginInit] returns [FLB_OK] exactly when the
    configuration of the instance is built and, where auto-creation is
    asked for, the bucket is ready; the operator it registers then has
    the bucket, prefix, compression mode, log level and zone of that
    configuration and the uploader of its session. *)
Theorem FLBPluginInit_succeeds_exactly (ctx : Z) (h : Host) :
  ((exists h', FLBPluginInit ctx h = Returned FLB_OK h')
   <-> exists config st,
         configOf h ctx (process h) = Some (inl config, st)
         /\ (s3Config.autoCreateBucket config = true ->
             bucketReady (snd (CreateBucket (sessionOf config)
                                 (bucketInput (s3Config.bucket config)
                                    (s3Config.region config)))) = true))
  /\ forall h' config st,
       FLBPluginInit ctx h = Returned FLB_OK h' ->
       configOf h ctx (process h) = Some (inl config, st) ->
       nth_error (s3operators (process h')) (List.length (s3operators (process h)))
       = Some {| s3operator.bucket := s3Config.bucket config;
                 s3operator.prefix := s3Config.s3prefix config;
                 s3operator.uploader := NewUploader (sessionOf config);
                 s3operator.compressFormat := s3Config.compress config;
                 s3operator.logger := s3Config.logLevel config;
                 s3operator.location := s3Config.location config |}.
Proof.
  destruct (FLBPluginInit_run ctx h) as (st0 & pevs & evs & -> & Hrun & _).
  unfold initFailure, initConfig in Hrun.
  destruct (configOf_total h ctx) as (r & evs' & Hr). rewrite Hr in Hrun.
  assert (Hready : forall config,
             bucketFailure config = None
             <-> (s3Config.autoCreateBucket config = true ->
                  bucketReady (snd (CreateBucket (sessionOf config)
                                      (bucketInput (s3Config.bucket config)
                                         (s3Config.region config)))) = true)).
  { intros config. unfold bucketFailure.
    destruct (s3Config.autoCreateBucket config); [|split; [discriminate|reflexivity]].
    destruct (snd (CreateBucket _ _)) as [aerr|]; [|split; reflexivity].
    destruct (bucketReady (Some aerr)); split; auto; try discriminate.
    intros H. discriminate (H eq_refl). }
  split; [split|].
  - intros [h' Hok]. rewrite Hok in Hrun.
    destruct r as [config|err]; [|discriminate Hrun].
    exists config, (addEvents (process h) evs'). split; [exact Hr|].
    apply Hready. destruct (bucketFailure config); [discriminate Hrun|reflexivity].
  - intros (config & st & Hcfg & Hb). rewrite Hr in Hcfg. injection Hcfg as -> _.
    apply Hready in Hb. rewrite Hb in Hrun. eexists. exact Hrun.
  - intros h' config st Hok Hcfg. rewrite Hr in Hcfg. injection Hcfg as -> _.
    rewrite Hok in Hrun.
    destruct (bucketFailure config); [discriminate Hrun|].
    injection Hrun as ->.
    exact (registered_nth (addEvents (process h) pevs) (operatorOf config)).
Qed.

Lemma configOf_fields (h : Host) (ctx : Z) (config : s3Config.t) (st : State) :
  configOf h ctx (process h) = Some (inl config, st) ->
  s3Config.bucket config = configKeys h ctx "Bucket"
  /\ s3Config.s3prefix config = configKeys h ctx "S3Prefix"
  /\ s3Config.region config = configKeys h ctx "Region"
  /\ s3Config.endpoint config = configKeys h ctx "Endpoint"
  /\ s3Config.compress config
     = (if String.eqb (configKeys h ctx "Compress") "gzip"
        then gzipFormat else plainTextFormat)
  /\ s3Config.autoCreateBucket config
     = existsb (String.eqb (configKeys h ctx "AutoCreateBucket")) trueSpellings
  /\ log.ParseLevel ToLower (if String.eqb (configKeys h ctx "LogLevel") ""
                             then "info" else configKeys h ctx "LogLevel")
     = Some (s3Config.logLevel config).
Proof.
  unfold configOf. intros H.
  destruct (getS3Config_fields _ _ _ _ _ _ _ _ _ _ _ _ _ _ H)
    as (_ & Hb & Hp & Hr & He & Hc & Ha & Hl).
  repeat split; assumption.
Qed.

(** X20. Start-up and flush fit together: after [FLBPluginInit] has
    returned [FLB_OK] for an instance, a flush under the context it gave
    the host uploads one object to the bucket configured for that
    instance, under a key that ends in [.log.gz] when the instance's
    [Compress] value is [gzip] and in [.log] otherwise. *)
Theorem FLBPluginInit_then_flush (ctx : Z) (h h' : Host) (data : list value) :
  FLBPluginInit ctx h = Returned FLB_OK h' ->
  forallb encodable (delivered data) = true ->
  exists code st' input dir stamp,
    FLBPluginFlushCtx (List.length (s3operators (process h))) data (process h')
    = Some (code, st')
    /\ uploads (events st') = (uploads (events (process h')) ++ [input])%list
    /\ Bucket input = configKeys h ctx "Bucket"
    /\ Key input
       = dir ++ stamp ++ (if String.eqb (configKeys h ctx "Compress") "gzip"
                          then ".log.gz" else ".log").
Proof.
  intros Hok Henc.
  destruct (FLBPluginInit_run ctx h) as (st0 & pevs & evs & -> & Hrun & _).
  unfold initFailure, initConfig in Hrun.
  destruct (configOf_total h ctx) as (r & evs' & Hr). rewrite Hr in Hrun.
  rewrite Hok in Hrun.
  destruct r as [config|err]; [|discriminate Hrun].
  destruct (bucketFailure config); [discriminate Hrun|].
  injection Hrun as ->.
  destruct (configOf_fields h ctx config _ Hr) as (Hb & _ & _ & _ & Hc & _).
  cbn [process addTrail withProcess].
  pose proof (registered_nth (addEvents (process h) pevs) (operatorOf config)) as Hop.
  cbn [addEvents s3operators] in Hop.
  rewrite (FLBPluginFlushCtx_run _ data _ _ Hop Henc). cbv zeta.
  do 5 eexists. split; [reflexivity|]. cbn [events].
  rewrite !uploads_app, uploads_encodeWarnings.
  assert (Hs : forall op i, uploads (match s3operator.uploader op i with
                                     | Some e => sendWarning op e
                                     | None => []
                                     end) = []).
  { intros op i. destruct (s3operator.uploader op i);
      [apply uploads_sendWarning|reflexivity]. }
  rewrite Hs. cbn [uploads flat_map app registered events].
  split; [reflexivity|]. cbn [Bucket Key operatorOf s3operator.bucket].
  split; [exact Hb|].
  rewrite objectKeyOf_last. cbn [operatorOf s3operator.compressFormat].
  rewrite Hc. unfold suffixOf.
  destruct (String.eqb (configKeys h ctx "Compress") "gzip"); reflexivity.
Qed.

(** X21. [FLBPluginInit] asks the storage service to create a bucket
    only when the configuration is built and the instance's
    [AutoCreateBucket] value is one of the spellings of true, and then
    once: for the configured bucket, with the region as location
    constraint except in [us-east-1]. *)
Theorem FLBPluginInit_creates_bucket_on_request_only (ctx : Z) (h : Host) :
  exists h' evs,
    (FLBPluginInit ctx h = Returned FLB_OK h' \/ FLBPluginInit ctx h = Exited 1 h')
    /\ trail h' = (trail h ++ evs)%list
    /\ createBucketCalls evs
       = match initConfig h ctx with
         | Some config =>
             if existsb (String.eqb (configKeys h ctx "AutoCreateBucket")) trueSpellings
             then [(sessionOf config,
                    {| s3.Bucket := configKeys h ctx "Bucket";
                       s3.LocationConstraint :=
                         if String.eqb (configKeys h ctx "Region") "us-east-1"
                         then None else Some (configKeys h ctx "Region") |})]
             else []
         | None => []
         end.
Proof.
  destruct (FLBPluginInit_run ctx h) as (st0 & pevs & evs & -> & Hrun & _ & _ & Hc & _).
  assert (Hcalls : createBucketCalls evs
                   = match initConfig h ctx with
                     | Some config =>
                         if existsb (String.eqb (configKeys h ctx "AutoCreateBucket"))
                              trueSpellings
                         then [(sessionOf config,
                                {| s3.Bucket := configKeys h ctx "Bucket";
                                   s3.LocationConstraint :=
                                     if String.eqb (configKeys h ctx "Region") "us-east-1"
                                     then None else Some (configKeys h ctx "Region") |})]
                         else []
                     | None => []
                     end).
  { rewrite Hc. unfold initConfig.
    destruct (configOf h ctx (process h)) as [[[config|err] st]|] eqn:Hcfg;
      try reflexivity.
    destruct (configOf_fields h ctx config st Hcfg) as (Hb & _ & Hr & _ & _ & Ha & _).
    rewrite Ha. unfold bucketInput. rewrite Hb, Hr. reflexivity. }
  destruct (initFailure h ctx) as [e|].
  - do 2 eexists. split; [right; exact Hrun|]. split; [reflexivity|exact Hcalls].
  - destruct (initConfig h ctx) as [config|].
    + do 2 eexists. split; [left; exact Hrun|]. split; [reflexivity|exact Hcalls].
    + do 2 eexists. split; [right; exact Hrun|]. split; [reflexivity|exact Hcalls].
Qed.

(** X22. The start-up log shows the keys through [obfuscateSecret]
    only: two start-ups that succeed, for instances whose values differ
    in the access key id and the secret key alone, and there in nothing
    that [obfuscateSecret] shows, write the same lines. *)
Theorem FLBPluginInit_log_hides_keys (ctx : Z) (h1 h2 h1' h2' : Host) :
  List.length (s3operators (process h1)) = List.length (s3operators (process h2)) ->
  (forall key, key <> "AccessKeyID" -> key <> "SecretAccessKey" ->
               configKeys h1 ctx key = configKeys h2 ctx key) ->
  obfuscateSecret (configKeys h1 ctx "AccessKeyID")
  = obfuscateSecret (configKeys h2 ctx "AccessKeyID") ->
  obfuscateSecret (configKeys h1 ctx "SecretAccessKey")
  = obfuscateSecret (configKeys h2 ctx "SecretAccessKey") ->
  FLBPluginInit ctx h1 = Returned FLB_OK h1' ->
  FLBPluginInit ctx h2 = Returned FLB_OK h2' ->
  exists evs1 evs2,
    trail h1' = (trail h1 ++ evs1)%list
    /\ trail h2' = (trail h2 ++ evs2)%list
    /\ infoLines evs1 = infoLines evs2.
Proof.
  intros Hlen Hkeys Hak Hsk Hok1 Hok2.
  assert (Hrun : forall h h',
             FLBPluginInit ctx h = Returned FLB_OK h' ->
             exists evs config st,
               trail h' = (trail h ++ evs)%list
               /\ configOf h ctx (process h) = Some (inl config, st)
               /\ infoLines evs
                  = ((if log.IsLevelEnabled logger log.InfoLevel
                      then [("[s3operator] id = "
                               ++ fmtInt (List.length (s3operators (process h))))%string]
                      else [])
                       ++ (if log.IsLevelEnabled (s3Config.logLevel config) log.InfoLevel
                           then startUpLines (List.length (s3operators (process h)))
                                  (configKeys h ctx)
                                  (obfuscateSecret (configKeys h ctx "AccessKeyID"))
                                  (obfuscateSecret (configKeys h ctx "SecretAccessKey"))
                           else []))%list).
  { intros h h' Hok.
    destruct (FLBPluginInit_run ctx h) as (st0 & pevs & evs & -> & Hr & _ & _ & _ & Hi).
    cbv zeta in Hi. unfold initFailure, initConfig in *.
    destruct (configOf h ctx (process h)) as [[[config|err] st]|] eqn:Hcfg;
      rewrite Hok in Hr; try discriminate Hr.
    destruct (bucketFailure config); [discriminate Hr|].
    injection Hr as ->. exists evs, config, st.
    split; [reflexivity|]. split; [reflexivity|].
    rewrite Hi, app_nil_r. reflexivity. }
  destruct (Hrun h1 h1' Hok1) as (evs1 & c1 & s1 & Ht1 & Hc1 & Hi1).
  destruct (Hrun h2 h2' Hok2) as (evs2 & c2 & s2 & Ht2 & Hc2 & Hi2).
  exists evs1, evs2. split; [exact Ht1|]. split; [exact Ht2|].
  rewrite Hi1, Hi2, Hlen, Hak, Hsk.
  destruct (configOf_fields h1 ctx c1 s1 Hc1) as (_ & _ & _ & _ & _ & _ & Hl1).
  destruct (configOf_fields h2 ctx c2 s2 Hc2) as (_ & _ & _ & _ & _ & _ & Hl2).
  assert (K : forall key, String.eqb key "AccessKeyID" = false ->
                          String.eqb key "SecretAccessKey" = false ->
                          configKeys h1 ctx key = configKeys h2 ctx key).
  { intros key E1 E2. apply Hkeys; apply String.eqb_neq; assumption. }
  rewrite (K "LogLevel" eq_refl eq_refl), Hl2 in Hl1. injection Hl1 as ->.
  unfold startUpLines.
  rewrite (K "Credential" eq_refl eq_refl), (K "Bucket" eq_refl eq_refl),
    (K "S3Prefix" eq_refl eq_refl), (K "Region" eq_refl eq_refl),
    (K "Compress" eq_refl eq_refl), (K "Endpoint" eq_refl eq_refl),
    (K "AutoCreateBucket" eq_refl eq_refl), (K "TimeZone" eq_refl eq_refl).
  reflexivity.
Qed.

End Plugin.

(** * The statements at concrete inputs *)

(** C1 at 2024-03-05T08:07:09 in a zone nine hours ahead of UTC, with
    the prefix "logs". *)
Lemma GenerateObjectKey_format_witness :
let op := {| s3operator.bucket := "bucket"; s3operator.prefix := "logs";
             s3operator.uploader := sample.alwaysOk;
             s3operator.compressFormat := gzipFormat;
             s3operator.logger := log.InfoLevel;
             s3operator.location := sample.JST |} in
let t := time.Unix (1709626029 - 32400) 0 in
let tl := time.In t sample.JST in
showsCivil tl 2024 3 5 8 7 9
/\ forallb ordinary (filepath.split "logs") = true
/\ timestampText tl
   = decimal 4 2024 ++ decimal 2 3 ++ decimal 2 5
       ++ decimal 2 8 ++ decimal 2 7 ++ decimal 2 9
/\ option_map fst (GenerateObjectKey op t (sample.state []))
   = Some ("logs" ++ "/" ++ dateText tl ++ "/" ++ hourText tl ++ "/"
             ++ timestampText tl ++ ".log.gz").
Proof.
cbv zeta.
assert (Hc : showsCivil (time.In (time.Unix (1709626029 - 32400) 0) sample.JST)
               2024 3 5 8 7 9).
{ unfold showsCivil, validDate.
  change (daysIn (leapYear 2024) 3) with 31.
  repeat split; lia. }
destruct (GenerateObjectKey_format
            {| s3operator.bucket := "bucket"; s3operator.prefix := "logs";
               s3operator.uploader := sample.alwaysOk;
               s3operator.compressFormat := gzipFormat;
               s3operator.logger := log.InfoLevel;
               s3operator.location := sample.JST |}
            (time.Unix (1709626029 - 32400) 0) (sample.state []))
  as (_ & _ & Hlit & Hciv & _).
split; [exact Hc|]. split; [reflexivity|].
split; [exact (proj2 (proj2 (Hciv 2024 3 5 8 7 9 Hc ltac:(lia))))|].
exact (Hlit eq_refl).
Defined.

(** C2 at a batch of one record whose put-object call fails. *)
Lemma FLBPluginFlushCtx_outcome_witness :
exists st' input e,
  FLBPluginFlushCtx sample.clock sample.Marshal flate.deflateStored 0
    [sample.helloRecord]
    (sample.state [sample.operator sample.alwaysFails plainTextFormat])
  = Some (FLB_RETRY, st')
  /\ uploads (events st') = [input]
  /\ sample.alwaysFails input = Some e.
Proof.
destruct (FLBPluginFlushCtx_outcome sample.clock sample.Marshal
            flate.deflateStored 0 [sample.helloRecord]
            (sample.state [sample.operator sample.alwaysFails plainTextFormat])
            (sample.operator sample.alwaysFails plainTextFormat) eq_refl eq_refl)
  as (code & st' & evs & Hrun & Hev & _ & Hcases).
simpl in Hev.
destruct Hcases as [(_ & input & _ & Hu)|[(Hc & input & e & Hu & He)|(_ & _ & Hf & _)]];
  [discriminate Hu| |discriminate Hf].
exists st', input, e. rewrite <- Hc, Hev. auto.
Defined.

(** C3 at a gzip batch of two records, the first of which cannot be
    marshalled: one put-object call, with the key of the first clock
    reading. *)
Lemma FLBPluginFlushCtx_single_put_witness :
exists code st' body,
  FLBPluginFlushCtx sample.clock sample.Marshal flate.deflateStored 0
    [sample.floatRecord; sample.helloRecord]
    (sample.state [sample.operator sample.alwaysOk gzipFormat])
  = Some (code, st')
  /\ uploads (events st')
     = [{| Bucket := "bucket"; Key := "logs/20240305/08/20240305080709.log.gz";
           Body := body |}]
  /\ List.length
       (encodedLines sample.Marshal
          (delivered [sample.floatRecord; sample.helloRecord])) = 1%nat.
Proof.
destruct (FLBPluginFlushCtx_single_put sample.clock sample.Marshal
            flate.deflateStored 0 [sample.floatRecord; sample.helloRecord]
            (sample.state [sample.operator sample.alwaysOk gzipFormat])
            (sample.operator sample.alwaysOk gzipFormat) eq_refl eq_refl)
  as (code & st' & evs & body & Hrun & Hev & Hup & _).
exists code, st', body. split; [exact Hrun|]. split; [|reflexivity].
rewrite Hev. exact Hup.
Defined.

(** C3 as stated fails: for a batch of one record the payload ends with
    a newline, so it is not the lines joined by newline separators. *)
Lemma flush_payload_is_not_newline_joined :
exists code st' input,
  FLBPluginFlushCtx sample.clock sample.Marshal flate.deflateStored 0
    [sample.helloRecord]
    (sample.state [sample.operator sample.alwaysOk plainTextFormat])
  = Some (code, st')
  /\ uploads (events st') = [input]
  /\ Body input
     = list_byte_of_string
         (joinedLines sample.Marshal (delivered [sample.helloRecord])
            ++ String "010" "")
  /\ Body input
     <> list_byte_of_string
          (joinedLines sample.Marshal (delivered [sample.helloRecord])).
Proof.
do 3 eexists. split; [vm_compute; reflexivity|].
split; [vm_compute; reflexivity|].
split; [vm_compute; reflexivity|].
vm_compute. discriminate.
Qed.

(** C5 at a record with a byte sequence at depth one and at depth two. *)
Lemma encodeJSON_text_at_every_depth_witness :
textKeyed (VMap sample.helloFields) = true
/\ exists m,
    encodeJSON sample.helloFields = Some m
    /\ encodedAt ["k8s"; "pod"] (VSMap m) = Some (VString "web-1")
    /\ forall j, jsonOf (VSMap m) = Some j ->
                 jsonAt ["log"] j = Some (JString "hello")
                 /\ jsonAt ["k8s"; "pod"] j = Some (JString "web-1")
                 /\ jsonAt ["n"] j = Some (JInt 7).
Proof.
split; [reflexivity|].
destruct (encodeJSON_text_at_every_depth sample.Marshal sample.helloFields eq_refl)
  as (m & He & _ & _ & Hat & Hjson).
exists m. split; [exact He|].
split; [exact (Hat ["k8s"; "pod"] _ eq_refl)|].
intros j Hj. repeat split.
- exact (Hjson j Hj ["log"] _ eq_refl).
- exact (Hjson j Hj ["k8s"; "pod"] _ eq_refl).
- exact (Hjson j Hj ["n"] _ eq_refl).
Defined.

(** C6 at a configuration with static keys: "gzip" gives gzip mode, and
    "GZIP" is built as well, in plain mode. *)
Lemma getS3Config_compress_mode_witness :
exists conf st',
  getS3Config sample.sharedProfile sample.noEnv strings.ToLowerASCII sample.zoneinfo
    "AKID" "secret" "" "logs" "bucket" "us-east-1" "gzip" "" "" "" ""
    (sample.state []) = Some (inl conf, st')
  /\ s3Config.compress conf = gzipFormat
  /\ exists conf',
      getS3Config sample.sharedProfile sample.noEnv strings.ToLowerASCII
        sample.zoneinfo
        "AKID" "secret" "" "logs" "bucket" "us-east-1" "GZIP" "" "" "" ""
        (sample.state []) = Some (inl conf', st')
      /\ s3Config.compress conf' = plainTextFormat.
Proof.
assert (H : exists conf st',
           getS3Config sample.sharedProfile sample.noEnv strings.ToLowerASCII
             sample.zoneinfo
             "AKID" "secret" "" "logs" "bucket" "us-east-1" "gzip" "" "" "" ""
             (sample.state []) = Some (inl conf, st'))
  by (do 2 eexists; vm_compute; reflexivity).
destruct H as (conf & st' & H).
destruct (getS3Config_compress_mode sample.sharedProfile sample.noEnv
            strings.ToLowerASCII sample.zoneinfo
            "AKID" "secret" "" "logs" "bucket" "us-east-1" "gzip" "" "" "" ""
            (sample.state [])) as (r & st1 & H1 & T).
rewrite H in H1. injection H1 as <- <-.
cbv beta iota in T. destruct T as (Hg & _ & Hother).
exists conf, st'. split; [exact H|]. split; [now apply Hg|].
destruct (Hother "GZIP") as (conf' & H' & _ & Hp).
exists conf'. split; [exact H'|]. apply Hp. discriminate.
Defined.

(** C7 at the endpoint of the default cloud storage. *)
Lemma getS3Config_rejects_aws_endpoint_witness :
exists st',
  getS3Config sample.sharedProfile sample.noEnv strings.ToLowerASCII sample.zoneinfo
    "AKID" "secret" "" "logs" "bucket" "us-east-1" "gzip"
    "https://s3.amazonaws.com" "" "" "" (sample.state [])
  = Some (inr endpointError, st').
Proof.
assert (H : exists conf st',
           getS3Config sample.sharedProfile sample.noEnv strings.ToLowerASCII
             sample.zoneinfo
             "AKID" "secret" "" "logs" "bucket" "us-east-1" "gzip" "" "" "" ""
             (sample.state []) = Some (inl conf, st'))
  by (do 2 eexists; vm_compute; reflexivity).
destruct H as (conf & st' & H).
exists st'.
exact (proj2 (getS3Config_rejects_aws_endpoint sample.sharedProfile sample.noEnv
                strings.ToLowerASCII sample.zoneinfo
                "AKID" "secret" "" "logs" "bucket" "us-east-1" "gzip" "" "" ""
                "https://s3." (sample.state [])) conf st' H).
Defined.

(** C8 at the values "maybe" (auto-creation), "loud" (log level) and
    "Mars/Olympus" (time zone). *)
Lemma getS3Config_defaults_and_fatal_values_witness :
(exists conf st',
    getS3Config sample.sharedProfile sample.noEnv strings.ToLowerASCII sample.zoneinfo
      "AKID" "secret" "" "logs" "bucket" "us-east-1" "" "" "maybe" "" ""
      (sample.state []) = Some (inl conf, st')
    /\ s3Config.autoCreateBucket conf = false
    /\ s3Config.logLevel conf = log.InfoLevel
    /\ s3Config.location conf = Local (sample.state []))
/\ (exists e st',
       getS3Config sample.sharedProfile sample.noEnv strings.ToLowerASCII
         sample.zoneinfo
         "AKID" "secret" "" "logs" "bucket" "us-east-1" "" "" "maybe" "loud" ""
         (sample.state []) = Some (inr e, st'))
/\ (exists e st',
       getS3Config sample.sharedProfile sample.noEnv strings.ToLowerASCII
         sample.zoneinfo
         "AKID" "secret" "" "logs" "bucket" "us-east-1" "" "" "maybe" ""
         "Mars/Olympus" (sample.state []) = Some (inr e, st')).
Proof.
split; [|split].
- assert (H : exists conf st',
             getS3Config sample.sharedProfile sample.noEnv strings.ToLowerASCII
               sample.zoneinfo
               "AKID" "secret" "" "logs" "bucket" "us-east-1" "" "" "maybe" "" ""
               (sample.state []) = Some (inl conf, st'))
    by (do 2 eexists; vm_compute; reflexivity).
  destruct H as (conf & st' & H).
  destruct (getS3Config_defaults_and_fatal_values sample.sharedProfile sample.noEnv
              strings.ToLowerASCII sample.zoneinfo
              "AKID" "secret" "" "logs" "bucket" "us-east-1" "" "" "maybe" "" ""
              (sample.state []))
    as (_ & Hauto & (_ & Hlevel) & Hzone & _).
  exists conf, st'. split; [exact H|].
  split; [exact (proj2 (Hauto eq_refl) conf st' H)|].
  split; [exact (Hlevel conf st' eq_refl H)|exact (Hzone conf st' H)].
- destruct (getS3Config_defaults_and_fatal_values sample.sharedProfile sample.noEnv
              strings.ToLowerASCII sample.zoneinfo
              "AKID" "secret" "" "logs" "bucket" "us-east-1" "" "" "maybe" "loud" ""
              (sample.state []))
    as (_ & _ & _ & _ & Hlevel & _).
  apply Hlevel; [discriminate|reflexivity].
- destruct (getS3Config_defaults_and_fatal_values sample.sharedProfile sample.noEnv
              strings.ToLowerASCII sample.zoneinfo
              "AKID" "secret" "" "logs" "bucket" "us-east-1" "" "" "maybe" ""
              "Mars/Olympus" (sample.state []))
    as (_ & _ & _ & _ & _ & Hzone).
  apply (Hzone "unknown time zone Mars/Olympus"); [discriminate|reflexivity].
Defined.

(** C9 with the stored-block codec in the place of the compressor, and
    the same steps with a member name that has a letter outside ASCII. *)
Lemma makeGzip_roundtrip_witness :
(forall data rest,
    flate.inflateStored (flate.deflateStored data ++ rest)%list = Some (data, rest))
/\ (exists out st',
      makeGzip sample.clock flate.deflateStored (list_byte_of_string "hello")
        (sample.state []) = Some ((out, None), st')
      /\ gzip.gunzip flate.inflateStored out = Some (list_byte_of_string "hello"))
/\ gzip.gunzip flate.inflateStored
     (fst (gzipWith flate.deflateStored (String "195" (String "169" "t" ++ "e"))
             (time.Unix 0 0) (list_byte_of_string "hello")))
   = Some (list_byte_of_string "hello").
Proof.
split; [exact inflateStored_deflateStored|].
destruct (makeGzip_roundtrip sample.clock flate.deflateStored flate.inflateStored
            inflateStored_deflateStored (list_byte_of_string "hello") (sample.state []))
  as [(out & st' & Hm & _ & Hg) Hany].
split; [exists out, st'; split; [exact Hm|exact Hg]|].
apply (Hany (String "195" (String "169" "t" ++ "e")) (time.Unix 0 0)
            [xe9; x74; x65]); [reflexivity|simpl; lia].
Defined.

(** C10 at a missing credential file, with a key pair that the static
    source would have accepted. *)
Lemma GetCredentials_file_failure_is_final_witness :
"/nofile" <> ""
/\ credentials.Get sample.sharedProfile sample.awsEnv
     (credentials.NewStaticCredentials "AKID" "secret" "")
   = inl {| credentials.AccessKeyID := "AKID"; credentials.SecretAccessKey := "secret";
            credentials.SessionToken := "";
            credentials.ProviderName := "StaticProvider" |}
/\ exists st',
    GetCredentials sample.sharedProfile sample.awsEnv "AKID" "secret" "/nofile"
      (sample.state []) = Some (inr "Failed to create credentials", st')
    /\ exists evs,
         events st' = ([] ++ evs)%list
         /\ attempts evs = [credentials.NewSharedCredentials "/nofile" "default"].
Proof.
split; [discriminate|]. split; [reflexivity|].
exact (GetCredentials_file_failure_is_final sample.sharedProfile sample.awsEnv
         "AKID" "secret" "/nofile"
         "SharedCredsLoad: failed to load shared credentials file"
         (sample.state []) ltac:(discriminate) eq_refl).
Defined.

(** * Further statements at concrete inputs *)

(** X5 with an access key and no secret, in an environment that holds
    valid credentials. *)
Lemma GetCredentials_half_a_key_pair_witness :
(exists v, credentials.Get sample.sharedProfile sample.awsEnv
             credentials.NewEnvCredentials = inl v)
/\ exists st',
    GetCredentials sample.sharedProfile sample.awsEnv "AKID" "" "" (sample.state [])
    = Some (inr "Failed to create credentials", st')
    /\ attempts (events st') = [credentials.NewStaticCredentials "AKID" "" ""].
Proof.
split; [eexists; reflexivity|].
destruct (GetCredentials_half_a_key_pair sample.sharedProfile sample.awsEnv
            "AKID" "" (sample.state []))
  as (st' & Hrun & Hev).
- right. split; [discriminate|reflexivity].
- exists st'. split; [exact Hrun|]. rewrite Hev. reflexivity.
Defined.

(** X7 at a record with a mapping under the quiet NaN, between two
    text fields. *)
Lemma encodeJSON_drops_mapping_under_NaN_witness :
isNaN 0x7ff8000000000000 = true
/\ encodeJSON [(KString "a", VInt 1);
               (KFloat 0x7ff8000000000000, VMap [(KInt 1, VInt 2)]);
               (KString "b", VInt 3)]
   = Some [("a", VInt 1); ("b", VInt 3)].
Proof.
split; [reflexivity|].
pose proof (encodeJSON_drops_mapping_under_NaN [(KString "a", VInt 1)]
              [(KString "b", VInt 3)] 0x7ff8000000000000 [(KInt 1, VInt 2)] eq_refl)
  as H.
cbn [app] in H. rewrite H. reflexivity.
Defined.

(** X9 at a buffer whose second object is a bare integer: the record
    after it is not uploaded. *)
Lemma FLBPluginFlushCtx_stops_at_rejected_object_witness :
isRecord (VInt 5) = false
/\ FLBPluginFlushCtx sample.clock sample.Marshal flate.deflateStored 0
     [sample.helloRecord; VInt 5; sample.helloRecord]
     (sample.state [sample.operator sample.alwaysOk plainTextFormat])
   = FLBPluginFlushCtx sample.clock sample.Marshal flate.deflateStored 0
       [sample.helloRecord]
       (sample.state [sample.operator sample.alwaysOk plainTextFormat]).
Proof.
split; [reflexivity|].
exact (FLBPluginFlushCtx_stops_at_rejected_object sample.clock sample.Marshal
         flate.deflateStored 0 [sample.helloRecord] [sample.helloRecord] (VInt 5)
         (sample.state [sample.operator sample.alwaysOk plainTextFormat]) eq_refl).
Defined.

(** X10 at a flush of an operator in the zone of Tokyo, followed by the
    building of a configuration without time zone. *)
Lemma FLBPluginFlushCtx_leaves_operator_zone_witness :
let op := {| s3operator.bucket := "bucket"; s3operator.prefix := "logs";
             s3operator.uploader := sample.alwaysOk;
             s3operator.compressFormat := gzipFormat;
             s3operator.logger := log.InfoLevel;
             s3operator.location := sample.JST |} in
exists code st' conf st'',
  FLBPluginFlushCtx sample.clock sample.Marshal flate.deflateStored 0
    [sample.helloRecord] (sample.state [op]) = Some (code, st')
  /\ Local (sample.state [op]) = time.UTC
  /\ Local st' = sample.JST
  /\ ticks st' = 3%nat
  /\ getS3Config sample.sharedProfile sample.noEnv strings.ToLowerASCII sample.zoneinfo
       "AKID" "secret" "" "logs" "bucket" "us-east-1" "" "" "" "" "" st'
     = Some (inl conf, st'')
  /\ s3Config.location conf = sample.JST.
Proof.
intros op.
destruct (FLBPluginFlushCtx_leaves_operator_zone sample.sharedProfile sample.noEnv
            strings.ToLowerASCII sample.zoneinfo sample.clock sample.Marshal
            flate.deflateStored 0 [sample.helloRecord] (sample.state [op]) op
            eq_refl eq_refl)
  as (code & st' & Hrun & Hloc & _ & Hticks & Hconf).
destruct (getS3Config_total sample.sharedProfile sample.noEnv strings.ToLowerASCII
            sample.zoneinfo "AKID" "secret" "" "logs" "bucket" "us-east-1"
            "" "" "" "" "" st') as (r & evs & Hr).
assert (Hc : exists conf, r = inl conf).
{ rewrite (getS3Config_retrieved sample.sharedProfile sample.noEnv
             strings.ToLowerASCII sample.zoneinfo
             "AKID" "secret" "" "logs" "bucket" "us-east-1" "" "" "" "" "" st'
             _ eq_refl) in Hr.
  injection Hr as <- _. eexists. reflexivity. }
destruct Hc as [conf ->].
exists code, st', conf, (addEvents st' evs).
split; [exact Hrun|]. split; [reflexivity|]. split; [exact Hloc|].
split; [exact Hticks|]. split; [exact Hr|].
exact (Hconf _ _ _ _ _ _ _ _ _ _ _ _ _ (or_introl eq_refl) Hr).
Defined.

(** X11 at a batch whose first record cannot be marshalled, with a
    logger at info level and a put that fails. *)
Lemma FLBPluginFlushCtx_warnings_witness :
exists st' evs,
  FLBPluginFlushCtx sample.clock sample.Marshal flate.deflateStored 0
    [sample.floatRecord; sample.helloRecord]
    (sample.state [sample.operator sample.alwaysFails plainTextFormat])
  = Some (FLB_RETRY, st')
  /\ events st' = evs
  /\ List.length (warnings evs) = 2%nat.
Proof.
destruct (FLBPluginFlushCtx_warnings sample.clock sample.Marshal flate.deflateStored
            0 [sample.floatRecord; sample.helloRecord]
            (sample.state [sample.operator sample.alwaysFails plainTextFormat])
            (sample.operator sample.alwaysFails plainTextFormat) eq_refl eq_refl)
  as (failure & st' & evs & Hrun & Hev & Hw).
assert (Hf : exists e, failure = Some e).
{ destruct failure as [e|]; [now exists e|].
  vm_compute in Hrun. discriminate Hrun. }
destruct Hf as [e ->].
exists st', (events st'). split; [exact Hrun|]. split; [reflexivity|].
rewrite Hev. cbn [events sample.state app]. rewrite Hw. reflexivity.
Defined.

(** X12 at two buffers of one record each. *)
Lemma FLBPluginFlushCtx_batches_concatenate_witness :
let st := sample.state [sample.operator sample.alwaysOk plainTextFormat] in
exists ca cb cab sa' sb' sab' ia ib iab,
  FLBPluginFlushCtx sample.clock sample.Marshal flate.deflateStored 0
    [sample.helloRecord] st = Some (ca, sa')
  /\ FLBPluginFlushCtx sample.clock sample.Marshal flate.deflateStored 0
       [sample.floatRecord; sample.helloRecord] st = Some (cb, sb')
  /\ FLBPluginFlushCtx sample.clock sample.Marshal flate.deflateStored 0
       [sample.helloRecord; sample.floatRecord; sample.helloRecord] st
     = Some (cab, sab')
  /\ uploads (events sa') = [ia]
  /\ uploads (events sb') = [ib]
  /\ uploads (events sab') = [iab]
  /\ Body iab = (Body ia ++ Body ib)%list.
Proof.
intros st.
exact (FLBPluginFlushCtx_batches_concatenate sample.clock sample.Marshal
         flate.deflateStored 0 [sample.helloRecord]
         [sample.floatRecord; sample.helloRecord] st st st
         (sample.operator sample.alwaysOk plainTextFormat)
         eq_refl eq_refl eq_refl eq_refl eq_refl eq_refl).
Defined.

(** X13 at two instants of the second 2024-03-05T08:07:09Z, half a
    second apart, the second one presented in the zone of Berlin. *)
Lemma GenerateObjectKey_second_precision_witness :
exists st1 st2,
  GenerateObjectKey (sample.operator sample.alwaysOk plainTextFormat)
    (time.Unix 1709626029 0) (sample.state [])
  = Some ("logs/20240305/08/20240305080709.log", st1)
  /\ GenerateObjectKey (sample.operator sample.alwaysFails plainTextFormat)
       (time.In (time.Unix 1709626029 500000000) sample.Berlin) (sample.state [])
     = Some ("logs/20240305/08/20240305080709.log", st2).
Proof.
destruct (GenerateObjectKey_second_precision
            (sample.operator sample.alwaysOk plainTextFormat)
            (sample.operator sample.alwaysFails plainTextFormat)
            (time.Unix 1709626029 0)
            (time.In (time.Unix 1709626029 500000000) sample.Berlin)
            (sample.state []) (sample.state []) eq_refl eq_refl eq_refl eq_refl)
  as (key & st1 & st2 & H1 & H2).
assert (Hk : key = "logs/20240305/08/20240305080709.log").
{ assert (E : option_map fst
                (GenerateObjectKey (sample.operator sample.alwaysOk plainTextFormat)
                   (time.Unix 1709626029 0) (sample.state []))
              = Some "logs/20240305/08/20240305080709.log")
    by (vm_compute; reflexivity).
  rewrite H1 in E. now injection E. }
exists st1, st2. rewrite <- Hk. split; assumption.
Defined.

(** X15 at the prefixes "logs" and "logs/". *)
Lemma GenerateObjectKey_prefix_trailing_separator_witness :
let op := sample.operator sample.alwaysOk gzipFormat in
let op' := {| s3operator.bucket := "bucket"; s3operator.prefix := "logs/";
              s3operator.uploader := sample.alwaysOk;
              s3operator.compressFormat := gzipFormat;
              s3operator.logger := log.InfoLevel;
              s3operator.location := time.UTC |} in
exists key st1 st2,
  GenerateObjectKey op (time.Unix 1709626029 0) (sample.state []) = Some (key, st1)
  /\ GenerateObjectKey op' (time.Unix 1709626029 0) (sample.state []) = Some (key, st2).
Proof.
intros op op'.
apply (GenerateObjectKey_prefix_trailing_separator op op'
         (time.Unix 1709626029 0) (sample.state []));
  [discriminate|reflexivity|reflexivity|reflexivity].
Defined.

(** X16 with the stored-block codec in the place of the compressor. *)
Lemma FLBPluginFlushCtx_gzip_object_decompresses_witness :
exists code st' input,
  FLBPluginFlushCtx sample.clock sample.Marshal flate.deflateStored 0
    [sample.helloRecord] (sample.state [sample.operator sample.alwaysOk gzipFormat])
  = Some (code, st')
  /\ uploads (events st') = [input]
  /\ gzip.gunzip flate.inflateStored (Body input)
     = Some (list_byte_of_string
               (payload sample.Marshal (delivered [sample.helloRecord]))).
Proof.
exact (FLBPluginFlushCtx_gzip_object_decompresses sample.clock sample.Marshal
         flate.deflateStored flate.inflateStored inflateStored_deflateStored
         0 [sample.helloRecord]
         (sample.state [sample.operator sample.alwaysOk gzipFormat])
         (sample.operator sample.alwaysOk gzipFormat) eq_refl eq_refl eq_refl).
Defined.

(** X20 at the first sample instance: start-up, then a flush of one
    record under the context 0. *)
Lemma FLBPluginInit_then_flush_witness :
exists h' code st' input,
  FLBPluginInit sample.sharedProfile sample.noEnv strings.ToLowerASCII sample.zoneinfo
    hostSample.versionInfo hostSample.NewUploader hostSample.CreateBucket
    1 (hostSample.host []) = Returned FLB_OK h'
  /\ FLBPluginFlushCtx sample.clock sample.Marshal flate.deflateStored 0
       [sample.helloRecord] (process h') = Some (code, st')
  /\ uploads (events st') = (uploads (events (process h')) ++ [input])%list
  /\ Bucket input = "bucket".
Proof.
assert (Hinit : exists h',
           FLBPluginInit sample.sharedProfile sample.noEnv strings.ToLowerASCII
             sample.zoneinfo hostSample.versionInfo hostSample.NewUploader
             hostSample.CreateBucket 1 (hostSample.host []) = Returned FLB_OK h')
  by (eexists; vm_compute; reflexivity).
destruct Hinit as [h' Hinit].
destruct (FLBPluginInit_then_flush sample.sharedProfile sample.noEnv
            strings.ToLowerASCII sample.zoneinfo sample.clock sample.Marshal
            flate.deflateStored hostSample.versionInfo hostSample.NewUploader
            hostSample.CreateBucket 1 (hostSample.host []) h' [sample.helloRecord]
            Hinit eq_refl)
  as (code & st' & input & dir & stamp & Hrun & Hup & Hb & _).
exists h', code, st', input.
split; [exact Hinit|]. split; [exact Hrun|]. split; [exact Hup|exact Hb].
Defined.

(** X22 at the first sample instance with two pairs of keys that begin
    and end alike. *)
Lemma FLBPluginInit_log_hides_keys_witness :
let h1 := hostSample.host [] in
let h2 := {| process := sample.state []; configKeys := hostSample.otherKeys;
             trail := [] |} in
configKeys h1 1 "SecretAccessKey" <> configKeys h2 1 "SecretAccessKey"
/\ exists h1' h2',
    FLBPluginInit sample.sharedProfile sample.noEnv strings.ToLowerASCII sample.zoneinfo
      hostSample.versionInfo hostSample.NewUploader hostSample.CreateBucket 1 h1
    = Returned FLB_OK h1'
    /\ FLBPluginInit sample.sharedProfile sample.noEnv strings.ToLowerASCII
         sample.zoneinfo hostSample.versionInfo hostSample.NewUploader
         hostSample.CreateBucket 1 h2
       = Returned FLB_OK h2'
    /\ infoLines (trail h1') = infoLines (trail h2')
    /\ List.length (infoLines (trail h1')) = 12%nat.
Proof.
intros h1 h2. split; [discriminate|].
assert (H1 : exists h1',
           FLBPluginInit sample.sharedProfile sample.noEnv strings.ToLowerASCII
             sample.zoneinfo hostSample.versionInfo hostSample.NewUploader
             hostSample.CreateBucket 1 h1 = Returned FLB_OK h1'
           /\ List.length (infoLines (trail h1')) = 12%nat)
  by (eexists; split; vm_compute; reflexivity).
assert (H2 : exists h2',
           FLBPluginInit sample.sharedProfile sample.noEnv strings.ToLowerASCII
             sample.zoneinfo hostSample.versionInfo hostSample.NewUploader
             hostSample.CreateBucket 1 h2 = Returned FLB_OK h2')
  by (eexists; vm_compute; reflexivity).
destruct H1 as (h1' & H1 & Hn), H2 as (h2' & H2).
assert (Hkeys : forall key, key <> "AccessKeyID" -> key <> "SecretAccessKey" ->
                            configKeys h1 1 key = configKeys h2 1 key).
{ intros key Ha Hs. unfold h1, h2, hostSample.host. cbn [configKeys].
  unfold hostSample.otherKeys.
  apply String.eqb_neq in Ha, Hs. now rewrite Ha, Hs. }
destruct (FLBPluginInit_log_hides_keys sample.sharedProfile sample.noEnv
            strings.ToLowerASCII sample.zoneinfo hostSample.versionInfo
            hostSample.NewUploader hostSample.CreateBucket 1 h1 h2 h1' h2'
            eq_refl Hkeys eq_refl eq_refl H1 H2)
  as (evs1 & evs2 & Ht1 & Ht2 & Hi).
exists h1', h2'. split; [exact H1|]. split; [exact H2|]. split; [|exact Hn].
rewrite Ht1, Ht2. exact Hi.
Defined.
